(** * A shallow embedding of the memHierarchy cache controller

    The controller (class [Cache]; its implementation is the second document
    of src/sst/elements/patterns/src_ghost_bench/ghost.c) is a single-threaded
    event handler: every handler runs to completion on the cache's state and
    emits events on its links.  The embedding is a state-and-failure monad
    over a record of the cache's mutable members; the links are an output
    trace.  Pointers into the block array are (row, column) pairs, and
    heap-allocated [LoadInfo_t] objects live in a store keyed by address,
    so that the aliasing between [waitingLoads], [CacheBlock::loadInfo] and
    the pending self events is kept. *)

From Stdlib Require Import ZArith List Bool String Lia.
From stdpp Require Import base option list gmap strings.

Open Scope Z_scope.

(** ** Machine integers *)

Definition wrap64 (x : Z) : Z := x mod 2 ^ 64.
Definition wrap32 (x : Z) : Z := x mod 2 ^ 32.
(** [~x] on a 32-bit unsigned operand. *)
Definition lnot32 (x : Z) : Z := 2 ^ 32 - 1 - wrap32 x.

(** ** Enumerations *)

Inductive Command :=
| ReadReq | ReadResp | WriteReq | WriteResp
| RequestData | SupplyData | Invalidate | ACK | NACK
| Fetch | FetchInvalidate | FetchResp
| BusClearToSend | NULLCMD.

Inductive SourceType_t := UPSTREAM | DOWNSTREAM | SNOOP | DIRECTORY | SELF | PREFETCHER.

Inductive ForwardDir_t := SEND_DOWN | SEND_UP | SEND_BOTH.

Inductive BlockStatus := INVALID | ASSIGNED | SHARED | EXCLUSIVE | DIRTY.

Inductive CacheMode := MODE_INCLUSIVE | MODE_EXCLUSIVE | MODE_STANDARD.

Inductive Flag := F_WRITEBACK | F_LOCKED | F_DELAYED.

#[global] Instance Command_eq_dec : EqDecision Command.
Proof. solve_decision. Defined.
#[global] Instance SourceType_eq_dec : EqDecision SourceType_t.
Proof. solve_decision. Defined.
#[global] Instance ForwardDir_eq_dec : EqDecision ForwardDir_t.
Proof. solve_decision. Defined.
#[global] Instance BlockStatus_eq_dec : EqDecision BlockStatus.
Proof. solve_decision. Defined.
#[global] Instance CacheMode_eq_dec : EqDecision CacheMode.
Proof. solve_decision. Defined.

Definition src_code (s : SourceType_t) : nat :=
  match s with
  | UPSTREAM => 0 | DOWNSTREAM => 1 | SNOOP => 2
  | DIRECTORY => 3 | SELF => 4 | PREFETCHER => 5
  end%nat.

Definition src_of_code (n : nat) : option SourceType_t :=
  match n with
  | 0 => Some UPSTREAM | 1 => Some DOWNSTREAM | 2 => Some SNOOP
  | 3 => Some DIRECTORY | 4 => Some SELF | 5 => Some PREFETCHER
  | _ => None
  end%nat.

#[global] Instance SourceType_countable : Countable SourceType_t.
Proof.
  apply (inj_countable src_code src_of_code).
  intros []; reflexivity.
Defined.

(** ** Events (the simulator core's [MemEvent], seen through its accessors) *)

Definition id_type : Type := Z * Z.

Record MemEvent := mkEvent {
  getID : id_type;
  getResponseToID : id_type;
  getCmd : Command;
  getSrc : string;
  getDst : string;
  getAddr : Z;
  getSize : Z;
  flag_writeback : bool;
  flag_locked : bool;
  flag_delayed : bool;
  getPayload : list Z;
  getLinkId : Z
}.

Definition queryFlag (ev : MemEvent) (f : Flag) : bool :=
  match f with
  | F_WRITEBACK => flag_writeback ev
  | F_LOCKED => flag_locked ev
  | F_DELAYED => flag_delayed ev
  end.

Definition setFlag (f : Flag) (ev : MemEvent) : MemEvent :=
  mkEvent (getID ev) (getResponseToID ev) (getCmd ev) (getSrc ev) (getDst ev)
    (getAddr ev) (getSize ev)
    (match f with F_WRITEBACK => true | _ => flag_writeback ev end)
    (match f with F_LOCKED => true | _ => flag_locked ev end)
    (match f with F_DELAYED => true | _ => flag_delayed ev end)
    (getPayload ev) (getLinkId ev).

Definition setSize (n : Z) (ev : MemEvent) : MemEvent :=
  mkEvent (getID ev) (getResponseToID ev) (getCmd ev) (getSrc ev) (getDst ev)
    (getAddr ev) n (flag_writeback ev) (flag_locked ev) (flag_delayed ev)
    (getPayload ev) (getLinkId ev).

Definition setDst (d : string) (ev : MemEvent) : MemEvent :=
  mkEvent (getID ev) (getResponseToID ev) (getCmd ev) (getSrc ev) d
    (getAddr ev) (getSize ev) (flag_writeback ev) (flag_locked ev)
    (flag_delayed ev) (getPayload ev) (getLinkId ev).

Definition setSrc (s : string) (ev : MemEvent) : MemEvent :=
  mkEvent (getID ev) (getResponseToID ev) (getCmd ev) s (getDst ev)
    (getAddr ev) (getSize ev) (flag_writeback ev) (flag_locked ev)
    (flag_delayed ev) (getPayload ev) (getLinkId ev).

Definition setCmd (c : Command) (ev : MemEvent) : MemEvent :=
  mkEvent (getID ev) (getResponseToID ev) c (getSrc ev) (getDst ev)
    (getAddr ev) (getSize ev) (flag_writeback ev) (flag_locked ev)
    (flag_delayed ev) (getPayload ev) (getLinkId ev).

(** [setPayload(vector)]: the payload is replaced and the size follows it. *)
Definition setPayload (p : list Z) (ev : MemEvent) : MemEvent :=
  mkEvent (getID ev) (getResponseToID ev) (getCmd ev) (getSrc ev) (getDst ev)
    (getAddr ev) (Z.of_nat (length p)) (flag_writeback ev) (flag_locked ev)
    (flag_delayed ev) p (getLinkId ev).

(** [setPayload(size, ptr)]: [size] bytes are copied from the buffer that
    starts at [ptr]; here the buffer is the tail of a block's data. *)
Definition setPayloadFrom (n : Z) (buf : list Z) (ev : MemEvent) : MemEvent :=
  mkEvent (getID ev) (getResponseToID ev) (getCmd ev) (getSrc ev) (getDst ev)
    (getAddr ev) n (flag_writeback ev) (flag_locked ev)
    (flag_delayed ev) (take (Z.to_nat n) buf) (getLinkId ev).

Definition NO_ID : id_type := (0, -1).
Definition BROADCAST_TARGET : string := "BROADCAST".

Definition commandResponse (c : Command) : Command :=
  match c with
  | RequestData => SupplyData
  | SupplyData => WriteResp
  | ReadReq => ReadResp
  | WriteReq => WriteResp
  | Invalidate => ACK
  | Fetch | FetchInvalidate => FetchResp
  | _ => NULLCMD
  end.

Definition id_eqb (a b : id_type) : bool :=
  (fst a =? fst b) && (snd a =? snd b).

(** ** Blocks, rows and the controller's tables *)

(** A [CacheBlock*] is the position of the block in [database]. *)
Definition BlockRef : Type := nat * nat.

(** A [LoadInfo_t*] is an address in the store of live [LoadInfo_t] objects. *)
Definition LoadInfoPtr : Type := positive.

(** A block.  The lock counts are kept as integers; the block's row and
    column are its position ([BlockRef]). *)
Record CacheBlock := mkBlock {
  baseAddr : Z;
  tag : Z;
  status : BlockStatus;
  data : list Z;
  last_touched : Z;
  locked : Z;
  user_locked : Z;
  user_lock_needs_wb : bool;
  wb_in_progress : bool;
  loadInfo : option LoadInfoPtr
}.

Definition set_status (s : BlockStatus) (b : CacheBlock) : CacheBlock :=
  mkBlock (baseAddr b) (tag b) s (data b) (last_touched b) (locked b)
    (user_locked b) (user_lock_needs_wb b) (wb_in_progress b) (loadInfo b).
Definition set_data (d : list Z) (b : CacheBlock) : CacheBlock :=
  mkBlock (baseAddr b) (tag b) (status b) d (last_touched b) (locked b)
    (user_locked b) (user_lock_needs_wb b) (wb_in_progress b) (loadInfo b).
Definition set_last_touched (t : Z) (b : CacheBlock) : CacheBlock :=
  mkBlock (baseAddr b) (tag b) (status b) (data b) t (locked b)
    (user_locked b) (user_lock_needs_wb b) (wb_in_progress b) (loadInfo b).
Definition set_locked (n : Z) (b : CacheBlock) : CacheBlock :=
  mkBlock (baseAddr b) (tag b) (status b) (data b) (last_touched b) n
    (user_locked b) (user_lock_needs_wb b) (wb_in_progress b) (loadInfo b).
Definition set_user_locked (n : Z) (b : CacheBlock) : CacheBlock :=
  mkBlock (baseAddr b) (tag b) (status b) (data b) (last_touched b) (locked b)
    n (user_lock_needs_wb b) (wb_in_progress b) (loadInfo b).
Definition set_user_lock_needs_wb (v : bool) (b : CacheBlock) : CacheBlock :=
  mkBlock (baseAddr b) (tag b) (status b) (data b) (last_touched b) (locked b)
    (user_locked b) v (wb_in_progress b) (loadInfo b).
Definition set_wb_in_progress (v : bool) (b : CacheBlock) : CacheBlock :=
  mkBlock (baseAddr b) (tag b) (status b) (data b) (last_touched b) (locked b)
    (user_locked b) (user_lock_needs_wb b) v (loadInfo b).
Definition set_loadInfo (l : option LoadInfoPtr) (b : CacheBlock) : CacheBlock :=
  mkBlock (baseAddr b) (tag b) (status b) (data b) (last_touched b) (locked b)
    (user_locked b) (user_lock_needs_wb b) (wb_in_progress b) l.
Definition set_address (base t : Z) (b : CacheBlock) : CacheBlock :=
  mkBlock base t (status b) (data b) (last_touched b) (locked b)
    (user_locked b) (user_lock_needs_wb b) (wb_in_progress b) (loadInfo b).

(** Modelled from the spec: [CacheBlock::isValid] (cache.h is not among the
    sources).  A block holds valid data unless it is Invalid or Assigned:
    "an Assigned block is not a hit for any observer". *)
Definition isValid (b : CacheBlock) : bool :=
  match status b with INVALID | ASSIGNED => false | _ => true end.

(** Modelled from the spec: [CacheBlock::isInvalid] (cache.h): "Invalid: no
    valid data; block is reusable". *)
Definition isInvalid (b : CacheBlock) : bool :=
  match status b with INVALID => true | _ => false end.

(** Modelled from the spec: [CacheBlock::isAssigned] (cache.h): "Assigned:
    reserved for an in-flight load". *)
Definition isAssigned (b : CacheBlock) : bool :=
  match status b with ASSIGNED => true | _ => false end.

(** Modelled from the spec: [CacheBlock::isLocked] (cache.h): the protocol
    lock is a count, "non-zero: block may not be re-used". *)
Definition isLocked (b : CacheBlock) : bool := 0 <? locked b.

(** Modelled from the spec: [CacheBlock::lock] (cache.h): one more holder of
    the protocol lock. *)
Definition lock (b : CacheBlock) : CacheBlock := set_locked (locked b + 1) b.

(** Modelled from the spec: [CacheBlock::unlock] (cache.h): one holder of the
    protocol lock less. *)
Definition unlock (b : CacheBlock) : CacheBlock := set_locked (locked b - 1) b.

Definition eventQueue_t : Type := list (MemEvent * SourceType_t).

Record CacheRow := mkRow {
  blocks : list CacheBlock;
  waitingEvents : gmap Z eventQueue_t
}.

Record LoadElement_t := mkLoadElement {
  le_ev : option MemEvent;
  le_src : SourceType_t;
  le_issueTime : Z
}.

Record LoadInfo_t := mkLoadInfo {
  li_addr : Z;
  targetBlock : option BlockRef;
  li_busEvent : option MemEvent;
  initiatingEvent : id_type;
  loadDirection : ForwardDir_t;
  li_list : list LoadElement_t
}.

Definition set_targetBlock (b : option BlockRef) (l : LoadInfo_t) : LoadInfo_t :=
  mkLoadInfo (li_addr l) b (li_busEvent l) (initiatingEvent l) (loadDirection l) (li_list l).
Definition set_li_busEvent (e : option MemEvent) (l : LoadInfo_t) : LoadInfo_t :=
  mkLoadInfo (li_addr l) (targetBlock l) e (initiatingEvent l) (loadDirection l) (li_list l).
Definition set_initiatingEvent (i : id_type) (l : LoadInfo_t) : LoadInfo_t :=
  mkLoadInfo (li_addr l) (targetBlock l) (li_busEvent l) i (loadDirection l) (li_list l).
Definition set_loadDirection (d : ForwardDir_t) (l : LoadInfo_t) : LoadInfo_t :=
  mkLoadInfo (li_addr l) (targetBlock l) (li_busEvent l) (initiatingEvent l) d (li_list l).
Definition set_li_list (q : list LoadElement_t) (l : LoadInfo_t) : LoadInfo_t :=
  mkLoadInfo (li_addr l) (targetBlock l) (li_busEvent l) (initiatingEvent l) (loadDirection l) q.

(** An outstanding invalidation.  [waitingACKs] is a signed count ([int]):
    it can be decremented below zero, which [ackInvalidate] asserts
    against. *)
Record Invalidation := mkInvalidation {
  waitingACKs : Z;
  inv_waitingEvents : eventQueue_t;
  issuingEvent : id_type;
  inv_busEvent : option MemEvent;
  inv_block : option BlockRef;
  newStatus : BlockStatus;
  canCancel : bool
}.

Definition set_waitingACKs (n : Z) (i : Invalidation) : Invalidation :=
  mkInvalidation n (inv_waitingEvents i) (issuingEvent i) (inv_busEvent i)
    (inv_block i) (newStatus i) (canCancel i).
Definition set_inv_waitingEvents (q : eventQueue_t) (i : Invalidation) : Invalidation :=
  mkInvalidation (waitingACKs i) q (issuingEvent i) (inv_busEvent i)
    (inv_block i) (newStatus i) (canCancel i).
Definition set_issuingEvent (e : id_type) (i : Invalidation) : Invalidation :=
  mkInvalidation (waitingACKs i) (inv_waitingEvents i) e (inv_busEvent i)
    (inv_block i) (newStatus i) (canCancel i).
Definition set_inv_busEvent (e : option MemEvent) (i : Invalidation) : Invalidation :=
  mkInvalidation (waitingACKs i) (inv_waitingEvents i) (issuingEvent i) e
    (inv_block i) (newStatus i) (canCancel i).
Definition set_inv_block (b : option BlockRef) (i : Invalidation) : Invalidation :=
  mkInvalidation (waitingACKs i) (inv_waitingEvents i) (issuingEvent i) (inv_busEvent i)
    b (newStatus i) (canCancel i).
Definition set_newStatus (s : BlockStatus) (i : Invalidation) : Invalidation :=
  mkInvalidation (waitingACKs i) (inv_waitingEvents i) (issuingEvent i) (inv_busEvent i)
    (inv_block i) s (canCancel i).
Definition set_canCancel (c : bool) (i : Invalidation) : Invalidation :=
  mkInvalidation (waitingACKs i) (inv_waitingEvents i) (issuingEvent i) (inv_busEvent i)
    (inv_block i) (newStatus i) c.

Record SupplyInfo := mkSupplyInfo {
  si_busEvent : option MemEvent;
  canceled : bool
}.

(** The callbacks handed to the snoop-bus queue, with their bound arguments
    ([BusHandlerArgs]). *)
Inductive BusFinishHandler :=
| FinishLoadBlockBus (li : LoadInfoPtr)
| FinishBusSupplyData (block : BlockRef) (src : SourceType_t) (isFakeSupply : bool)
| FinishWritebackBlockVA (block : BlockRef) (newSt : BlockStatus) (decrementLock : bool).

Inductive BusInitHandler :=
| PrepBusSupplyData (block : BlockRef)
| PrepWritebackBlock (block : BlockRef).

Record BusHandlers := mkBusHandlers {
  bh_init : option BusInitHandler;
  bh_finish : option BusFinishHandler
}.

(** Deferred work posted on the self link ([SelfEvent]): the member function
    to call and its arguments. *)
Inductive SelfEvent :=
| RetryEvent (ev : MemEvent) (block : option BlockRef) (src : SourceType_t)
| SendCPUResponse (ev : MemEvent) (block : BlockRef) (src : SourceType_t)
| FinishLoadBlock (li : LoadInfoPtr) (addr : Z) (block : BlockRef)
| SupplyDataEvent (ev : MemEvent) (block : BlockRef) (src : SourceType_t).

(** What the controller emits: sends on its links and notifications of the
    listener. *)
Inductive Action :=
| SendUpstream (link : nat) (ev : MemEvent)
| SendDownstream (ev : MemEvent)
| SendDirectory (ev : MemEvent)
| SendSnoop (ev : MemEvent)
| SendSelf (delay : Z) (se : SelfEvent)
| NotifyAccess (isRead : bool) (isHit : bool) (addr : Z).

Record Stats := mkStats {
  num_read_hit : Z;
  num_read_miss : Z;
  num_supply_hit : Z;
  num_supply_miss : Z;
  num_write_hit : Z;
  num_write_miss : Z;
  num_upgrade_miss : Z
}.

(** A directory controller's entry of the peer list ([MemNIC::ComponentInfo]
    with its [dirctrl] type info). *)
Record ComponentInfo := mkComponentInfo {
  ci_name : string;
  rangeStart : Z;
  rangeEnd : Z;
  interleaveSize : Z;
  interleaveStep : Z
}.

(** The members fixed by the constructor and by [setup].  [rowshift] and
    [tagshift] are computed there with floating-point logarithms and are
    taken as given.  The last four fields stand for declarations of cache.h,
    which is not among the sources: the value of a default-constructed
    [Invalidation], and the default arguments of [findBlock] ([emptyOK]),
    [issueInvalidate] ([cancelable]) and [handleIncomingEvent]
    ([firstPhaseComplete]). *)
Record Config := mkConfig {
  getName : string;
  n_ways : nat;
  n_rows : Z;
  blocksize : Z;
  cacheMode : CacheMode;
  upstream_links : list Z;
  downstream_link : bool;
  snoop_link : bool;
  directory_link : bool;
  next_level_name : string;
  rowshift : Z;
  tagshift : Z;
  directories : list ComponentInfo;
  defaultInvalidation : Invalidation;
  findBlock_emptyOK : bool;
  issueInvalidate_cancelable : bool;
  handleIncomingEvent_firstPhaseComplete : bool
}.

Definition NO_NEXT_LEVEL : string := "NONE".
Definition n_upstream (cfg : Config) : nat := length (upstream_links cfg).
Definition rowmask (cfg : Config) : Z := n_rows cfg - 1.

(** The mutable members of the cache, the simulator's clock and event-id
    counter as the handlers see them, and the trace of what was emitted. *)
Record Cache := mkCache {
  database : list CacheRow;
  invalidations : gmap Z Invalidation;
  waitingLoads : gmap Z LoadInfoPtr;
  loadInfos : gmap LoadInfoPtr LoadInfo_t;
  nextLoadInfo : LoadInfoPtr;
  supplyInProgress : gmap (Z * SourceType_t) SupplyInfo;
  upstreamLinkMap : gmap Z nat;
  snoopBusQueue : list (MemEvent * BusHandlers);
  isL1 : bool;
  stats : Stats;
  nextEventId : Z;
  currentSimTime : Z;
  sent : list Action
}.

Definition set_database (v : list CacheRow) (c : Cache) : Cache :=
  mkCache v (invalidations c) (waitingLoads c) (loadInfos c) (nextLoadInfo c)
    (supplyInProgress c) (upstreamLinkMap c) (snoopBusQueue c) (isL1 c) (stats c)
    (nextEventId c) (currentSimTime c) (sent c).
Definition set_invalidations (v : gmap Z Invalidation) (c : Cache) : Cache :=
  mkCache (database c) v (waitingLoads c) (loadInfos c) (nextLoadInfo c)
    (supplyInProgress c) (upstreamLinkMap c) (snoopBusQueue c) (isL1 c) (stats c)
    (nextEventId c) (currentSimTime c) (sent c).
Definition set_waitingLoads (v : gmap Z LoadInfoPtr) (c : Cache) : Cache :=
  mkCache (database c) (invalidations c) v (loadInfos c) (nextLoadInfo c)
    (supplyInProgress c) (upstreamLinkMap c) (snoopBusQueue c) (isL1 c) (stats c)
    (nextEventId c) (currentSimTime c) (sent c).
Definition set_loadInfos (v : gmap LoadInfoPtr LoadInfo_t) (c : Cache) : Cache :=
  mkCache (database c) (invalidations c) (waitingLoads c) v (nextLoadInfo c)
    (supplyInProgress c) (upstreamLinkMap c) (snoopBusQueue c) (isL1 c) (stats c)
    (nextEventId c) (currentSimTime c) (sent c).
Definition set_nextLoadInfo (v : LoadInfoPtr) (c : Cache) : Cache :=
  mkCache (database c) (invalidations c) (waitingLoads c) (loadInfos c) v
    (supplyInProgress c) (upstreamLinkMap c) (snoopBusQueue c) (isL1 c) (stats c)
    (nextEventId c) (currentSimTime c) (sent c).
Definition set_supplyInProgress (v : gmap (Z * SourceType_t) SupplyInfo) (c : Cache) : Cache :=
  mkCache (database c) (invalidations c) (waitingLoads c) (loadInfos c) (nextLoadInfo c)
    v (upstreamLinkMap c) (snoopBusQueue c) (isL1 c) (stats c)
    (nextEventId c) (currentSimTime c) (sent c).
Definition set_upstreamLinkMap (v : gmap Z nat) (c : Cache) : Cache :=
  mkCache (database c) (invalidations c) (waitingLoads c) (loadInfos c) (nextLoadInfo c)
    (supplyInProgress c) v (snoopBusQueue c) (isL1 c) (stats c)
    (nextEventId c) (currentSimTime c) (sent c).
Definition set_snoopBusQueue (v : list (MemEvent * BusHandlers)) (c : Cache) : Cache :=
  mkCache (database c) (invalidations c) (waitingLoads c) (loadInfos c) (nextLoadInfo c)
    (supplyInProgress c) (upstreamLinkMap c) v (isL1 c) (stats c)
    (nextEventId c) (currentSimTime c) (sent c).
Definition set_isL1 (v : bool) (c : Cache) : Cache :=
  mkCache (database c) (invalidations c) (waitingLoads c) (loadInfos c) (nextLoadInfo c)
    (supplyInProgress c) (upstreamLinkMap c) (snoopBusQueue c) v (stats c)
    (nextEventId c) (currentSimTime c) (sent c).
Definition set_stats (v : Stats) (c : Cache) : Cache :=
  mkCache (database c) (invalidations c) (waitingLoads c) (loadInfos c) (nextLoadInfo c)
    (supplyInProgress c) (upstreamLinkMap c) (snoopBusQueue c) (isL1 c) v
    (nextEventId c) (currentSimTime c) (sent c).
Definition set_nextEventId (v : Z) (c : Cache) : Cache :=
  mkCache (database c) (invalidations c) (waitingLoads c) (loadInfos c) (nextLoadInfo c)
    (supplyInProgress c) (upstreamLinkMap c) (snoopBusQueue c) (isL1 c) (stats c)
    v (currentSimTime c) (sent c).
Definition set_sent (v : list Action) (c : Cache) : Cache :=
  mkCache (database c) (invalidations c) (waitingLoads c) (loadInfos c) (nextLoadInfo c)
    (supplyInProgress c) (upstreamLinkMap c) (snoopBusQueue c) (isL1 c) (stats c)
    (nextEventId c) (currentSimTime c) v.

(** ** The handler monad: state of the cache, or a failure *)

Inductive Failure :=
| Abort          (* _abort(Cache, ...) *)
| AssertFailed   (* ASSERT(...) or assert(...) does not hold *)
| NullDeref      (* a null pointer is dereferenced *)
| UseAfterFree   (* a deleted LoadInfo_t is used *)
| OutOfBounds    (* an index outside a vector or array *)
| DivByZero      (* unsigned remainder by zero *)
| OutOfFuel.     (* the bound of the embedding on re-entrant dispatch *)

Inductive Res (A : Type) :=
| Ok (a : A)
| Err (f : Failure).
Arguments Ok {A} a.
Arguments Err {A} f.

Definition M (A : Type) : Type := Cache -> Res (A * Cache).

Definition ret {A} (a : A) : M A := fun s => Ok (a, s).
Definition bind {A B} (m : M A) (k : A -> M B) : M B :=
  fun s => match m s with
           | Ok (a, s') => k a s'
           | Err e => Err e
           end.
Definition fail {A} (e : Failure) : M A := fun _ => Err e.
Definition get : M Cache := fun s => Ok (s, s).
Definition modify (f : Cache -> Cache) : M unit := fun s => Ok (tt, f s).

Declare Scope cache_scope.
Delimit Scope cache_scope with cache.
Notation "'let*' x ':=' m 'in' k" := (bind m (fun x => k))
  (at level 10, x pattern, m at level 100, k at level 200) : cache_scope.
Notation "m1 ;;; m2" := (bind m1 (fun _ => m2))
  (at level 100, m2 at level 200, right associativity) : cache_scope.
Open Scope cache_scope.

Definition when (c : bool) (m : M unit) : M unit := if c then m else ret tt.
Definition ASSERT (c : bool) : M unit := if c then ret tt else fail AssertFailed.

(** Running a handler and keeping the final state only. *)
Definition exec {A} (m : M A) (s : Cache) : Res Cache :=
  match m s with Ok (_, s') => Ok s' | Err e => Err e end.

Fixpoint forM_ {A} (l : list A) (f : A -> M unit) : M unit :=
  match l with
  | [] => ret tt
  | x :: r => f x ;;; forM_ r f
  end.

(** ** Primitive accesses *)

Definition send (a : Action) : M unit := modify (fun s => set_sent (sent s ++ [a]) s).

Definition lookupBlock (b : BlockRef) (s : Cache) : option CacheBlock :=
  match database s !! fst b with
  | Some r => blocks r !! snd b
  | None => None
  end.

Definition getBlock (b : BlockRef) : M CacheBlock :=
  fun s => match lookupBlock b s with
           | Some blk => Ok (blk, s)
           | None => Err OutOfBounds
           end.

Definition storeBlock (b : BlockRef) (blk : CacheBlock) (s : Cache) : Cache :=
  match database s !! fst b with
  | Some r => set_database (<[fst b := mkRow (<[snd b := blk]> (blocks r)) (waitingEvents r)]> (database s)) s
  | None => s
  end.

Definition modifyBlock (b : BlockRef) (f : CacheBlock -> CacheBlock) : M unit :=
  let* blk := getBlock b in modify (storeBlock b (f blk)).

Definition getRow (r : nat) : M CacheRow :=
  fun s => match database s !! r with
           | Some row => Ok (row, s)
           | None => Err OutOfBounds
           end.

Definition storeRow (r : nat) (row : CacheRow) : M unit :=
  modify (fun s => set_database (<[r := row]> (database s)) s).

(** Dereferencing a [LoadInfo_t*]. *)
Definition getLoadInfo (p : LoadInfoPtr) : M LoadInfo_t :=
  fun s => match loadInfos s !! p with
           | Some l => Ok (l, s)
           | None => Err UseAfterFree
           end.

Definition modifyLoadInfo (p : LoadInfoPtr) (f : LoadInfo_t -> LoadInfo_t) : M unit :=
  let* l := getLoadInfo p in
  modify (fun s => set_loadInfos (<[p := f l]> (loadInfos s)) s).

Definition deleteLoadInfo (p : LoadInfoPtr) : M unit :=
  modify (fun s => set_loadInfos (delete p (loadInfos s)) s).

(** [invalidations[addr]]: [std::map::operator[]] inserts a
    default-constructed record when the key is absent. *)
Definition invalidationAt (dflt : Invalidation) (addr : Z) : M Invalidation :=
  fun s => match invalidations s !! addr with
           | Some i => Ok (i, s)
           | None => Ok (dflt, set_invalidations (<[addr := dflt]> (invalidations s)) s)
           end.

Definition modifyInvalidationAt (dflt : Invalidation) (addr : Z)
    (f : Invalidation -> Invalidation) : M unit :=
  let* i := invalidationAt dflt addr in
  modify (fun s => set_invalidations (<[addr := f i]> (invalidations s)) s).

Definition getCurrentSimTime : M Z := fun s => Ok (currentSimTime s, s).

Definition bump (f : Stats -> Stats) : M unit := modify (fun s => set_stats (f (stats s)) s).

Definition inc_read_hit (t : Stats) : Stats :=
  mkStats (wrap64 (num_read_hit t + 1)) (num_read_miss t) (num_supply_hit t)
    (num_supply_miss t) (num_write_hit t) (num_write_miss t) (num_upgrade_miss t).
Definition inc_read_miss (t : Stats) : Stats :=
  mkStats (num_read_hit t) (wrap64 (num_read_miss t + 1)) (num_supply_hit t)
    (num_supply_miss t) (num_write_hit t) (num_write_miss t) (num_upgrade_miss t).
Definition inc_supply_hit (t : Stats) : Stats :=
  mkStats (num_read_hit t) (num_read_miss t) (wrap64 (num_supply_hit t + 1))
    (num_supply_miss t) (num_write_hit t) (num_write_miss t) (num_upgrade_miss t).
Definition inc_supply_miss (t : Stats) : Stats :=
  mkStats (num_read_hit t) (num_read_miss t) (num_supply_hit t)
    (wrap64 (num_supply_miss t + 1)) (num_write_hit t) (num_write_miss t) (num_upgrade_miss t).
Definition inc_write_hit (t : Stats) : Stats :=
  mkStats (num_read_hit t) (num_read_miss t) (num_supply_hit t)
    (num_supply_miss t) (wrap64 (num_write_hit t + 1)) (num_write_miss t) (num_upgrade_miss t).
Definition inc_write_miss (t : Stats) : Stats :=
  mkStats (num_read_hit t) (num_read_miss t) (num_supply_hit t)
    (num_supply_miss t) (num_write_hit t) (wrap64 (num_write_miss t + 1)) (num_upgrade_miss t).
Definition inc_upgrade_miss (t : Stats) : Stats :=
  mkStats (num_read_hit t) (num_read_miss t) (num_supply_hit t)
    (num_supply_miss t) (num_write_hit t) (num_write_miss t) (wrap64 (num_upgrade_miss t + 1)).

Fixpoint find_index {A} (f : A -> bool) (l : list A) : option nat :=
  match l with
  | [] => None
  | x :: r => if f x then Some O else option_map S (find_index f r)
  end.

(** ** Directory targeting *)

(** [Cache::findTargetDirectory], on the snapshot of directory peers. *)
Fixpoint findTargetDirectory_in (dirs : list ComponentInfo) (addr : Z) : Res string :=
  match dirs with
  | [] => Err Abort
  | di :: rest =>
      if (rangeStart di <=? addr) && (addr <? rangeEnd di) then
        if interleaveSize di =? 0 then Ok (ci_name di)
        else
          let temp := wrap64 (addr - rangeStart di) in
          if interleaveStep di =? 0 then Err DivByZero
          else
            let offset := temp mod interleaveStep di in
            if offset <? interleaveSize di then Ok (ci_name di)
            else findTargetDirectory_in rest addr
      else findTargetDirectory_in rest addr
  end.

Definition findTargetDirectory (cfg : Config) (addr : Z) : M string :=
  fun s => match findTargetDirectory_in (directories cfg) addr with
           | Ok n => Ok (n, s)
           | Err e => Err e
           end.

(** The matching rule in the words of the specification: the range
    [start, end) contains the address and, when the entry is interleaved,
    the offset within the step falls inside the interleave size. *)
Definition dir_matches (addr : Z) (di : ComponentInfo) : bool :=
  (rangeStart di <=? addr) && (addr <? rangeEnd di) &&
  ((interleaveSize di =? 0) ||
   ((addr - rangeStart di) mod interleaveStep di <? interleaveSize di)).

Definition first_matching_directory (dirs : list ComponentInfo) (addr : Z) : option string :=
  option_map ci_name (List.find (dir_matches addr) dirs).

(** Interleaved entries have a non-zero step (the remainder is defined). *)
Definition step_defined (di : ComponentInfo) : Prop :=
  interleaveSize di <> 0 -> interleaveStep di <> 0.

(** ** The snoop-bus queue *)

Definition noHandlers : BusHandlers := mkBusHandlers None None.

(** Modelled from the spec: [BusQueue::request] (the snoop-bus queue adapter
    is declared in cache.h, which is not among the sources).  The adapter
    exposes [request(ev, init_cb?, finish_cb?)]; the request stays queued
    until the arbiter's BusClearToSend reaches it. *)
Definition busRequest (ev : MemEvent) (h : BusHandlers) : M unit :=
  modify (fun s => set_snoopBusQueue (snoopBusQueue s ++ [(ev, h)]) s).

(** A queued request is identified by its event. *)
Definition isRequest (ev : MemEvent) (q : MemEvent * BusHandlers) : bool :=
  id_eqb (getID (fst q)) (getID ev).

(** Modelled from the spec: [BusQueue::cancelRequest] (cache.h):
    [cancel_request(ev) -> (init_cb?, finish_cb?)] withdraws a request that
    is still queued and hands its callbacks back; for a request that is not
    queued (or a null event) there is nothing to hand back. *)
Definition busCancelRequest (ev : option MemEvent) : M BusHandlers :=
  match ev with
  | None => ret noHandlers
  | Some e =>
      let* s := get in
      match List.find (isRequest e) (snoopBusQueue s) with
      | Some (_, h) =>
          modify (set_snoopBusQueue (List.filter (fun q => negb (isRequest e q)) (snoopBusQueue s))) ;;;
          ret h
      | None => ret noHandlers
      end
  end.

(** ** Event construction (contract of the simulator core's [MemEvent]) *)

Section Handlers.

Context (cfg : Config).

(** [new MemEvent(this, addr, cmd)]: a fresh identifier, this cache as the
    source, no payload. *)
Definition newMemEvent (addr : Z) (cmd : Command) : M MemEvent :=
  let* s := get in
  modify (set_nextEventId (nextEventId s + 1)) ;;;
  ret (mkEvent (nextEventId s, 0) NO_ID cmd (getName cfg) BROADCAST_TARGET
         addr 0 false false false [] (-1)).

(** [ev->makeResponse(this)]. *)
Definition makeResponse (ev : MemEvent) : M MemEvent :=
  let* me := newMemEvent (getAddr ev) (commandResponse (getCmd ev)) in
  ret (mkEvent (getID me) (getID ev) (getCmd me) (getSrc me) (getSrc ev)
         (getAddr me) (getSize ev) false false false [] (getLinkId me)).

(** ** Sends on the links *)

Definition sendUpstream (i : nat) (ev : MemEvent) : M unit :=
  if (i <? n_upstream cfg)%nat then send (SendUpstream i ev) else fail OutOfBounds.
Definition sendDownstream (ev : MemEvent) : M unit :=
  if downstream_link cfg then send (SendDownstream ev) else fail NullDeref.
Definition sendDirectory (ev : MemEvent) : M unit :=
  if directory_link cfg then send (SendDirectory ev) else fail NullDeref.
Definition sendSelf (delay : Z) (se : SelfEvent) : M unit := send (SendSelf delay se).

(** [upstreamLinkMap[id]]: [operator[]] inserts index 0 for an unknown id. *)
Definition upstreamIndexOf (id : Z) : M nat :=
  fun s => match upstreamLinkMap s !! id with
           | Some i => Ok (i, s)
           | None => Ok (O, set_upstreamLinkMap (<[id := O]> (upstreamLinkMap s)) s)
           end.

(** ** Storage and lookup *)

Definition addrToTag (addr : Z) : Z := Z.shiftr addr (tagshift cfg).

(** [addr & ~(blocksize-1)].  [blocksize] is a 32-bit unsigned member (it is
    an argument of [std::min] together with [getSize()]), so the complement
    is taken on 32 bits and zero-extended to the width of [Addr]. *)
Definition addrToBlockAddr (addr : Z) : Z := Z.land addr (lnot32 (blocksize cfg - 1)).

Definition findRow (addr : Z) : M nat :=
  let row := Z.land (Z.shiftr addr (rowshift cfg)) (rowmask cfg) in
  ASSERT (row <? n_rows cfg) ;;;
  let* _ := getRow (Z.to_nat row) in
  ret (Z.to_nat row).

Definition findBlock (addr : Z) (emptyOK : bool) : M (option BlockRef) :=
  let* r := findRow addr in
  let* row := getRow r in
  let tag32 := wrap32 (addrToTag addr) in
  let ways := take (n_ways cfg) (blocks row) in
  match find_index (fun b => isValid b && (tag b =? tag32)) ways with
  | Some i => ret (Some (r, i))
  | None =>
      if emptyOK then ret (option_map (pair r) (find_index isInvalid ways))
      else ret None
  end.

(** Modelled from the spec: the scan of [CacheRow::getLRU] (cache.h) for
    "the least-recently-touched unlocked block, or none if every way is
    locked"; ties go to the lower way. *)
Fixpoint getLRU_from (i : nat) (l : list CacheBlock) (best : option (nat * Z)) : option nat :=
  match l with
  | [] => option_map fst best
  | b :: r =>
      let best' :=
        if isLocked b then best
        else match best with
             | Some (_, t) => if last_touched b <? t then Some (i, last_touched b) else best
             | None => Some (i, last_touched b)
             end in
      getLRU_from (S i) r best'
  end.

(** Modelled from the spec: [CacheRow::getLRU] (cache.h), the victim
    among the row's [n_ways] blocks, on which [loadBlock] alone relies for
    "Row has an Invalid slot: use it", otherwise "pick LRU unlocked"; a
    block with "locked_count > 0 [...] is not a candidate", and there is
    "none if every way is locked". *)
Definition getLRU (row : CacheRow) : option nat :=
  let ways := take (n_ways cfg) (blocks row) in
  match find_index (fun b => negb (isLocked b) && isInvalid b) ways with
  | Some i => Some i
  | None => getLRU_from O ways None
  end.

(** Modelled from the spec: [CacheBlock::activate] (cache.h): the chosen
    slot takes the address of the load and becomes Assigned. *)
Definition activate (addr : Z) (b : CacheBlock) : CacheBlock :=
  set_status ASSIGNED (set_address (addrToBlockAddr addr) (addrToTag addr) b).

(** Modelled from the spec: [CacheRow::addWaitingEvent] (cache.h): the row
    keeps, per block address, a FIFO of (event, source) entries. *)
Definition addWaitingEvent (r : nat) (ev : MemEvent) (src : SourceType_t) : M unit :=
  let* row := getRow r in
  let k := addrToBlockAddr (getAddr ev) in
  let q := default [] (waitingEvents row !! k) in
  storeRow r (mkRow (blocks row) (<[k := q ++ [(ev, src)]]> (waitingEvents row))).

(** [std::map::begin()]: the entry with the least key. *)
Definition first_key (m : gmap Z eventQueue_t) : option Z :=
  foldr (fun kv acc => match acc with
                       | None => Some (fst kv)
                       | Some k => Some (Z.min (fst kv) k)
                       end) None (map_to_list m).

Definition handlePendingEvents (r : nat) (block : option BlockRef) : M unit :=
  let* row := getRow r in
  if (0 <? size (waitingEvents row))%nat then
    let* q := match block with
              | Some b => let* blk := getBlock b in ret (Some (baseAddr blk))
              | None => ret (first_key (waitingEvents row))
              end in
    match q with
    | Some k =>
        match waitingEvents row !! k with
        | Some queue =>
            forM_ queue (fun e => sendSelf 1 (RetryEvent (fst e) None (snd e))) ;;;
            storeRow r (mkRow (blocks row) (delete k (waitingEvents row)))
        | None => ret tt
        end
    | None => ret tt
    end
  else ret tt.

(** ** Block update *)

Fixpoint updatePortion (n : nat) (i : Z) (blockoffset payloadoffset : Z)
    (payload : list Z) (d : list Z) : Res (list Z) :=
  match n with
  | O => Ok d
  | S n' =>
      if wrap64 (blockoffset + i) <? blocksize cfg then
        match payload !! Z.to_nat (wrap64 (payloadoffset + i)) with
        | Some v =>
            if (Z.to_nat (wrap64 (blockoffset + i)) <? length d)%nat then
              updatePortion n' (i + 1) blockoffset payloadoffset payload
                (<[Z.to_nat (wrap64 (blockoffset + i)) := v]> d)
            else Err OutOfBounds
        | None => Err OutOfBounds
        end
      else Err AssertFailed
  end.

Definition updateBlock_data (ev : MemEvent) (blk : CacheBlock) : Res (list Z) :=
  if getSize ev =? blocksize cfg then
    if (length (getPayload ev) <=? length (data blk))%nat then
      Ok (getPayload ev ++ drop (length (getPayload ev)) (data blk))
    else Err OutOfBounds
  else
    let blockoffset := if getAddr ev <=? baseAddr blk then 0
                       else wrap64 (getAddr ev - baseAddr blk) in
    let payloadoffset := if baseAddr blk <=? getAddr ev then 0
                         else wrap64 (baseAddr blk - getAddr ev) in
    updatePortion (Z.to_nat (Z.min (blocksize cfg) (getSize ev))) 0
      blockoffset payloadoffset (getPayload ev) (data blk).

Definition updateBlock (ev : MemEvent) (b : BlockRef) : M unit :=
  let* blk := getBlock b in
  match updateBlock_data ev blk with
  | Ok d =>
      let* now := getCurrentSimTime in
      modifyBlock b (fun x => set_last_touched now (set_data d x))
  | Err e => fail e
  end.

(** ** Writeback *)

Definition finishWritebackBlock (b : BlockRef) (newSt : BlockStatus) (decrementLock : bool) : M unit :=
  modifyBlock b (set_wb_in_progress false) ;;;
  when decrementLock (modifyBlock b unlock) ;;;
  let* blk := getBlock b in
  when (downstream_link cfg)
    (let* ev := newMemEvent (baseAddr blk) SupplyData in
     sendDownstream (setPayload (data blk) (setFlag F_WRITEBACK ev))) ;;;
  when (directory_link cfg)
    (let* ev := newMemEvent (baseAddr blk) SupplyData in
     sendDirectory (setPayload (data blk) (setFlag F_WRITEBACK ev))) ;;;
  let* row := findRow (baseAddr blk) in
  modifyBlock b (set_status newSt) ;;;
  match newSt with
  | INVALID =>
      let* blk' := getBlock b in
      ASSERT (negb (isLocked blk')) ;;;
      handlePendingEvents row None
  | _ => handlePendingEvents row (Some b)
  end.

Definition writebackBlock (b : BlockRef) (newSt : BlockStatus) : M unit :=
  let* blk := getBlock b in
  if wb_in_progress blk then ret tt
  else
    modifyBlock b (set_wb_in_progress true) ;;;
    if snoop_link cfg then
      modifyBlock b lock ;;;
      let* ev := newMemEvent (baseAddr blk) SupplyData in
      busRequest (setPayload (data blk) (setFlag F_WRITEBACK ev))
        (mkBusHandlers (Some (PrepWritebackBlock b))
                       (Some (FinishWritebackBlockVA b newSt true)))
    else finishWritebackBlock b newSt false.

Definition prepWritebackBlock (b : BlockRef) (ev : MemEvent) : M MemEvent :=
  let* blk := getBlock b in ret (setPayload (data blk) ev).

(** ** Re-entrant handlers

    [handleIncomingEvent] is called back by the handlers that replay queued
    events.  The handlers are written against the dispatcher they re-enter;
    the knot is tied below. *)

Variable dispatch : MemEvent -> SourceType_t -> bool -> bool -> M unit.

(** *** Invalidation protocol *)

Definition waitingForInvalidate (addr : Z) : M bool :=
  let* s := get in
  ret (match invalidations s !! addr with Some _ => true | None => false end).

Definition invAt (addr : Z) : M Invalidation :=
  invalidationAt (defaultInvalidation cfg) addr.
Definition modifyInvAt (addr : Z) (f : Invalidation -> Invalidation) : M unit :=
  modifyInvalidationAt (defaultInvalidation cfg) addr f.
Definition eraseInvalidation (addr : Z) : M unit :=
  modify (fun s => set_invalidations (delete addr (invalidations s)) s).

(** The loop of [finishIssueInvalidate] over its copy of the queue; [first]
    is the loop's flag. *)
Fixpoint replayWaiting (q : eventQueue_t) (first : bool) : M unit :=
  match q with
  | [] => ret tt
  | ev2 :: rest =>
      dispatch (fst ev2) (snd ev2) false first ;;;
      replayWaiting rest false
  end.

Definition finishIssueInvalidate (addr : Z) : M unit :=
  let* i0 := invAt addr in
  ASSERT (waitingACKs i0 =? 0) ;;;
  let* i1 := invAt addr in
  match inv_block i1 with
  | Some b =>
      modifyBlock b unlock ;;;
      let* i2 := invAt addr in
      modifyBlock b (set_status (newStatus i2))
  | None => ret tt
  end ;;;
  let* i3 := invAt addr in
  let waiting := inv_waitingEvents i3 in
  eraseInvalidation addr ;;;
  replayWaiting waiting true.

Definition sendsDown (d : ForwardDir_t) : bool :=
  match d with SEND_DOWN | SEND_BOTH => true | SEND_UP => false end.
Definition sendsUp (d : ForwardDir_t) : bool :=
  match d with SEND_UP | SEND_BOTH => true | SEND_DOWN => false end.

Definition incWaitingACKs (addr : Z) : M unit :=
  modifyInvAt addr (fun inv => set_waitingACKs (waitingACKs inv + 1) inv).

Definition issueInvalidate_addr (ev : MemEvent) (src : SourceType_t) (addr : Z)
    (direction : ForwardDir_t) (cancelable : bool) : M unit :=
  modifyInvAt addr (fun inv =>
    set_canCancel cancelable
      (set_waitingACKs 0
         (set_inv_waitingEvents (inv_waitingEvents inv ++ [(ev, src)]) inv))) ;;;
  let* invalidateEvent := newMemEvent addr Invalidate in
  modifyInvAt addr (set_issuingEvent (getID invalidateEvent)) ;;;
  when (snoop_link cfg)
    (busRequest invalidateEvent noHandlers ;;;
     incWaitingACKs addr ;;;
     modifyInvAt addr (set_inv_busEvent (Some invalidateEvent))) ;;;
  when (sendsDown direction)
    (when (downstream_link cfg && negb (String.eqb (next_level_name cfg) NO_NEXT_LEVEL))
       (sendDownstream invalidateEvent ;;; incWaitingACKs addr) ;;;
     when (directory_link cfg)
       (sendDirectory invalidateEvent ;;; incWaitingACKs addr)) ;;;
  when (sendsUp direction)
    (forM_ (imap pair (upstream_links cfg)) (fun il =>
       if negb (snd il =? getLinkId ev) || negb (addrToBlockAddr (getAddr ev) =? addr)
       then sendUpstream (fst il) invalidateEvent ;;; incWaitingACKs addr
       else ret tt)) ;;;
  let* inv := invAt addr in
  when (waitingACKs inv =? 0) (finishIssueInvalidate addr).

Definition issueInvalidate_block (ev : MemEvent) (src : SourceType_t) (b : BlockRef)
    (newSt : BlockStatus) (direction : ForwardDir_t) (cancelable : bool) : M unit :=
  modifyBlock b lock ;;;
  let* blk := getBlock b in
  modifyInvAt (baseAddr blk) (set_inv_block (Some b)) ;;;
  modifyInvAt (baseAddr blk) (set_newStatus newSt) ;;;
  issueInvalidate_addr ev src (baseAddr blk) direction cancelable.

Definition ackInvalidate (ev : MemEvent) : M unit :=
  let addr := getAddr ev in
  let* inv := invAt addr in
  if id_eqb (getResponseToID ev) (issuingEvent inv) || String.eqb (getSrc ev) (getName cfg) then
    modifyInvAt addr (fun i => set_waitingACKs (waitingACKs i - 1) i) ;;;
    let* inv' := invAt addr in
    let remaining := waitingACKs inv' in
    ASSERT (0 <=? remaining) ;;;
    when (remaining =? 0) (finishIssueInvalidate addr)
  else ret tt.

Definition cancelInvalidate (b : BlockRef) : M bool :=
  let* blk := getBlock b in
  let* s := get in
  match invalidations s !! baseAddr blk with
  | None => fail AssertFailed
  | Some i =>
      if canCancel i then
        let* _ := busCancelRequest (inv_busEvent i) in
        let waiting := inv_waitingEvents i in
        when (match inv_block i with
              | Some b' => bool_decide (b' = b)
              | None => false
              end) (modifyBlock b unlock) ;;;
        eraseInvalidation (baseAddr blk) ;;;
        forM_ waiting (fun e => sendSelf 1 (RetryEvent (fst e) None (snd e))) ;;;
        ret true
      else ret false
  end.

Definition sendInvalidateACK (ev : MemEvent) (src : SourceType_t) : M unit :=
  let* resp := makeResponse ev in
  match src with
  | SNOOP => fail Abort
  | UPSTREAM => let* i := upstreamIndexOf (getLinkId ev) in sendUpstream i resp
  | DOWNSTREAM => sendDownstream resp
  | DIRECTORY => sendDirectory resp
  | SELF => fail Abort
  | PREFETCHER => fail Abort
  end.

(** *** Load and fill *)

(** Modelled from the spec: the constructor [LoadInfo_t(blockAddr)]
    (cache.h): a record for the block address with no target block, no bus
    request and an empty queue.  The direction is assigned by [loadBlock] and
    [fetchBlock] before it is read. *)
Definition newLoadInfo (blockAddr : Z) : M LoadInfoPtr :=
  let* s := get in
  let p := nextLoadInfo s in
  modify (fun s => set_nextLoadInfo (Pos.succ p)
                     (set_loadInfos (<[p := mkLoadInfo blockAddr None None NO_ID SEND_DOWN []]>
                                       (loadInfos s)) s)) ;;;
  ret p.

Definition initLoad (ev : MemEvent) (src : SourceType_t) : M (LoadInfoPtr * bool) :=
  let blockAddr := addrToBlockAddr (getAddr ev) in
  let* s := get in
  match waitingLoads s !! blockAddr with
  | Some li =>
      let* l := getLoadInfo li in
      ASSERT (li_addr l =? blockAddr) ;;;
      ret (li, false)
  | None =>
      let* li := newLoadInfo blockAddr in
      modify (fun s => set_waitingLoads (<[blockAddr := li]> (waitingLoads s)) s) ;;;
      modifyLoadInfo li (set_initiatingEvent (getID ev)) ;;;
      ret (li, true)
  end.

Definition push_back (e : LoadElement_t) (l : LoadInfo_t) : LoadInfo_t :=
  set_li_list (li_list l ++ [e]) l.
Definition push_front (e : LoadElement_t) (l : LoadInfo_t) : LoadInfo_t :=
  set_li_list (e :: li_list l) l.

Definition loadBlock (ev : MemEvent) (src : SourceType_t) : M unit :=
  let* initRes := initLoad ev src in
  let li := fst initRes in
  let reprocess := negb (snd initRes) in
  let* l := getLoadInfo li in
  let* now := getCurrentSimTime in
  if reprocess && negb (id_eqb (initiatingEvent l) (getID ev)) then
    modifyLoadInfo li (push_back (mkLoadElement (Some ev) src now))
  else
    let* r := findRow (getAddr ev) in
    let* row := getRow r in
    match getLRU row with
    | None => addWaitingEvent r ev src
    | Some c =>
        let b := (r, c) in
        let* blk := getBlock b in
        if bool_decide (cacheMode cfg = MODE_INCLUSIVE) && negb (isInvalid blk) then
          issueInvalidate_block ev src b INVALID SEND_UP (issueInvalidate_cancelable cfg)
        else if bool_decide (status blk = EXCLUSIVE) then
          addWaitingEvent r ev src ;;;
          writebackBlock b INVALID
        else
          modifyBlock b (activate (getAddr ev)) ;;;
          modifyBlock b lock ;;;
          modifyLoadInfo li (set_loadDirection SEND_DOWN) ;;;
          modifyLoadInfo li (set_targetBlock (Some b)) ;;;
          modifyBlock b (set_loadInfo (Some li)) ;;;
          (if reprocess
           then modifyLoadInfo li (push_front (mkLoadElement (Some ev) src now))
           else modifyLoadInfo li (push_back (mkLoadElement (Some ev) src now))) ;;;
          let* blk' := getBlock b in
          sendSelf 1 (FinishLoadBlock li (baseAddr blk') b)
    end.

(** The request enqueued on the snoop bus by [finishLoadBlock]. *)
Definition requestOnBus (li : LoadInfoPtr) (blk : CacheBlock) : M unit :=
  let* req0 := newMemEvent (baseAddr blk) RequestData in
  let req1 := setSize (blocksize cfg) req0 in
  let req := if negb (String.eqb (next_level_name cfg) NO_NEXT_LEVEL)
             then setDst (next_level_name cfg) req1 else req1 in
  modifyLoadInfo li (set_li_busEvent (Some req)) ;;;
  busRequest req (mkBusHandlers None (Some (FinishLoadBlockBus li))).

(** The guard of [finishLoadBlock], with C++'s precedence ([&&] over [||])
    and its left-to-right short-circuit evaluation: [li] is dereferenced
    only when the block is Dirty. *)
Definition skipsLoad (li : LoadInfoPtr) (addr : Z) (blk : CacheBlock) : M bool :=
  let* dirtyUp :=
    if bool_decide (status blk = DIRTY) then
      let* l := getLoadInfo li in
      ret (bool_decide (loadDirection l = SEND_UP))
    else ret false in
  ret ((negb dirtyUp && negb (bool_decide (status blk = ASSIGNED)))
       || negb (baseAddr blk =? addr)
       || negb (bool_decide (loadInfo blk = Some li))).

(** The body of [finishLoadBlock] past its guard: the fill request goes
    upstream (or on the bus) for a SEND_UP fetch, otherwise on the first of
    downstream link, directory link, snoop bus. *)
Definition issueLoadRequest (li : LoadInfoPtr) (blk : CacheBlock) : M unit :=
  let* l := getLoadInfo li in
  let* s := get in
  if bool_decide (loadDirection l = SEND_UP) then
    if (0 <? n_upstream cfg)%nat && negb (isL1 s) then
      forM_ (seq 0 (n_upstream cfg)) (fun i =>
        let* req := newMemEvent (baseAddr blk) RequestData in
        sendUpstream i (setSize (blocksize cfg) req))
    else if snoop_link cfg then requestOnBus li blk
    else ret tt
  else
    if downstream_link cfg then
      let* req := newMemEvent (baseAddr blk) RequestData in
      sendDownstream (setSize (blocksize cfg) req)
    else if directory_link cfg then
      let* req := newMemEvent (baseAddr blk) RequestData in
      let* dst := findTargetDirectory cfg (baseAddr blk) in
      sendDirectory (setDst dst (setSize (blocksize cfg) req))
    else if snoop_link cfg then requestOnBus li blk
    else ret tt.

Definition finishLoadBlock (li : LoadInfoPtr) (addr : Z) (b : BlockRef) : M unit :=
  let* blk := getBlock b in
  let* skip := skipsLoad li addr blk in
  if skip then ret tt
  else issueLoadRequest li blk.

Definition finishLoadBlockBus (li : LoadInfoPtr) : M unit :=
  modifyLoadInfo li (set_li_busEvent None).

(** *** CPU requests *)

Definition makeCPUResponse (ev : MemEvent) (b : BlockRef) (src : SourceType_t) : M MemEvent :=
  let* blk := getBlock b in
  let offset := wrap64 (getAddr ev - baseAddr blk) in
  if blocksize cfg <? wrap64 (offset + getSize ev) then fail Abort
  else
    let* resp := makeResponse ev in
    if bool_decide (getCmd ev = ReadReq) then
      if (Z.to_nat offset + Z.to_nat (getSize ev) <=? length (data blk))%nat
      then ret (setPayloadFrom (getSize ev) (drop (Z.to_nat offset) (data blk)) resp)
      else fail OutOfBounds
    else ret resp.

Definition sendCPUResponse (ev : MemEvent) (b : BlockRef) (src : SourceType_t) : M unit :=
  sendUpstream 0 ev ;;;
  let* row := findRow (getAddr ev) in
  handlePendingEvents row None.

Definition touch (b : BlockRef) : M unit :=
  let* now := getCurrentSimTime in
  modifyBlock b (set_last_touched now).

Definition queueOnInvalidation (addr : Z) (ev : MemEvent) (src : SourceType_t) : M unit :=
  modifyInvAt addr (fun i => set_inv_waitingEvents (inv_waitingEvents i ++ [(ev, src)]) i).

Definition respondToCPU (ev : MemEvent) (b : BlockRef) : M unit :=
  let* resp := makeCPUResponse ev b UPSTREAM in
  sendSelf 1 (SendCPUResponse resp b UPSTREAM).

Definition supplyActive (s : Cache) (key : Z * SourceType_t) : bool :=
  match supplyInProgress s !! key with
  | Some si => negb (canceled si)
  | None => false
  end.

(** [if (F_LOCKED && !isRead) assert(block->status == EXCLUSIVE);] where
    [block] is the result of [findBlock] and may be null. *)
Definition checkLockedWrite (ev : MemEvent) (isRead : bool) (block : option BlockRef) : M unit :=
  if queryFlag ev F_LOCKED && negb isRead then
    match block with
    | None => fail NullDeref
    | Some b =>
        let* blk := getBlock b in
        ASSERT (bool_decide (status blk = EXCLUSIVE))
    end
  else ret tt.

Definition handleCPURequest (ev : MemEvent) (firstProcess : bool) : M unit :=
  modify (set_isL1 true) ;;;
  ASSERT (bool_decide (getCmd ev = ReadReq) || bool_decide (getCmd ev = WriteReq)) ;;;
  let isRead := bool_decide (getCmd ev = ReadReq) in
  let* block := findBlock (getAddr ev) false in
  when firstProcess
    (send (NotifyAccess isRead (match block with Some _ => true | None => false end)
             (getAddr ev))) ;;;
  checkLockedWrite ev isRead block ;;;
  match block with
  | Some b =>
      let* blk := getBlock b in
      if isRead then
        when firstProcess (bump inc_read_hit) ;;;
        let* waiting := waitingForInvalidate (baseAddr blk) in
        if waiting then
          queueOnInvalidation (baseAddr blk) ev UPSTREAM ;;; touch b
        else if queryFlag ev F_LOCKED && negb (bool_decide (status blk = EXCLUSIVE)) then
          issueInvalidate_block ev UPSTREAM b EXCLUSIVE SEND_BOTH
            (issueInvalidate_cancelable cfg) ;;;
          touch b
        else if queryFlag ev F_LOCKED then
          let* s := get in
          if wb_in_progress blk || supplyActive s (baseAddr blk, SNOOP) then
            sendSelf 1 (RetryEvent ev (Some b) UPSTREAM)
          else
            modifyBlock b (fun x =>
              set_user_lock_needs_wb false (set_user_locked (user_locked x + 1) x)) ;;;
            respondToCPU ev b ;;;
            touch b
        else
          respondToCPU ev b ;;; touch b
      else
        (if bool_decide (status blk = EXCLUSIVE) then
           when firstProcess (bump inc_write_hit) ;;;
           updateBlock ev b ;;;
           respondToCPU ev b ;;;
           let* blk' := getBlock b in
           when (negb (user_locked blk' =? 0) && queryFlag ev F_LOCKED)
             (modifyBlock b (fun x => set_user_locked (user_locked x - 1) x) ;;;
              let* blk'' := getBlock b in
              when ((user_locked blk'' =? 0) && user_lock_needs_wb blk'')
                (writebackBlock b SHARED))
         else
           when firstProcess (bump inc_upgrade_miss) ;;;
           let* waiting := waitingForInvalidate (baseAddr blk) in
           if waiting then queueOnInvalidation (baseAddr blk) ev UPSTREAM
           else issueInvalidate_block ev UPSTREAM b EXCLUSIVE SEND_BOTH
                  (issueInvalidate_cancelable cfg)) ;;;
        touch b
  | None =>
      when firstProcess (if isRead then bump inc_read_miss else bump inc_write_miss) ;;;
      loadBlock ev UPSTREAM
  end.

(** *** Supplying data to peers *)

Definition eraseSupply (key : Z * SourceType_t) : M unit :=
  modify (fun s => set_supplyInProgress (delete key (supplyInProgress s)) s).

Definition handleCacheRequestEvent (ev : MemEvent) (src : SourceType_t)
    (firstProcess : bool) : M unit :=
  if bool_decide (src = SNOOP) && String.eqb (getSrc ev) (getName cfg) then ret tt
  else
    let* block := findBlock (getAddr ev) false in
    if negb (getSize ev =? blocksize cfg) then fail Abort
    else
      match block with
      | Some b =>
          let* blk := getBlock b in
          if bool_decide (status blk = DIRTY) then
            if bool_decide (src = SNOOP) then ret tt else fail AssertFailed
          else
            when firstProcess
              (send (NotifyAccess true true (getAddr ev)) ;;; bump inc_supply_hit) ;;;
            let supplyMapKey := (baseAddr blk, src) in
            let* s := get in
            if supplyActive s supplyMapKey then ret tt
            else
              let* waiting := waitingForInvalidate (baseAddr blk) in
              if waiting then queueOnInvalidation (baseAddr blk) ev src
              else if wb_in_progress blk then ret tt
              else
                modify (fun s => set_supplyInProgress
                          (<[supplyMapKey := mkSupplyInfo None false]> (supplyInProgress s)) s) ;;;
                modifyBlock b lock ;;;
                touch b ;;;
                sendSelf 1 (SupplyDataEvent ev b src)
      | None =>
          if bool_decide (src = DOWNSTREAM) then ret tt
          else if negb (bool_decide (src = SNOOP)) || String.eqb (getDst ev) (getName cfg) then
            when firstProcess
              (send (NotifyAccess true false (getAddr ev)) ;;; bump inc_supply_miss) ;;;
            loadBlock ev src
          else ret tt
      end.

Definition supplyData (ev : MemEvent) (b : BlockRef) (src : SourceType_t) : M unit :=
  let* blk0 := getBlock b in
  let supplyMapKey := (baseAddr blk0, src) in
  let* s := get in
  match supplyInProgress s !! supplyMapKey with
  | None => fail AssertFailed
  | Some si =>
      modifyBlock b unlock ;;;
      if canceled si then eraseSupply supplyMapKey
      else
        let* blk := getBlock b in
        let* resp0 := newMemEvent (baseAddr blk) SupplyData in
        let* resp :=
          if negb (user_locked blk =? 0) then
            modifyBlock b (set_user_lock_needs_wb true) ;;;
            ret (setSize (blocksize cfg) (setFlag F_DELAYED resp0))
          else ret (setPayload (data blk) resp0) in
        match src with
        | DOWNSTREAM =>
            sendDownstream resp ;;;
            eraseSupply supplyMapKey ;;;
            when (negb (queryFlag resp F_DELAYED)) (modifyBlock b (set_status SHARED))
        | SNOOP =>
            modify (fun s => set_supplyInProgress
                      (<[supplyMapKey := mkSupplyInfo (Some resp) (canceled si)]>
                         (supplyInProgress s)) s) ;;;
            busRequest resp
              (mkBusHandlers (Some (PrepBusSupplyData b))
                 (Some (FinishBusSupplyData b src (queryFlag resp F_DELAYED))))
        | DIRECTORY =>
            sendDirectory resp ;;;
            eraseSupply supplyMapKey ;;;
            ASSERT (negb (queryFlag resp F_DELAYED)) ;;;
            modifyBlock b (set_status SHARED)
        | UPSTREAM =>
            let* i := upstreamIndexOf (getLinkId ev) in
            sendUpstream i resp ;;;
            eraseSupply supplyMapKey
        | SELF | PREFETCHER => ret tt
        end
  end.

Definition prepBusSupplyData (b : BlockRef) (ev : MemEvent) : M MemEvent :=
  let* blk := getBlock b in ret (setPayload (data blk) ev).

Definition finishBusSupplyData (b : BlockRef) (src : SourceType_t) (isFakeSupply : bool) : M unit :=
  when (negb isFakeSupply) (modifyBlock b (set_status SHARED)) ;;;
  let* blk := getBlock b in
  let supplyMapKey := (baseAddr blk, src) in
  let* s := get in
  match supplyInProgress s !! supplyMapKey with
  | None => fail AssertFailed
  | Some _ => eraseSupply supplyMapKey
  end.

(** Marking a supply as canceled and withdrawing its bus request. *)
Definition cancelSupply (key : Z * SourceType_t) : M unit :=
  let* s := get in
  match supplyInProgress s !! key with
  | Some si =>
      modify (fun s => set_supplyInProgress
                (<[key := mkSupplyInfo (si_busEvent si) true]> (supplyInProgress s)) s) ;;;
      match si_busEvent si with
      | Some be =>
          let* handlers := busCancelRequest (Some be) in
          match bh_finish handlers with
          | Some _ =>
              modify (fun s => set_supplyInProgress
                        (<[key := mkSupplyInfo None true]> (supplyInProgress s)) s)
          | None => ret tt
          end
      | None => ret tt
      end
  | None => ret tt
  end.

(** *** Fill and writeback arrival *)

(** The [while] loop of [handleCacheSupplyEvent] over the blocks covered by
    a snooped supply; [n] bounds the number of iterations. *)
Fixpoint cancelCoveredSupplies (n : nat) (blkAddr : Z) (ev : MemEvent) : M unit :=
  if blkAddr <? wrap64 (getAddr ev + getSize ev) then
    match n with
    | O => fail OutOfFuel
    | S n' =>
        let* b := findBlock blkAddr (findBlock_emptyOK cfg) in
        match b with
        | Some r =>
            let* blk := getBlock r in
            ASSERT (negb (bool_decide (status blk = EXCLUSIVE)))
        | None => ret tt
        end ;;;
        cancelSupply (blkAddr, SNOOP) ;;;
        cancelCoveredSupplies n' (wrap64 (blkAddr + blocksize cfg)) ev
    end
  else ret tt.

Definition coveredBlocks (ev : MemEvent) : nat :=
  Z.to_nat ((wrap64 (getAddr ev + getSize ev) - addrToBlockAddr (getAddr ev))
            / blocksize cfg + 1).

(** The replay loop over [li->list]: the list is read again at every
    iteration, as the dispatcher it re-enters may append to it. *)
Fixpoint replayLoads (fuel : nat) (li : LoadInfoPtr) (src : SourceType_t) (n : nat) : M unit :=
  match fuel with
  | O => fail OutOfFuel
  | S fuel' =>
      let* l := getLoadInfo li in
      match li_list l !! n with
      | None => ret tt
      | Some oldEV =>
          (if bool_decide (src = SNOOP) && bool_decide (le_src oldEV = SNOOP) then ret tt
           else match le_ev oldEV with
                | Some e => dispatch e (le_src oldEV) false true
                | None => ret tt
                end) ;;;
          replayLoads fuel' li src (S n)
      end
  end.

Definition purgeSnoop (src : SourceType_t) (e : LoadElement_t) : LoadElement_t :=
  if bool_decide (src = SNOOP) && bool_decide (le_src e = SNOOP)
  then mkLoadElement None (le_src e) (le_issueTime e) else e.

Definition countSnoop (src : SourceType_t) (q : list LoadElement_t) : nat :=
  length (List.filter (fun e => bool_decide (src = SNOOP) && bool_decide (le_src e = SNOOP)) q).

Definition handleCacheSupplyEvent (fuel : nat) (ev : MemEvent) (src : SourceType_t) : M unit :=
  if bool_decide (src = SNOOP) && String.eqb (getSrc ev) (getName cfg) then ret tt
  else
    when (bool_decide (src = SNOOP) && (blocksize cfg <=? getSize ev))
      (cancelCoveredSupplies (coveredBlocks ev) (addrToBlockAddr (getAddr ev)) ev) ;;;
    let* s := get in
    match waitingLoads s !! getAddr ev with
    | Some li =>
        let* l := getLoadInfo li in
        match li_busEvent l with
        | Some be =>
            let* _ := busCancelRequest (Some be) in
            modifyLoadInfo li (set_li_busEvent None)
        | None => ret tt
        end ;;;
        match targetBlock l with
        | None => ASSERT (bool_decide (src = SNOOP))
        | Some tb =>
            (if queryFlag ev F_DELAYED then
               modifyLoadInfo li (fun x => set_li_list (List.map (purgeSnoop src) (li_list x)) x) ;;;
               when (countSnoop src (li_list l) =? length (li_list l))%nat
                 (modify (fun s => set_waitingLoads (delete (getAddr ev) (waitingLoads s)) s) ;;;
                  modifyBlock tb (set_loadInfo None) ;;;
                  deleteLoadInfo li ;;;
                  let* blk := getBlock tb in
                  when (isAssigned blk) (modifyBlock tb (set_status INVALID)) ;;;
                  modifyBlock tb unlock)
             else
               updateBlock ev tb ;;;
               modifyBlock tb (set_loadInfo None) ;;;
               modifyBlock tb (set_status SHARED) ;;;
               modifyBlock tb unlock ;;;
               replayLoads fuel li src O ;;;
               modify (fun s => set_waitingLoads (delete (getAddr ev) (waitingLoads s)) s) ;;;
               deleteLoadInfo li) ;;;
            let* blk := getBlock tb in
            let* row := findRow (baseAddr blk) in
            handlePendingEvents row (Some tb)
        end
    | None =>
        when (bool_decide (cacheMode cfg = MODE_INCLUSIVE))
          (let* block := findBlock (getAddr ev) false in
           match block with
           | None => fail AssertFailed
           | Some b =>
               let* blk := getBlock b in
               ASSERT (bool_decide (status blk = DIRTY) || bool_decide (src = SNOOP)) ;;;
               updateBlock ev b ;;;
               modifyBlock b (set_status SHARED)
           end) ;;;
        match src with
        | SNOOP =>
            if String.eqb (getDst ev) (getName cfg) then ret tt
            else if downstream_link cfg && queryFlag ev F_WRITEBACK then sendDownstream ev
            else if directory_link cfg && queryFlag ev F_WRITEBACK
                 then sendDirectory (setSrc (getName cfg) ev)
            else ret tt
        | UPSTREAM =>
            ASSERT (queryFlag ev F_WRITEBACK) ;;;
            if downstream_link cfg then sendDownstream ev
            else if directory_link cfg then sendDirectory (setSrc (getName cfg) ev)
            else fail Abort
        | _ => ret tt
        end
    end.

(** *** Incoming invalidations *)

Definition handleInvalidate (ev : MemEvent) (src : SourceType_t) (finishedUpstream : bool) : M unit :=
  if bool_decide (src = SNOOP) && String.eqb (getSrc ev) (getName cfg) then ackInvalidate ev
  else
    let* block := findBlock (getAddr ev) (findBlock_emptyOK cfg) in
    let* proceed :=
      match block with
      | Some b =>
          let* blk := getBlock b in
          let* waiting := waitingForInvalidate (baseAddr blk) in
          if waiting then cancelInvalidate b else ret true
      | None => ret true
      end in
    if negb proceed then sendSelf 2 (RetryEvent ev None src)
    else
      let* s := get in
      if negb finishedUpstream
         && (bool_decide (src = DOWNSTREAM) || bool_decide (src = DIRECTORY))
         && negb (isL1 s) then
        issueInvalidate_addr ev src (getAddr ev) SEND_UP false
      else if negb finishedUpstream && bool_decide (src = UPSTREAM) then
        issueInvalidate_addr ev src (getAddr ev) SEND_DOWN true
      else
        let* pended :=
          match block with
          | Some b =>
              let* blk := getBlock b in
              when (bool_decide (status blk = SHARED))
                (cancelSupply (baseAddr blk, SNOOP) ;;;
                 (if bool_decide (cacheMode cfg = MODE_INCLUSIVE)
                     && negb (bool_decide (src = DOWNSTREAM))
                     && negb (bool_decide (src = DIRECTORY))
                  then modifyBlock b (set_status DIRTY)
                  else modifyBlock b (set_status INVALID)) ;;;
                 let* row := findRow (baseAddr blk) in
                 handlePendingEvents row None) ;;;
              let* blk' := getBlock b in
              if bool_decide (status blk' = EXCLUSIVE) then
                let* row := findRow (baseAddr blk') in
                addWaitingEvent row ev src ;;;
                writebackBlock b INVALID ;;;
                ret true
              else ret false
          | None => ret false
          end in
        if pended then ret tt
        else when (negb (bool_decide (src = SNOOP))) (sendInvalidateACK ev src).

(** *** Fetch from the directory *)

Definition fetchBlock (ev : MemEvent) (b : BlockRef) : M unit :=
  let* initRes := initLoad ev DIRECTORY in
  let li := fst initRes in
  let reprocess := negb (snd initRes) in
  modifyLoadInfo li (set_targetBlock (Some b)) ;;;
  modifyLoadInfo li (set_loadDirection SEND_UP) ;;;
  modifyBlock b (set_loadInfo (Some li)) ;;;
  modifyBlock b lock ;;;
  let* now := getCurrentSimTime in
  (if reprocess
   then modifyLoadInfo li (push_front (mkLoadElement (Some ev) DIRECTORY now))
   else modifyLoadInfo li (push_back (mkLoadElement (Some ev) DIRECTORY now))) ;;;
  let* blk := getBlock b in
  sendSelf 1 (FinishLoadBlock li (baseAddr blk) b).

Definition handleFetch (ev : MemEvent) (invalidate hasInvalidated : bool) : M unit :=
  let* block := findBlock (getAddr ev) false in
  ASSERT (directory_link cfg) ;;;
  match block with
  | None => ret tt
  | Some b =>
      if invalidate && negb hasInvalidated then
        issueInvalidate_block ev DIRECTORY b SHARED SEND_UP (issueInvalidate_cancelable cfg)
      else
        let* blk := getBlock b in
        match status blk with
        | SHARED =>
            let* me := makeResponse ev in
            sendDirectory (setPayload (data blk) (setDst (getSrc ev) me)) ;;;
            when invalidate (modifyBlock b (set_status INVALID))
        | DIRTY => fetchBlock ev b
        | _ => fail Abort
        end
  end.

(** *** NACK *)

Definition nackWaiting (ev : MemEvent) (oldEV : MemEvent * SourceType_t) : M unit :=
  let* s := get in
  if isL1 s then
    let* block := findBlock (getAddr ev) false in
    match block with
    | Some b =>
        let* blk := getBlock b in
        when (isLocked blk) (modifyBlock b unlock)
    | None => ret tt
    end ;;;
    sendSelf 1 (RetryEvent (fst oldEV) None (snd oldEV))
  else
    let* nack0 := makeResponse (fst oldEV) in
    let nack := setSize 0 (setCmd NACK nack0) in
    match snd oldEV with
    | SNOOP => busRequest nack noHandlers
    | UPSTREAM => let* i := upstreamIndexOf (getLinkId (fst oldEV)) in sendUpstream i nack
    | DOWNSTREAM => sendDownstream nack
    | DIRECTORY => sendDirectory nack
    | SELF => fail Abort
    | PREFETCHER => fail Abort
    end.

Definition nackLoad (ev : MemEvent) : M unit :=
  let* s := get in
  match waitingLoads s !! getAddr ev with
  | Some li =>
      let* l := getLoadInfo li in
      match targetBlock l with
      | Some b => let* blk := getBlock b in sendSelf 1 (FinishLoadBlock li (baseAddr blk) b)
      | None => fail NullDeref
      end
  | None => ret tt
  end.

Definition handleNACK (ev : MemEvent) (src : SourceType_t) : M unit :=
  let* s := get in
  match invalidations s !! getAddr ev with
  | Some i =>
      if id_eqb (getResponseToID ev) (issuingEvent i) then
        ASSERT (canCancel i) ;;;
        eraseInvalidation (getAddr ev) ;;;
        forM_ (inv_waitingEvents i) (nackWaiting ev)
      else nackLoad ev
  | None => nackLoad ev
  end.

(** *** Bus grant *)

Definition runInit (h : option BusInitHandler) (ev : MemEvent) : M MemEvent :=
  match h with
  | Some (PrepBusSupplyData b) => prepBusSupplyData b ev
  | Some (PrepWritebackBlock b) => prepWritebackBlock b ev
  | None => ret ev
  end.

Definition runFinish (h : option BusFinishHandler) : M unit :=
  match h with
  | Some (FinishLoadBlockBus li) => finishLoadBlockBus li
  | Some (FinishBusSupplyData b src fake) => finishBusSupplyData b src fake
  | Some (FinishWritebackBlockVA b newSt dec) => finishWritebackBlock b newSt dec
  | None => ret tt
  end.

(** Modelled from the spec: [BusQueue::clearToSend] (cache.h).  The arbiter
    delivers BusClearToSend "when our request reaches the head"; the adapter
    then fires the init callback, sends the event on the snoop link and fires
    the finish callback. *)
Definition clearToSend (ev : MemEvent) : M unit :=
  let* s := get in
  match snoopBusQueue s with
  | [] => ret tt
  | (req, h) :: rest =>
      modify (set_snoopBusQueue rest) ;;;
      let* req' := runInit (bh_init h) req in
      send (SendSnoop req') ;;;
      runFinish (bh_finish h)
  end.

(** *** The dispatcher's switch *)

Definition dispatchCommand (fuel : nat) (ev : MemEvent) (src : SourceType_t)
    (firstTimeProcessed firstPhaseComplete : bool) : M unit :=
  match getCmd ev with
  | BusClearToSend => clearToSend ev
  | ReadReq | WriteReq => handleCPURequest ev firstTimeProcessed
  | RequestData => handleCacheRequestEvent ev src firstTimeProcessed
  | SupplyData => handleCacheSupplyEvent fuel ev src
  | Invalidate => handleInvalidate ev src firstPhaseComplete
  | ACK => ackInvalidate ev
  | NACK => handleNACK ev src
  | Fetch => handleFetch ev false firstPhaseComplete
  | FetchInvalidate => handleFetch ev true firstPhaseComplete
  | _ => ret tt
  end.

End Handlers.

(** ** Tying the knot

    [Cache::handleIncomingEvent(event, src, firstTimeProcessed,
    firstPhaseComplete)].  [fuel] bounds the depth of re-entrant dispatch
    (and the length of a replay loop); running out of it is a failure of its
    own, never a result. *)
Fixpoint handleIncomingEvent (cfg : Config) (fuel : nat) (ev : MemEvent)
    (src : SourceType_t) (firstTimeProcessed firstPhaseComplete : bool) : M unit :=
  match fuel with
  | O => fail OutOfFuel
  | S n =>
      dispatchCommand cfg (handleIncomingEvent cfg n) n ev src
        firstTimeProcessed firstPhaseComplete
  end.

(** The link handlers' entry point [handleIncomingEvent(event, src)]. *)
Definition handleLinkEvent (cfg : Config) (fuel : nat) (ev : MemEvent) (src : SourceType_t) : M unit :=
  handleIncomingEvent cfg fuel ev src true (handleIncomingEvent_firstPhaseComplete cfg).

Definition retryEvent (cfg : Config) (fuel : nat) (ev : MemEvent) (src : SourceType_t) : M unit :=
  handleIncomingEvent cfg fuel ev src false (handleIncomingEvent_firstPhaseComplete cfg).

Definition handlePrefetchEvent (cfg : Config) (fuel : nat) (ev : MemEvent) : M unit :=
  handleIncomingEvent cfg fuel ev PREFETCHER true false.

(** [Cache::handleSelfEvent]: fire the deferred call. *)
Definition handleSelfEvent (cfg : Config) (fuel : nat) (se : SelfEvent) : M unit :=
  match se with
  | RetryEvent ev _ src => retryEvent cfg fuel ev src
  | SendCPUResponse ev b src => sendCPUResponse cfg ev b src
  | FinishLoadBlock li addr b => finishLoadBlock cfg li addr b
  | SupplyDataEvent ev b src => supplyData cfg ev b src
  end.

(** ** A small configuration for worked examples

    Two ways, two rows, 64-byte blocks, one CPU upstream and one downstream
    link (the geometry of the end-to-end scenarios). *)

Definition plainInvalidation : Invalidation :=
  mkInvalidation 0 [] (0, 0) None None INVALID true.

Definition cfg_l1 : Config :=
  mkConfig "l1cache" 2 2 64 MODE_STANDARD [7] true false false "l2cache" 6 7 []
    plainInvalidation false true false.

Definition emptyBlock : CacheBlock :=
  mkBlock 0 0 INVALID (repeat 0 64) 0 0 0 false false None.

Definition emptyRow : CacheRow := mkRow [emptyBlock; emptyBlock] ∅.

Definition zeroStats : Stats := mkStats 0 0 0 0 0 0 0.

Definition st_init : Cache :=
  mkCache [emptyRow; emptyRow] ∅ ∅ ∅ 1%positive ∅ {[ 7 := O ]} [] false zeroStats 100 5 [].

Definition cpuEvent (id : Z) (cmd : Command) (addr size : Z) (lockedFlag : bool)
    (payload : list Z) : MemEvent :=
  mkEvent (id, 0) NO_ID cmd "cpu0" "l1cache" addr size false lockedFlag false payload 7.

(** ** Specification-level definitions

    The rules of the specification, written from its words, against which
    the handlers are compared. *)

(** An unsigned 64-bit value ([Addr]). *)
Definition is_u64 (x : Z) : Prop := 0 <= x < 2 ^ 64.

(** A directory entry with an unsigned range start and a usable step. *)
Definition dir_wf (di : ComponentInfo) : Prop :=
  0 <= rangeStart di /\ step_defined di.

(** The rule of the specification for [finish_load_block]: "proceed only if
    (block is Assigned) or (block is Dirty and we are fetching upward)",
    for a block that still carries the load's address and its [LoadInfo]. *)
Definition loadProceeds (blk : CacheBlock) (dir : ForwardDir_t) (addr : Z)
    (li : LoadInfoPtr) : bool :=
  (bool_decide (status blk = ASSIGNED)
   || (bool_decide (status blk = DIRTY) && bool_decide (dir = SEND_UP)))
  && (baseAddr blk =? addr)
  && bool_decide (loadInfo blk = Some li).

(** The replay order of the specification: queued events are replayed "in
    arrival order (the first replay receives first_phase_complete = true)";
    every replay is a re-processing ([firstTimeProcessed = false]). *)
Definition replayInOrder (d : MemEvent -> SourceType_t -> bool -> bool -> M unit)
    (q : eventQueue_t) : M unit :=
  match q with
  | [] => ret tt
  | first :: rest =>
      d (fst first) (snd first) false true ;;;
      forM_ rest (fun e => d (fst e) (snd e) false false)
  end.

(** The fill rule of the specification, on the queue of an outstanding
    load: entries are replayed in queue order; when the supply itself came
    over the snoop bus, snoop-sourced entries are discarded; an entry whose
    event was purged by an earlier Delayed supply has nothing to replay. *)
Definition replayedEntries (src : SourceType_t) (q : list LoadElement_t)
    : list (MemEvent * SourceType_t) :=
  omap (fun e =>
          if bool_decide (src = SNOOP) && bool_decide (le_src e = SNOOP) then None
          else option_map (fun oe => (oe, le_src e)) (le_ev e)) q.

(** The target block after a fill: payload in place, Shared, no load
    attached, protocol lock released. *)
Definition filledBlock (now : Z) (d : list Z) (blk : CacheBlock) : CacheBlock :=
  unlock (set_status SHARED (set_loadInfo None (set_last_touched now (set_data d blk)))).

(** The state once the load's pending bus request (if any) is withdrawn. *)
Definition withdrawLoadRequest (li : LoadInfoPtr) (l : LoadInfo_t) (s : Cache) : Cache :=
  match li_busEvent l with
  | Some be =>
      set_loadInfos (<[li := set_li_busEvent None l]> (loadInfos s))
        (set_snoopBusQueue
           (List.filter (fun q => negb (isRequest be q)) (snoopBusQueue s)) s)
  | None => s
  end.

(** The response built by [supplyData] for a user-locked block: a fresh
    SupplyData for the block address with the Delayed flag, the block size
    and no payload. *)
Definition delayedResponse (cfg : Config) (s : Cache) (blk : CacheBlock) : MemEvent :=
  setSize (blocksize cfg)
    (setFlag F_DELAYED
       (mkEvent (nextEventId s, 0) NO_ID SupplyData (getName cfg) BROADCAST_TARGET
          (baseAddr blk) 0 false false false [] (-1))).

(** The events a state has put on its links or queued for the bus. *)
Definition sentEvent (a : Action) : option MemEvent :=
  match a with
  | SendUpstream _ ev | SendDownstream ev | SendDirectory ev | SendSnoop ev => Some ev
  | SendSelf _ _ | NotifyAccess _ _ _ => None
  end.

Definition emitted (s : Cache) : list MemEvent :=
  omap sentEvent (sent s) ++ List.map fst (snoopBusQueue s).

(** The reading of the supply rule under which every user-locked,
    uncanceled supply answers with a Delayed response, whatever its
    source. *)
Definition every_locked_supply_answers : Prop :=
  forall (cfg : Config) (ev : MemEvent) (b : BlockRef) (src : SourceType_t) (s : Cache)
         (blk : CacheBlock) (si : SupplyInfo),
    lookupBlock b s = Some blk ->
    supplyInProgress s !! (baseAddr blk, src) = Some si ->
    canceled si = false ->
    user_locked blk <> 0 ->
    exists s' resp,
      supplyData cfg ev b src s = Ok (tt, s')
      /\ In resp (emitted s') /\ ~ In resp (emitted s)
      /\ queryFlag resp F_DELAYED = true /\ getPayload resp = []
      /\ option_map user_lock_needs_wb (lookupBlock b s') = Some true.

(** The replay of the entries [es] from state [st] keeps the queue [q] of
    the load [li]: whenever the dispatcher handles the next entry, it leaves
    that queue as it is, and so on from the state it reaches.  (A run of
    this dispatcher from this state, not a property of all its runs.) *)
Fixpoint queueKept (d : MemEvent -> SourceType_t -> bool -> bool -> M unit)
    (li : LoadInfoPtr) (q : list LoadElement_t)
    (es : list (MemEvent * SourceType_t)) (st : Cache) : Prop :=
  match es with
  | [] => True
  | e :: r =>
      forall st', d (fst e) (snd e) false true st = Ok (tt, st') ->
        option_map li_list (loadInfos st' !! li) = Some q /\ queueKept d li q r st'
  end.

(** ** Example inputs *)

Definition readMiss : MemEvent := cpuEvent 1 ReadReq 264 4 false [].

Definition fill256 : MemEvent :=
  mkEvent (50, 0) (100, 0) SupplyData "l2cache" "l1cache" 256 64 false false false
    (repeat 170 64) 9.

Definition cfg_dirs : Config :=
  mkConfig "l2cache" 2 2 64 MODE_STANDARD [] false false true NO_NEXT_LEVEL 6 7
    [ mkComponentInfo "dir_low" 0 4096 0 0;
      mkComponentInfo "dir_even" 4096 8192 64 128;
      mkComponentInfo "dir_odd" 4096 8192 64 128;
      mkComponentInfo "dir_all" 4096 8192 0 0 ]
    plainInvalidation false true false.

(** A block with a writeback in flight, and a state holding it. *)
Definition wbBlock : CacheBlock :=
  mkBlock 256 2 EXCLUSIVE (repeat 17 64) 3 1 0 false true None.

Definition st_wb : Cache :=
  mkCache [mkRow [wbBlock; emptyBlock] ∅; emptyRow] ∅ ∅ ∅ 1%positive ∅ {[ 7 := O ]}
    [] true zeroStats 100 5 [].

(** A block reserved for the load of 256, and the state after the miss. *)
Definition assignedBlock : CacheBlock :=
  mkBlock 256 2 ASSIGNED (repeat 0 64) 0 1 0 false false (Some 1%positive).

Definition load256 : LoadInfo_t :=
  mkLoadInfo 256 (Some (O, O)) None (1, 0) SEND_DOWN
    [mkLoadElement (Some readMiss) UPSTREAM 5].

Definition st_loading : Cache :=
  mkCache [mkRow [assignedBlock; emptyBlock] ∅; emptyRow] ∅ {[ 256 := 1%positive ]}
    {[ 1%positive := load256 ]} 2%positive ∅ {[ 7 := O ]} [] true zeroStats 100 5 [].

(** A Shared block for address 256 whose bytes are 0, 1, ..., 63. *)
Definition sharedBlock : CacheBlock :=
  mkBlock 256 2 SHARED (List.map Z.of_nat (seq 0 64)) 3 0 0 false false None.

Definition st_shared : Cache :=
  mkCache [mkRow [sharedBlock; emptyBlock] ∅; emptyRow] ∅ ∅ ∅ 1%positive ∅ {[ 7 := O ]}
    [] true zeroStats 100 5 [].

Definition readHit : MemEvent := cpuEvent 2 ReadReq 264 4 false [].

Definition readSplit : MemEvent := cpuEvent 3 ReadReq 316 8 false [].

(** An Exclusive block for address 256, and CPU writes with the atomic-lock
    flag: one that hits it, one that misses every block. *)
Definition exclusiveBlock : CacheBlock :=
  mkBlock 256 2 EXCLUSIVE (List.map Z.of_nat (seq 0 64)) 3 0 1 false false None.

Definition st_exclusive : Cache :=
  mkCache [mkRow [exclusiveBlock; emptyBlock] ∅; emptyRow] ∅ ∅ ∅ 1%positive ∅ {[ 7 := O ]}
    [] true zeroStats 100 5 [].

Definition lockedWriteHit : MemEvent := cpuEvent 4 WriteReq 260 2 true [200; 201].

Definition lockedWriteMiss : MemEvent := cpuEvent 5 WriteReq 1028 2 true [200; 201].

(** Peer requests for block 256: from the upstream link, from downstream,
    over the snoop bus for somebody else, and one of a wrong size. *)
Definition peerRequest (id : Z) (from to : string) (size : Z) : MemEvent :=
  mkEvent (id, 0) NO_ID RequestData from to 256 size false false false [] 7.

(** A block held Dirty (INCLUSIVE mode: writeback from above is awaited). *)
Definition dirtyBlock : CacheBlock :=
  mkBlock 256 2 DIRTY (List.map Z.of_nat (seq 0 64)) 3 0 0 false false None.

Definition st_dirty : Cache :=
  mkCache [mkRow [dirtyBlock; emptyBlock] ∅; emptyRow] ∅ ∅ ∅ 1%positive ∅ {[ 7 := O ]}
    [] false zeroStats 100 5 [].



Definition reqUp : MemEvent := peerRequest 8 "l0cache" "l1cache" 64.

Definition reqDown : MemEvent := peerRequest 8 "l2cache" "l1cache" 64.

(** An ACK nobody is waiting for, on the address of the Shared block. *)
Definition strayAck : MemEvent :=
  mkEvent (60, 0) (77, 0) ACK "peer" "l1cache" 256 0 false false false [] 9.

(** An upgrade in flight: the Shared block is locked by an invalidation that
    waits for two ACKs and holds the CPU write that caused it, followed by a
    read that arrived later. *)
Definition upgradeWrite : MemEvent := cpuEvent 6 WriteReq 260 2 false [200; 201].

Definition lockedShared : CacheBlock :=
  mkBlock 256 2 SHARED (List.map Z.of_nat (seq 0 64)) 3 1 0 false false None.

Definition upgradeRecord (acks : Z) : Invalidation :=
  mkInvalidation acks [(upgradeWrite, UPSTREAM); (readHit, UPSTREAM)] (90, 0) None
    (Some (O, O)) EXCLUSIVE true.

Definition st_upgrading (acks : Z) : Cache :=
  mkCache [mkRow [lockedShared; emptyBlock] ∅; emptyRow] {[ 256 := upgradeRecord acks ]}
    ∅ ∅ 1%positive ∅ {[ 7 := O ]} [] true zeroStats 100 5 [].

Definition upgradeAck : MemEvent :=
  mkEvent (61, 0) (90, 0) ACK "l2cache" "l1cache" 256 0 false false false [] 9.

(** An Exclusive block under a CPU atomic lock, with a supply scheduled for
    each kind of requester. *)
Definition userLockedBlock : CacheBlock :=
  mkBlock 256 2 EXCLUSIVE (List.map Z.of_nat (seq 0 64)) 3 1 1 false false None.

Definition cfg_mid : Config :=
  mkConfig "l2cache" 2 2 64 MODE_STANDARD [7] true true true "l3cache" 6 7
    [mkComponentInfo "dir0" 0 65536 0 0] plainInvalidation false true false.

Definition st_supplying : Cache :=
  mkCache [mkRow [userLockedBlock; emptyBlock] ∅; emptyRow] ∅ ∅ ∅ 1%positive
    {[ (256, DOWNSTREAM) := mkSupplyInfo None false;
       (256, UPSTREAM) := mkSupplyInfo None false;
       (256, SNOOP) := mkSupplyInfo None false;
       (256, DIRECTORY) := mkSupplyInfo None false;
       (256, PREFETCHER) := mkSupplyInfo None false ]}
    {[ 7 := O ]} [] false zeroStats 100 5 [].

Definition prefetchRequest : MemEvent :=
  mkEvent (70, 0) NO_ID RequestData "prefetcher" "l2cache" 256 64 false false false [] 0.

(** A cache on a snoop bus (and nothing below it but the bus), loading
    block 256 on behalf of a peer that asked over the bus and of an upstream
    cache; its request for the fill is still queued on the bus. *)
Definition cfg_bus : Config :=
  mkConfig "l2cache" 2 2 64 MODE_STANDARD [7] false true false "l3cache" 6 7 []
    plainInvalidation false true false.

Definition snoopRequest : MemEvent :=
  mkEvent (80, 0) NO_ID RequestData "peercache" "l2cache" 256 64 false false false [] 3.

Definition pendingBusLoad : MemEvent :=
  mkEvent (99, 0) NO_ID RequestData "l2cache" "l3cache" 256 64 false false false [] (-1).

Definition loadOnBus : LoadInfo_t :=
  mkLoadInfo 256 (Some (O, O)) (Some pendingBusLoad) (80, 0) SEND_DOWN
    [mkLoadElement (Some snoopRequest) SNOOP 4;
     mkLoadElement (Some reqUp) UPSTREAM 5].

Definition st_bus_loading : Cache :=
  mkCache [mkRow [assignedBlock; emptyBlock] ∅; emptyRow] ∅ {[ 256 := 1%positive ]}
    {[ 1%positive := loadOnBus ]} 2%positive ∅ {[ 7 := O ]}
    [(pendingBusLoad, mkBusHandlers None (Some (FinishLoadBlockBus 1%positive)))]
    false zeroStats 100 5 [].

(** The same load in a cache that has a downstream link: the request for
    the fill went down that link, nothing is queued on the bus. *)
Definition loadForPeer : LoadInfo_t :=
  mkLoadInfo 256 (Some (O, O)) None (80, 0) SEND_DOWN
    [mkLoadElement (Some snoopRequest) SNOOP 4;
     mkLoadElement (Some reqUp) UPSTREAM 5].

Definition st_peer_loading : Cache :=
  mkCache [mkRow [assignedBlock; emptyBlock] ∅; emptyRow] ∅ {[ 256 := 1%positive ]}
    {[ 1%positive := loadForPeer ]} 2%positive ∅ {[ 7 := O ]} []
    false zeroStats 100 5 [].

(** The fill for block 256 as the next level supplies it. *)
Definition fillForPeer : MemEvent :=
  mkEvent (51, 0) (99, 0) SupplyData "l3cache" "l2cache" 256 64 false false false
    (repeat 170 64) 3.

(** ** Proof automation

    [mrun] evaluates the monad's plumbing; [decide_consts] settles
    comparisons of constructors. *)

Ltac mrun :=
  cbv beta iota delta [bind ret get modify fail when ASSERT send bump sendSelf
                       getCurrentSimTime exec].

Ltac decide_consts :=
  repeat match goal with
         | |- context [bool_decide (?a = ?b)] =>
             let v := eval vm_compute in (bool_decide (a = b)) in
             match v with
             | true => change (bool_decide (a = b)) with true
             | false => change (bool_decide (a = b)) with false
             end
         end.

(** ** Further specification-level definitions and example inputs *)

(** A way of a row answers a lookup of [addr]: it holds valid data and its
    tag is the (32-bit) tag of the address. *)
Definition hits (cfg : Config) (addr : Z) (b : CacheBlock) : bool :=
  isValid b && (tag b =? wrap32 (addrToTag cfg addr)).

(** A row with two queues of waiting events, for block addresses 256 and
    384 (both of row 0). *)
Definition readMiss384 : MemEvent := cpuEvent 11 ReadReq 384 4 false [].

Definition st_row_waiting : Cache :=
  mkCache [mkRow [sharedBlock; emptyBlock]
             {[ 384 := [(readMiss384, UPSTREAM)];
                256 := [(readMiss, UPSTREAM); (readHit, UPSTREAM)] ]};
           emptyRow]
    ∅ ∅ ∅ 1%positive ∅ {[ 7 := O ]} [] true zeroStats 100 5 [].

(** A CPU write of three bytes into the middle of block 256, and one that
    runs past the end of the block. *)
Definition writeInside : MemEvent := cpuEvent 12 WriteReq 260 3 false [200; 201; 202].
Definition writeSplit : MemEvent := cpuEvent 13 WriteReq 318 4 false [200; 201; 202; 203].

(** The bus queue after [cancelRequest(be)]: a null event withdraws
    nothing. *)
Definition withdrawBusRequest (be : option MemEvent) (s : Cache) : Cache :=
  match be with
  | Some e => set_snoopBusQueue
                (List.filter (fun q => negb (isRequest e q)) (snoopBusQueue s)) s
  | None => s
  end.

(** The self event by which a canceled invalidation re-issues one of its
    waiting events. *)
Definition retryLater (e : MemEvent * SourceType_t) : Action :=
  SendSelf 1 (RetryEvent (fst e) None (snd e)).

(** The response [ev->makeResponse(this)] built in state [s], and the state
    after sending one freshly built event. *)
Definition responseTo (cfg : Config) (ev : MemEvent) (s : Cache) : MemEvent :=
  mkEvent (nextEventId s, 0) (getID ev) (commandResponse (getCmd ev)) (getName cfg)
    (getSrc ev) (getAddr ev) (getSize ev) false false false [] (-1).

Definition afterSending (a : Action) (s : Cache) : Cache :=
  set_sent (sent s ++ [a]) (set_nextEventId (nextEventId s + 1) s).

(** An Invalidate from the next level for a block the cache does not hold. *)
Definition invalidate512 : MemEvent :=
  mkEvent (40, 0) NO_ID Invalidate "l2cache" "l1cache" 512 0 false false false [] 9.

(** A directory-attached cache holding block 256 Shared, and the
    directory's fetches for it. *)
Definition cfg_dir : Config :=
  mkConfig "l2cache" 2 2 64 MODE_STANDARD [7] false false true "NONE" 6 7
    [mkComponentInfo "dir0" 0 65536 0 0] plainInvalidation false true false.

Definition st_dir_shared : Cache :=
  mkCache [mkRow [sharedBlock; emptyBlock] ∅; emptyRow] ∅ ∅ ∅ 1%positive ∅ {[ 7 := O ]}
    [] false zeroStats 100 5 [].

Definition fetch256 (cmd : Command) : MemEvent :=
  mkEvent (30, 0) NO_ID cmd "dir0" "l2cache" 256 64 false false false [] 4.

(** A read from an upstream cache that misses while block 256 is being
    loaded for somebody else. *)
Definition lateRequest : MemEvent :=
  mkEvent (81, 0) NO_ID RequestData "l0cache" "l2cache" 256 64 false false false [] 7.

(** The fill request [finishLoadBlock] builds for a block address, with the
    event id it draws. *)
Definition loadRequest (cfg : Config) (addr id : Z) : MemEvent :=
  setSize (blocksize cfg)
    (mkEvent (id, 0) NO_ID RequestData (getName cfg) BROADCAST_TARGET addr 0
       false false false [] (-1)).




(** The SupplyData event by which block [blk] is supplied, built in state
    [s]. *)
Definition supplyResponse (cfg : Config) (blk : CacheBlock) (s : Cache) : MemEvent :=
  setPayload (data blk)
    (mkEvent (nextEventId s, 0) NO_ID SupplyData (getName cfg) BROADCAST_TARGET
       (baseAddr blk) 0 false false false [] (-1)).

(** The Shared block 256 locked for a supply to the upstream requester. *)
Definition st_supply_up : Cache :=
  mkCache [mkRow [lockedShared; emptyBlock] ∅; emptyRow] ∅ ∅ ∅ 1%positive
    {[ (256, UPSTREAM) := mkSupplyInfo None false ]} {[ 7 := O ]} [] false zeroStats 100 5 [].

(** The writeback of block [blk] as [finishWritebackBlock] and
    [writebackBlock] build it, with the event id it draws, and the sends of
    [finishWritebackBlock] when the first id free is [id]. *)
Definition writebackEvent (cfg : Config) (blk : CacheBlock) (id : Z) : MemEvent :=
  setPayload (data blk)
    (setFlag F_WRITEBACK
       (mkEvent (id, 0) NO_ID SupplyData (getName cfg) BROADCAST_TARGET (baseAddr blk) 0
          false false false [] (-1))).

Definition writebackSends (cfg : Config) (blk : CacheBlock) (id : Z) : list Action :=
  (if downstream_link cfg then [SendDownstream (writebackEvent cfg blk id)] else [])
  ++ (if directory_link cfg
      then [SendDirectory (writebackEvent cfg blk (if downstream_link cfg then id + 1 else id))]
      else []).

(** No event waits on row [r]. *)
Definition rowIdle (r : nat) (s : Cache) : Prop :=
  exists row, database s !! r = Some row /\ waitingEvents row = ∅.

(** A writeback of block 512 arriving from an upstream cache. *)
Definition writebackFromAbove : MemEvent :=
  mkEvent (45, 0) NO_ID SupplyData "l0cache" "l2cache" 512 64 true false false
    (repeat 9 64) 7.

(** The status a Shared block takes when it is invalidated from [src]: an
    INCLUSIVE cache keeps the block as Dirty (a writeback from above is now
    awaited) unless the invalidation came from below. *)
Definition invalidatedStatus (cfg : Config) (src : SourceType_t) : BlockStatus :=
  if bool_decide (cacheMode cfg = MODE_INCLUSIVE)
     && negb (bool_decide (src = DOWNSTREAM)) && negb (bool_decide (src = DIRECTORY))
  then DIRTY else INVALID.

(** An upgrade in flight that may not be canceled, and an Invalidate for the
    same block from the next level. *)
Definition st_upgrading_firm : Cache :=
  mkCache [mkRow [lockedShared; emptyBlock] ∅; emptyRow]
    {[ 256 := mkInvalidation 1 [(upgradeWrite, UPSTREAM)] (90, 0) None (Some (O, O))
                EXCLUSIVE false ]}
    ∅ ∅ 1%positive ∅ {[ 7 := O ]} [] true zeroStats 100 5 [].

Definition invalidate256 : MemEvent :=
  mkEvent (41, 0) NO_ID Invalidate "l2cache" "l1cache" 256 0 false false false [] 9.

(** The response to a CPU read that hits block [blk]: the bytes of the block
    from the request's offset on, as many as were asked for. *)
Definition readResponse (cfg : Config) (ev : MemEvent) (blk : CacheBlock) (s : Cache)
    : MemEvent :=
  setPayloadFrom (getSize ev) (drop (Z.to_nat (getAddr ev - baseAddr blk)) (data blk))
    (responseTo cfg ev s).


(** A CPU read of the three bytes that [writeInside] writes. *)
Definition readInside : MemEvent := cpuEvent 14 ReadReq 260 3 false [].


(** ** Issuing an invalidation *)

(** The upstream links an invalidation of [addr] caused by [ev] is sent to:
    every link but the one [ev] came from, and that one too when the block
    invalidated is not the block [ev] asks for. *)
Definition reachesUpstream (cfg : Config) (ev : MemEvent) (addr : Z) (il : nat * Z) : bool :=
  negb (snd il =? getLinkId ev) || negb (addrToBlockAddr cfg (getAddr ev) =? addr).

Definition invalidatedUpstream (cfg : Config) (ev : MemEvent) (addr : Z) : list nat :=
  List.map fst (List.filter (reachesUpstream cfg ev addr) (imap pair (upstream_links cfg))).

(** The copies of the Invalidate event [invEv] that go out on the
    point-to-point links, in the order they are sent. *)
Definition invalidateCopies (cfg : Config) (ev : MemEvent) (addr : Z)
    (direction : ForwardDir_t) (invEv : MemEvent) : list Action :=
  (if sendsDown direction then
     (if downstream_link cfg && negb (String.eqb (next_level_name cfg) NO_NEXT_LEVEL)
      then [SendDownstream invEv] else [])
     ++ (if directory_link cfg then [SendDirectory invEv] else [])
   else [])
  ++ (if sendsUp direction
      then List.map (fun i => SendUpstream i invEv) (invalidatedUpstream cfg ev addr)
      else []).

(** While an invalidation of [addr] is being issued from state [s0]: its
    record so far, and what has been sent so far; the blocks, the clock and
    the bus queue are not touched. *)
Definition issuingAt (addr : Z) (s0 : Cache) (inv : Invalidation) (out : list Action)
    (s : Cache) : Prop :=
  invalidations s !! addr = Some inv /\ sent s = sent s0 ++ out
  /\ database s = database s0 /\ currentSimTime s = currentSimTime s0
  /\ snoopBusQueue s = snoopBusQueue s0.

(** The requests an invalidation puts on the snoop bus: one, without
    handlers, when the cache has a snoop link. *)
Definition invalidateOnBus (cfg : Config) (invEv : MemEvent) : list (MemEvent * BusHandlers) :=
  if snoop_link cfg then [(invEv, noHandlers)] else [].

(** A cache between two levels with three upstream links, a downstream
    link and a snoop bus, and an Invalidate for block 256 from the first of
    the upstream links. *)
Definition cfg_three_up_bus : Config :=
  mkConfig "l2cache" 2 2 64 MODE_STANDARD [7; 8; 9] true true false "l3cache" 6 7 []
    plainInvalidation false true false.

Definition invalidateFromAbove : MemEvent :=
  mkEvent (42, 0) NO_ID Invalidate "l1a" "l2cache" 256 0 false false false [] 7.

(** The delayed answer to the fill request of block 256, as a peer holding
    the block under a CPU lock puts it on the bus. *)
Definition delayedFill : MemEvent :=
  mkEvent (53, 0) NO_ID SupplyData "peercache" BROADCAST_TARGET 256 64 false false true [] 3.

(** Block 256 being loaded for a peer that asked over the bus, and for
    nobody else. *)
Definition loadForSnooper : LoadInfo_t :=
  mkLoadInfo 256 (Some (O, O)) None (80, 0) SEND_DOWN
    [mkLoadElement (Some snoopRequest) SNOOP 4].

Definition st_snoop_loading : Cache :=
  mkCache [mkRow [assignedBlock; emptyBlock] ∅; emptyRow] ∅ {[ 256 := 1%positive ]}
    {[ 1%positive := loadForSnooper ]} 2%positive ∅ {[ 7 := O ]} []
    false zeroStats 100 5 [].


(** The Shared block 256 locked for a supply over the bus that has been
    scheduled and has not fired yet, and a peer's Invalidate for the block
    seen on the bus. *)
Definition st_supply_snoop : Cache :=
  mkCache [mkRow [lockedShared; emptyBlock] ∅; emptyRow] ∅ ∅ ∅ 1%positive
    {[ (256, SNOOP) := mkSupplyInfo None false ]} {[ 7 := O ]} [] false zeroStats 100 5 [].

Definition snoopedInvalidate : MemEvent :=
  mkEvent (43, 0) NO_ID Invalidate "peercache" BROADCAST_TARGET 256 0 false false false [] 3.

(** A NACK from the next level for the Invalidate (90, 0) of the upgrade in
    flight. *)
Definition nackUpgrade : MemEvent :=
  mkEvent (62, 0) (90, 0) NACK "l2cache" "l1cache" 256 0 false false false [] 9.



(** A first-level cache whose only way down is the snoop bus. *)
Definition cfg_l1_bus : Config :=
  mkConfig "l1cache" 2 2 64 MODE_STANDARD [7] false true false "l2cache" 6 7 []
    plainInvalidation false true false.






(** * Properties *)

(** ** Basic facts *)

Lemma id_eqb_eq a b : id_eqb a b = true <-> a = b.
Proof.
  destruct a as [a1 a2], b as [b1 b2]; unfold id_eqb; simpl.
  rewrite andb_true_iff, !Z.eqb_eq. split.
  - intros [H1 H2]; subst; reflexivity.
  - intros H; injection H as H1 H2; subst; split; reflexivity.
Qed.

Lemma id_eqb_refl a : id_eqb a a = true.
Proof. apply id_eqb_eq; reflexivity. Qed.

Lemma id_eqb_neq a b : id_eqb a b = false <-> a <> b.
Proof.
  rewrite <- id_eqb_eq. destruct (id_eqb a b); split; congruence.
Qed.

Lemma bind_ret_l {A B} (a : A) (k : A -> M B) s : bind (ret a) k s = k a s.
Proof. reflexivity. Qed.

Lemma bind_assoc {A B C} (m : M A) (k : A -> M B) (h : B -> M C) s :
  bind (bind m k) h s = bind m (fun a => bind (k a) h) s.
Proof. unfold bind. destruct (m s) as [[a s']|e]; reflexivity. Qed.

Lemma bind_ok {A B} (m : M A) (k : A -> M B) s a s' :
  m s = Ok (a, s') -> bind m k s = k a s'.
Proof. intros H. unfold bind. rewrite H. reflexivity. Qed.

Lemma bind_err {A B} (m : M A) (k : A -> M B) s e :
  m s = Err e -> bind m k s = Err e.
Proof. intros H. unfold bind. rewrite H. reflexivity. Qed.



(** ** Directory targeting *)

Lemma wrap64_small x : is_u64 x -> wrap64 x = x.
Proof. intros H. unfold wrap64. apply Z.mod_small. exact H. Qed.

Lemma findTargetDirectory_in_spec dirs addr :
  is_u64 addr ->
  Forall dir_wf dirs ->
  findTargetDirectory_in dirs addr =
    match first_matching_directory dirs addr with
    | Some n => Ok n
    | None => Err Abort
    end.
Proof.
  intros Ha Hwf. unfold first_matching_directory.
  induction Hwf as [|di rest [Hs Hstep] _ IH]; simpl; [reflexivity|].
  unfold dir_matches.
  destruct ((rangeStart di <=? addr) && (addr <? rangeEnd di)) eqn:Hin; simpl;
    [|exact IH].
  destruct (interleaveSize di =? 0) eqn:Hz; simpl; [reflexivity|].
  apply Z.eqb_neq in Hz. specialize (Hstep Hz).
  apply Z.eqb_neq in Hstep. rewrite Hstep.
  apply andb_true_iff in Hin as [Hlo _]. apply Z.leb_le in Hlo.
  rewrite wrap64_small by (unfold is_u64 in *; lia).
  destruct ((addr - rangeStart di) mod interleaveStep di <? interleaveSize di);
    simpl; [reflexivity | exact IH].
Qed.

(** C4.  For every (64-bit) address, [findTargetDirectory] returns the name
    of the first snapshotted directory whose range [rangeStart, rangeEnd)
    contains the address and whose interleave test passes
    ([interleaveSize = 0], or [(addr - rangeStart) mod interleaveStep <
    interleaveSize]); entries failing the test are skipped, and when no
    entry matches the call aborts.  Interleaved entries are taken to have a
    non-zero step, so that the remainder is defined. *)
Theorem findTargetDirectory_first_match (cfg : Config) (addr : Z) (s : Cache) :
  is_u64 addr ->
  Forall dir_wf (directories cfg) ->
  findTargetDirectory cfg addr s =
    match List.find (dir_matches addr) (directories cfg) with
    | Some di => Ok (ci_name di, s)
    | None => Err Abort
    end.
Proof.
  intros Ha Hwf. unfold findTargetDirectory.
  rewrite (findTargetDirectory_in_spec _ _ Ha Hwf).
  unfold first_matching_directory.
  destruct (List.find (dir_matches addr) (directories cfg)); reflexivity.
Qed.

Lemma findTargetDirectory_first_match_witness :
  findTargetDirectory cfg_dirs 4200 st_init = Ok ("dir_all"%string, st_init) /\
  findTargetDirectory cfg_dirs 4100 st_init = Ok ("dir_even"%string, st_init) /\
  findTargetDirectory cfg_dirs 9000 st_init = Err Abort.
Proof.
  assert (Hwf : Forall dir_wf (directories cfg_dirs)).
  { repeat constructor; simpl; try lia; intros H; simpl in *; lia. }
  split; [|split].
  - rewrite (findTargetDirectory_first_match cfg_dirs 4200 st_init);
      [reflexivity | unfold is_u64; lia | exact Hwf].
  - rewrite (findTargetDirectory_first_match cfg_dirs 4100 st_init);
      [reflexivity | unfold is_u64; lia | exact Hwf].
  - rewrite (findTargetDirectory_first_match cfg_dirs 9000 st_init);
      [reflexivity | unfold is_u64; lia | exact Hwf].
Defined.

(** ** Blocks in the store *)

Lemma getBlock_ok b s blk : lookupBlock b s = Some blk -> getBlock b s = Ok (blk, s).
Proof. intros H. unfold getBlock. rewrite H. reflexivity. Qed.

Lemma lookupBlock_storeBlock b s blk x :
  lookupBlock b s = Some blk -> lookupBlock b (storeBlock b x s) = Some x.
Proof.
  unfold lookupBlock, storeBlock. destruct b as [r c]; simpl.
  destruct (database s !! r) as [row|] eqn:Hr; [|discriminate].
  intros Hc. simpl.
  rewrite list_lookup_insert_eq by (eapply lookup_lt_Some; eauto).
  simpl. apply list_lookup_insert_eq. eapply lookup_lt_Some; eauto.
Qed.

Lemma storeBlock_storeBlock b s blk x y :
  lookupBlock b s = Some blk -> storeBlock b y (storeBlock b x s) = storeBlock b y s.
Proof.
  unfold lookupBlock, storeBlock. destruct b as [r c]; simpl.
  destruct (database s !! r) as [row|] eqn:Hr; [|discriminate].
  intros Hc. simpl.
  rewrite list_lookup_insert_eq by (eapply lookup_lt_Some; eauto).
  simpl. unfold set_database; simpl.
  rewrite list_insert_insert_eq, list_insert_insert_eq. reflexivity.
Qed.

Lemma modifyBlock_ok b f s blk :
  lookupBlock b s = Some blk -> modifyBlock b f s = Ok (tt, storeBlock b (f blk) s).
Proof. intros H. unfold modifyBlock, bind. rewrite (getBlock_ok _ _ _ H). reflexivity. Qed.

Lemma getLoadInfo_ok p s l : loadInfos s !! p = Some l -> getLoadInfo p s = Ok (l, s).
Proof. intros H. unfold getLoadInfo. rewrite H. reflexivity. Qed.

(** ** Writeback *)

(** C8.  [writebackBlock] is idempotent while a writeback is in flight: on a
    block whose [wb_in_progress] flag is set, the call returns at once, with
    the whole state of the cache (lock counts, statuses, bus queue, sent
    events) unchanged. *)
Theorem writebackBlock_in_progress_noop (cfg : Config) (b : BlockRef)
    (newSt : BlockStatus) (s : Cache) (blk : CacheBlock) :
  lookupBlock b s = Some blk ->
  wb_in_progress blk = true ->
  writebackBlock cfg b newSt s = Ok (tt, s).
Proof.
  intros Hb Hwb. unfold writebackBlock, bind.
  rewrite (getBlock_ok _ _ _ Hb), Hwb. reflexivity.
Qed.

Lemma writebackBlock_in_progress_noop_witness :
  writebackBlock cfg_l1 (O, O) INVALID st_wb = Ok (tt, st_wb).
Proof.
  apply (writebackBlock_in_progress_noop cfg_l1 (O, O) INVALID st_wb wbBlock);
    reflexivity.
Defined.

(** ** The guard of finishLoadBlock *)

Lemma skipsLoad_spec li addr blk l s :
  loadInfos s !! li = Some l ->
  skipsLoad li addr blk s = Ok (negb (loadProceeds blk (loadDirection l) addr li), s).
Proof.
  intros Hl. unfold skipsLoad, loadProceeds, bind.
  destruct (bool_decide (status blk = DIRTY)) eqn:Hd.
  - rewrite (getLoadInfo_ok _ _ _ Hl). unfold ret.
    apply bool_decide_eq_true in Hd. rewrite Hd. simpl.
    destruct (bool_decide (loadDirection l = SEND_UP)), (baseAddr blk =? addr),
      (bool_decide (loadInfo blk = Some li)); reflexivity.
  - unfold ret. simpl.
    destruct (bool_decide (status blk = ASSIGNED)), (baseAddr blk =? addr),
      (bool_decide (loadInfo blk = Some li)); reflexivity.
Qed.

(** C1.  [finishLoadBlock] goes on to issue the fill request exactly under
    the intended rule: the block is Assigned, or it is Dirty and the load
    fetches upward, and the block still has the load's address and still
    points at this [LoadInfo].  In every other case it returns with the
    state of the cache unchanged, so nothing is sent and nothing is queued
    on the bus. *)
Theorem finishLoadBlock_intended_rule (cfg : Config) (li : LoadInfoPtr) (addr : Z)
    (b : BlockRef) (s : Cache) (blk : CacheBlock) (l : LoadInfo_t) :
  lookupBlock b s = Some blk ->
  loadInfos s !! li = Some l ->
  finishLoadBlock cfg li addr b s =
    (if loadProceeds blk (loadDirection l) addr li
     then issueLoadRequest cfg li blk s
     else Ok (tt, s))
  /\ (forall s', finishLoadBlock cfg li addr b s = Ok (tt, s') -> s' <> s ->
        (status blk = ASSIGNED \/ (status blk = DIRTY /\ loadDirection l = SEND_UP))
        /\ baseAddr blk = addr /\ loadInfo blk = Some li).
Proof.
  intros Hb Hl.
  assert (E : finishLoadBlock cfg li addr b s =
              if loadProceeds blk (loadDirection l) addr li
              then issueLoadRequest cfg li blk s else Ok (tt, s)).
  { unfold finishLoadBlock, bind.
    rewrite (getBlock_ok _ _ _ Hb), (skipsLoad_spec _ _ _ _ _ Hl).
    destruct (loadProceeds blk (loadDirection l) addr li); reflexivity. }
  split; [exact E|].
  intros s' Hrun Hne. rewrite E in Hrun.
  destruct (loadProceeds blk (loadDirection l) addr li) eqn:Hp.
  - unfold loadProceeds in Hp.
    apply andb_true_iff in Hp as [Hp Hli]. apply andb_true_iff in Hp as [Hst Ha].
    apply bool_decide_eq_true in Hli. apply Z.eqb_eq in Ha.
    split; [|split; assumption].
    apply orb_true_iff in Hst as [Hst|Hst].
    + left. apply bool_decide_eq_true in Hst. exact Hst.
    + right. apply andb_true_iff in Hst as [H1 H2].
      apply bool_decide_eq_true in H1. apply bool_decide_eq_true in H2. split; assumption.
  - exfalso. apply Hne. congruence.
Qed.

Lemma finishLoadBlock_intended_rule_witness :
  finishLoadBlock cfg_l1 1%positive 256 (O, O) st_loading =
    issueLoadRequest cfg_l1 1%positive assignedBlock st_loading
  /\ finishLoadBlock cfg_l1 1%positive 320 (O, O) st_loading = Ok (tt, st_loading).
Proof.
  split.
  - exact (proj1 (finishLoadBlock_intended_rule cfg_l1 1%positive 256 (O, O)
                    st_loading assignedBlock load256 eq_refl eq_refl)).
  - exact (proj1 (finishLoadBlock_intended_rule cfg_l1 1%positive 320 (O, O)
                    st_loading assignedBlock load256 eq_refl eq_refl)).
Defined.

(** ** Responses to the CPU *)

Lemma makeResponse_ok (cfg : Config) ev s :
  makeResponse cfg ev s =
    Ok (mkEvent (nextEventId s, 0) (getID ev) (commandResponse (getCmd ev)) (getName cfg)
          (getSrc ev) (getAddr ev) (getSize ev) false false false [] (-1),
        set_nextEventId (nextEventId s + 1) s).
Proof. reflexivity. Qed.

(** C5.  For a request at or above the base address of the block it hits
    (64-bit address, unsigned size, block data of [blocksize] bytes),
    [makeCPUResponse] aborts exactly when the offset within the block plus
    the size exceeds the block size; otherwise, for a ReadReq, the response
    carries the sub-range of the block's data that starts at
    [addr - baseAddr] and has [size] bytes. *)
Theorem makeCPUResponse_split_or_subrange (cfg : Config) (ev : MemEvent) (b : BlockRef)
    (src : SourceType_t) (s : Cache) (blk : CacheBlock) :
  lookupBlock b s = Some blk ->
  0 <= baseAddr blk <= getAddr ev ->
  0 <= getSize ev ->
  getAddr ev - baseAddr blk + getSize ev < 2 ^ 64 ->
  Z.of_nat (length (data blk)) = blocksize cfg ->
  (makeCPUResponse cfg ev b src s = Err Abort <->
   blocksize cfg < getAddr ev - baseAddr blk + getSize ev)
  /\ (getAddr ev - baseAddr blk + getSize ev <= blocksize cfg ->
      getCmd ev = ReadReq ->
      exists resp s',
        makeCPUResponse cfg ev b src s = Ok (resp, s')
        /\ getPayload resp =
             take (Z.to_nat (getSize ev))
               (drop (Z.to_nat (getAddr ev - baseAddr blk)) (data blk))
        /\ Z.of_nat (length (getPayload resp)) = getSize ev
        /\ getResponseToID resp = getID ev).
Proof.
  intros Hb Hbase Hsz Hsum Hlen.
  assert (Hoff : wrap64 (getAddr ev - baseAddr blk) = getAddr ev - baseAddr blk).
  { apply wrap64_small. unfold is_u64. lia. }
  assert (Hend : wrap64 (getAddr ev - baseAddr blk + getSize ev)
                 = getAddr ev - baseAddr blk + getSize ev).
  { apply wrap64_small. unfold is_u64. lia. }
  unfold makeCPUResponse, bind.
  rewrite (getBlock_ok _ _ _ Hb), Hoff, Hend.
  destruct (blocksize cfg <? getAddr ev - baseAddr blk + getSize ev) eqn:Hcmp.
  - apply Z.ltb_lt in Hcmp. split.
    + split; [intros _; exact Hcmp | intros _; reflexivity].
    + intros Hle. lia.
  - apply Z.ltb_ge in Hcmp.
    assert (Hfit : (Z.to_nat (getAddr ev - baseAddr blk) + Z.to_nat (getSize ev)
                    <=? length (data blk))%nat = true).
    { apply Nat.leb_le. lia. }
    rewrite makeResponse_ok, Hfit. split.
    + split; [|lia].
      destruct (bool_decide (getCmd ev = ReadReq)); unfold ret; discriminate.
    + intros _ Hcmd. rewrite Hcmd. simpl.
      eexists _, _. split; [reflexivity|]. simpl. split; [reflexivity|].
      split; [|reflexivity].
      rewrite length_take, length_drop. lia.
Qed.

Lemma makeCPUResponse_split_or_subrange_witness :
  (exists resp s', makeCPUResponse cfg_l1 readHit (O, O) UPSTREAM st_shared = Ok (resp, s')
                   /\ getPayload resp = [8; 9; 10; 11])
  /\ makeCPUResponse cfg_l1 readSplit (O, O) UPSTREAM st_shared = Err Abort.
Proof.
  split.
  - destruct (proj2 (makeCPUResponse_split_or_subrange cfg_l1 readHit (O, O) UPSTREAM
                       st_shared sharedBlock eq_refl
                       ltac:(simpl; lia) ltac:(simpl; lia) ltac:(simpl; lia) eq_refl)
                ltac:(simpl; lia) eq_refl)
      as (resp & s' & Hrun & Hpay & _).
    exists resp, s'. split; [exact Hrun | exact Hpay].
  - apply (proj1 (makeCPUResponse_split_or_subrange cfg_l1 readSplit (O, O) UPSTREAM
                    st_shared sharedBlock eq_refl
                    ltac:(simpl; lia) ltac:(simpl; lia) ltac:(simpl; lia) eq_refl)).
    simpl. lia.
Defined.

(** ** Lookup reads the block array only *)

Lemma findBlock_frame (cfg : Config) addr emptyOK s s' r :
  findBlock cfg addr emptyOK s = Ok (r, s) ->
  database s' = database s ->
  findBlock cfg addr emptyOK s' = Ok (r, s').
Proof.
  unfold findBlock, findRow, getRow, bind, ASSERT, ret, fail. intros H Hdb.
  destruct (Z.land (Z.shiftr addr (rowshift cfg)) (rowmask cfg) <? n_rows cfg);
    [|discriminate].
  cbv beta iota in *. rewrite Hdb.
  destruct (database s !! Z.to_nat (Z.land (Z.shiftr addr (rowshift cfg)) (rowmask cfg)))
    as [row|] eqn:Hrow; [|discriminate].
  cbv beta iota in *. rewrite ?Hdb, Hrow in *. cbv beta iota in *.
  destruct (find_index _ (take (n_ways cfg) (blocks row))) as [i|].
  - injection H as <-. reflexivity.
  - destruct emptyOK; injection H as <-; reflexivity.
Qed.

Lemma lookupBlock_frame b s s' :
  database s' = database s -> lookupBlock b s' = lookupBlock b s.
Proof. intros H. unfold lookupBlock. rewrite H. reflexivity. Qed.

Lemma getBlock_frame b s s' blk :
  lookupBlock b s = Some blk -> database s' = database s -> getBlock b s' = Ok (blk, s').
Proof.
  intros Hb Hdb. apply getBlock_ok. rewrite (lookupBlock_frame b s s' Hdb). exact Hb.
Qed.

(** ** Locked writes *)

(** C10.  A WriteReq carrying the atomic-lock flag is checked against
    [block->status == EXCLUSIVE] before the hit and miss paths: when the
    lookup misses, the check dereferences the null block and the miss path
    ([loadBlock]) is never reached; when it hits a block that is not
    Exclusive, the assertion fails; when it hits an Exclusive block, the
    assertion holds and leaves the state as it is. *)
Theorem handleCPURequest_locked_write (cfg : Config)
    (dispatch : MemEvent -> SourceType_t -> bool -> bool -> M unit)
    (ev : MemEvent) (firstProcess : bool) (s : Cache) :
  getCmd ev = WriteReq ->
  queryFlag ev F_LOCKED = true ->
  (findBlock cfg (getAddr ev) false s = Ok (None, s) ->
     handleCPURequest cfg dispatch ev firstProcess s = Err NullDeref)
  /\ (forall b blk,
        findBlock cfg (getAddr ev) false s = Ok (Some b, s) ->
        lookupBlock b s = Some blk ->
        (status blk <> EXCLUSIVE ->
           handleCPURequest cfg dispatch ev firstProcess s = Err AssertFailed)
        /\ (status blk = EXCLUSIVE ->
              checkLockedWrite ev false (Some b) s = Ok (tt, s))).
Proof.
  intros Hcmd Hlocked. split.
  - intros Hfind.
    unfold handleCPURequest, bind, modify, ASSERT. rewrite Hcmd. simpl.
    rewrite (findBlock_frame cfg _ _ s (set_isL1 true s) None Hfind eq_refl).
    unfold checkLockedWrite. rewrite Hlocked.
    destruct firstProcess; reflexivity.
  - intros b blk Hfind Hb. split.
    + intros Hst.
      unfold handleCPURequest, bind, modify, ASSERT. rewrite Hcmd. simpl.
      rewrite (findBlock_frame cfg _ _ s (set_isL1 true s) (Some b) Hfind eq_refl).
      unfold checkLockedWrite, bind, ASSERT. rewrite Hlocked.
      destruct firstProcess; simpl.
      * rewrite (getBlock_frame b s _ blk Hb) by reflexivity.
        rewrite bool_decide_eq_false_2 by exact Hst. reflexivity.
      * rewrite (getBlock_frame b s _ blk Hb) by reflexivity.
        rewrite bool_decide_eq_false_2 by exact Hst. reflexivity.
    + intros Hst. unfold checkLockedWrite, bind, ASSERT. rewrite Hlocked. simpl.
      rewrite (getBlock_ok _ _ _ Hb).
      rewrite bool_decide_eq_true_2 by exact Hst. reflexivity.
Qed.

Lemma handleCPURequest_locked_write_witness :
  handleCPURequest cfg_l1 (handleIncomingEvent cfg_l1 3) lockedWriteMiss true st_exclusive
    = Err NullDeref
  /\ handleCPURequest cfg_l1 (handleIncomingEvent cfg_l1 3) lockedWriteHit true st_shared
    = Err AssertFailed
  /\ checkLockedWrite lockedWriteHit false (Some (O, O)) st_exclusive = Ok (tt, st_exclusive).
Proof.
  split; [|split].
  - apply (proj1 (handleCPURequest_locked_write cfg_l1 (handleIncomingEvent cfg_l1 3)
                    lockedWriteMiss true st_exclusive eq_refl eq_refl)).
    reflexivity.
  - apply (proj1 (proj2 (handleCPURequest_locked_write cfg_l1 (handleIncomingEvent cfg_l1 3)
                    lockedWriteHit true st_shared eq_refl eq_refl)
                    (O, O) sharedBlock eq_refl eq_refl)).
    discriminate.
  - apply (proj2 (proj2 (handleCPURequest_locked_write cfg_l1 (handleIncomingEvent cfg_l1 3)
                    lockedWriteHit true st_exclusive eq_refl eq_refl)
                    (O, O) exclusiveBlock eq_refl eq_refl)).
    reflexivity.
Defined.

(** A locked write that hits an Exclusive block runs to completion: the
    payload is merged, the response is scheduled and the user lock is
    released. *)
Example locked_write_on_exclusive_completes :
  exists s resp,
    handleCPURequest cfg_l1 (handleIncomingEvent cfg_l1 3) lockedWriteHit true st_exclusive
      = Ok (tt, s)
    /\ sent s = [NotifyAccess false true 260; SendSelf 1 (SendCPUResponse resp (O, O) UPSTREAM)]
    /\ option_map user_locked (lookupBlock (O, O) s) = Some 0
    /\ option_map (fun blk => take 6 (data blk)) (lookupBlock (O, O) s)
         = Some [0; 1; 2; 3; 200; 201].
Proof. eexists _, _. vm_compute. repeat split. Qed.

(** ** Running handlers symbolically *)

Lemma storeBlock_invalidations b x s : invalidations (storeBlock b x s) = invalidations s.
Proof. unfold storeBlock. destruct (database s !! b.1); reflexivity. Qed.

Lemma storeBlock_sent b x s : sent (storeBlock b x s) = sent s.
Proof. unfold storeBlock. destruct (database s !! b.1); reflexivity. Qed.

Lemma storeBlock_snoopBusQueue b x s : snoopBusQueue (storeBlock b x s) = snoopBusQueue s.
Proof. unfold storeBlock. destruct (database s !! b.1); reflexivity. Qed.

Lemma storeBlock_supplyInProgress b x s :
  supplyInProgress (storeBlock b x s) = supplyInProgress s.
Proof. unfold storeBlock. destruct (database s !! b.1); reflexivity. Qed.

Lemma storeBlock_loadInfos b x s : loadInfos (storeBlock b x s) = loadInfos s.
Proof. unfold storeBlock. destruct (database s !! b.1); reflexivity. Qed.

Lemma storeBlock_waitingLoads b x s : waitingLoads (storeBlock b x s) = waitingLoads s.
Proof. unfold storeBlock. destruct (database s !! b.1); reflexivity. Qed.

Lemma storeBlock_set_invalidations b x m s :
  storeBlock b x (set_invalidations m s) = set_invalidations m (storeBlock b x s).
Proof. unfold storeBlock. simpl. destruct (database s !! b.1); reflexivity. Qed.

(** ** Acknowledgements *)

(** A read that hits a block with an invalidation record on its address is
    put on the record's queue; no response is scheduled. *)
Lemma read_hit_queues_behind_invalidation (cfg : Config)
    (d : MemEvent -> SourceType_t -> bool -> bool -> M unit) ev2 fp s b blk inv :
  getCmd ev2 = ReadReq ->
  findBlock cfg (getAddr ev2) false s = Ok (Some b, s) ->
  lookupBlock b s = Some blk ->
  invalidations s !! baseAddr blk = Some inv ->
  exists s'',
    handleCPURequest cfg d ev2 fp s = Ok (tt, s'')
    /\ invalidations s'' !! baseAddr blk
         = Some (set_inv_waitingEvents (inv_waitingEvents inv ++ [(ev2, UPSTREAM)]) inv)
    /\ sent s'' = sent s ++ (if fp then [NotifyAccess true true (getAddr ev2)] else []).
Proof.
  intros Hcmd Hfind Hb Hinv.
  unfold handleCPURequest, checkLockedWrite. rewrite Hcmd.
  decide_consts. cbn [orb negb andb]. mrun.
  rewrite (findBlock_frame cfg _ _ s (set_isL1 true s) _ Hfind eq_refl).
  rewrite andb_false_r.
  destruct fp; mrun;
    rewrite (getBlock_frame b s _ blk Hb) by reflexivity;
    unfold waitingForInvalidate; mrun; cbn [invalidations set_stats set_sent set_isL1];
    rewrite Hinv;
    unfold queueOnInvalidation, modifyInvAt, modifyInvalidationAt, invalidationAt; mrun;
    cbn [invalidations set_stats set_sent set_isL1]; rewrite Hinv;
    unfold touch, modifyBlock; mrun;
    rewrite (getBlock_frame b s _ blk Hb) by reflexivity;
    (eexists; split; [reflexivity|]; split;
     [ rewrite storeBlock_invalidations; cbn [invalidations set_invalidations];
       apply lookup_insert_eq
     | rewrite storeBlock_sent; cbn [sent set_invalidations set_stats set_sent set_isL1];
       rewrite ?app_nil_r; reflexivity ]).
Qed.

(** C9.  An ACK for an address without invalidation record, matching
    neither the issuing event of a default-constructed record nor this
    cache's name, is "ignored" — yet the lookup through [operator[]] has
    inserted a default-constructed record: the table is changed,
    [waitingForInvalidate] now answers true for the address, and a later
    read that hits the block of that address is queued behind the phantom
    record instead of being answered. *)
Theorem ackInvalidate_leaves_phantom_record (cfg : Config)
    (d : MemEvent -> SourceType_t -> bool -> bool -> M unit) (ev : MemEvent) (s : Cache) :
  invalidations s !! getAddr ev = None ->
  getResponseToID ev <> issuingEvent (defaultInvalidation cfg) ->
  getSrc ev <> getName cfg ->
  exists s',
    ackInvalidate cfg d ev s = Ok (tt, s')
    /\ invalidations s' = <[getAddr ev := defaultInvalidation cfg]> (invalidations s)
    /\ invalidations s' <> invalidations s
    /\ waitingForInvalidate (getAddr ev) s' = Ok (true, s')
    /\ (forall ev2 fp b blk,
          getCmd ev2 = ReadReq ->
          findBlock cfg (getAddr ev2) false s = Ok (Some b, s) ->
          lookupBlock b s = Some blk ->
          baseAddr blk = getAddr ev ->
          exists s'',
            handleCPURequest cfg d ev2 fp s' = Ok (tt, s'')
            /\ invalidations s'' !! getAddr ev
                 = Some (set_inv_waitingEvents
                           (inv_waitingEvents (defaultInvalidation cfg) ++ [(ev2, UPSTREAM)])
                           (defaultInvalidation cfg))
            /\ sent s'' = sent s ++ (if fp then [NotifyAccess true true (getAddr ev2)] else [])).
Proof.
  intros Hnone Hid Hsrc.
  exists (set_invalidations (<[getAddr ev := defaultInvalidation cfg]> (invalidations s)) s).
  split; [|split; [|split; [|split]]].
  - unfold ackInvalidate, invAt, invalidationAt, bind. rewrite Hnone.
    apply id_eqb_neq in Hid. apply String.eqb_neq in Hsrc. rewrite Hid, Hsrc. reflexivity.
  - reflexivity.
  - cbn [invalidations set_invalidations]. intros Heq.
    assert (H : (<[getAddr ev := defaultInvalidation cfg]> (invalidations s)) !! getAddr ev
                = invalidations s !! getAddr ev) by (rewrite Heq; reflexivity).
    rewrite lookup_insert_eq, Hnone in H. discriminate.
  - unfold waitingForInvalidate. mrun. cbn [invalidations set_invalidations].
    rewrite lookup_insert_eq. reflexivity.
  - intros ev2 fp b blk Hcmd Hfind Hb Hbase.
    rewrite <- Hbase.
    pose (s' := set_invalidations
                  (<[baseAddr blk := defaultInvalidation cfg]> (invalidations s)) s).
    destruct (read_hit_queues_behind_invalidation cfg d ev2 fp s' b blk
                (defaultInvalidation cfg) Hcmd
                (findBlock_frame cfg _ _ s s' _ Hfind eq_refl)
                (eq_trans (lookupBlock_frame b s s' eq_refl) Hb)
                (lookup_insert_eq _ _ _))
      as (s'' & Hrun & Hq & Hsent).
    exists s''. split; [exact Hrun | split; [exact Hq | exact Hsent]].
Qed.

Lemma ackInvalidate_leaves_phantom_record_witness :
  exists s',
    ackInvalidate cfg_l1 (handleIncomingEvent cfg_l1 3) strayAck st_shared = Ok (tt, s')
    /\ waitingForInvalidate 256 s' = Ok (true, s')
    /\ exists s'',
         handleCPURequest cfg_l1 (handleIncomingEvent cfg_l1 3) readHit true s' = Ok (tt, s'')
         /\ sent s'' = [NotifyAccess true true 264].
Proof.
  destruct (ackInvalidate_leaves_phantom_record cfg_l1 (handleIncomingEvent cfg_l1 3)
              strayAck st_shared eq_refl ltac:(discriminate) ltac:(discriminate))
    as (s' & Hrun & _ & _ & Hwait & Hlater).
  exists s'. split; [exact Hrun | split; [exact Hwait |]].
  destruct (Hlater readHit true (O, O) sharedBlock eq_refl eq_refl eq_refl eq_refl)
    as (s'' & Hrun2 & _ & Hsent).
  exists s''. split; [exact Hrun2 | exact Hsent].
Defined.

(** ** Collecting ACKs *)

Lemma replayWaiting_later
    (d : MemEvent -> SourceType_t -> bool -> bool -> M unit) q s :
  replayWaiting d q false s = forM_ q (fun e => d (fst e) (snd e) false false) s.
Proof.
  revert s. induction q as [|e rest IH]; intros s; simpl; [reflexivity|].
  unfold bind. destruct (d e.1 e.2 false false s) as [[[] s']|err]; [apply IH | reflexivity].
Qed.

Lemma replayWaiting_in_order
    (d : MemEvent -> SourceType_t -> bool -> bool -> M unit) q s :
  replayWaiting d q true s = replayInOrder d q s.
Proof.
  destruct q as [|e rest]; simpl; [reflexivity|].
  unfold bind. destruct (d e.1 e.2 false true s) as [[[] s']|err];
    [apply replayWaiting_later | reflexivity].
Qed.
Lemma finishIssueInvalidate_run (cfg : Config)
    (d : MemEvent -> SourceType_t -> bool -> bool -> M unit) addr s inv :
  invalidations s !! addr = Some inv ->
  waitingACKs inv = 0 ->
  (forall b blk, inv_block inv = Some b -> lookupBlock b s = Some blk ->
     finishIssueInvalidate cfg d addr s =
       replayInOrder d (inv_waitingEvents inv)
         (set_invalidations (delete addr (invalidations s))
            (storeBlock b (set_status (newStatus inv) (unlock blk)) s)))
  /\ (inv_block inv = None ->
      finishIssueInvalidate cfg d addr s =
        replayInOrder d (inv_waitingEvents inv)
          (set_invalidations (delete addr (invalidations s)) s)).
Proof.
  intros Hinv Hzero. split.
  - intros b blk Hblock Hb.
    unfold finishIssueInvalidate, invAt, invalidationAt, eraseInvalidation. mrun.
    rewrite Hinv, Hzero. cbn [Z.eqb]. rewrite Hinv, Hblock.
    rewrite (modifyBlock_ok _ _ _ _ Hb).
    rewrite storeBlock_invalidations, Hinv.
    rewrite (modifyBlock_ok b _ _ (unlock blk)) by (eapply lookupBlock_storeBlock; exact Hb).
    rewrite (storeBlock_storeBlock _ _ _ _ _ Hb).
    rewrite storeBlock_invalidations, Hinv.
    rewrite replayWaiting_in_order. rewrite storeBlock_invalidations. reflexivity.
  - intros Hblock.
    unfold finishIssueInvalidate, invAt, invalidationAt, eraseInvalidation. mrun.
    rewrite Hinv, Hzero. cbn [Z.eqb]. rewrite Hinv, Hblock. rewrite Hinv.
    rewrite replayWaiting_in_order. reflexivity.
Qed.

(** C2.  For an outstanding invalidation record (at least one ACK awaited),
    an ACK on the record's address whose [response_to] is the record's
    issuing event, or whose source is this cache's own name, decrements
    [waitingACKs] by one and changes nothing else while ACKs remain.  When
    the count reaches zero, the target block (if any) is unlocked and takes
    the recorded new status, the record is erased, and the queued events are
    replayed through the dispatcher in FIFO order, all as re-processing and
    only the first with [firstPhaseComplete = true]. *)
Theorem ackInvalidate_counts_and_finishes (cfg : Config)
    (d : MemEvent -> SourceType_t -> bool -> bool -> M unit)
    (ev : MemEvent) (s : Cache) (inv : Invalidation) :
  invalidations s !! getAddr ev = Some inv ->
  getResponseToID ev = issuingEvent inv \/ getSrc ev = getName cfg ->
  1 <= waitingACKs inv ->
  (1 < waitingACKs inv ->
     ackInvalidate cfg d ev s =
       Ok (tt, set_invalidations
                 (<[getAddr ev := set_waitingACKs (waitingACKs inv - 1) inv]>
                    (invalidations s)) s))
  /\ (waitingACKs inv = 1 ->
      (forall b blk, inv_block inv = Some b -> lookupBlock b s = Some blk ->
         ackInvalidate cfg d ev s =
           replayInOrder d (inv_waitingEvents inv)
             (set_invalidations (delete (getAddr ev) (invalidations s))
                (storeBlock b (set_status (newStatus inv) (unlock blk)) s)))
      /\ (inv_block inv = None ->
          ackInvalidate cfg d ev s =
            replayInOrder d (inv_waitingEvents inv)
              (set_invalidations (delete (getAddr ev) (invalidations s)) s))).
Proof.
  intros Hinv Hmatch Hpos.
  assert (Hm : id_eqb (getResponseToID ev) (issuingEvent inv)
               || String.eqb (getSrc ev) (getName cfg) = true).
  { destruct Hmatch as [H|H].
    - apply id_eqb_eq in H. rewrite H. reflexivity.
    - apply String.eqb_eq in H. rewrite H. apply orb_true_r. }
  assert (E : ackInvalidate cfg d ev s =
              if waitingACKs inv - 1 =? 0
              then finishIssueInvalidate cfg d (getAddr ev)
                     (set_invalidations
                        (<[getAddr ev := set_waitingACKs (waitingACKs inv - 1) inv]>
                           (invalidations s)) s)
              else Ok (tt, set_invalidations
                             (<[getAddr ev := set_waitingACKs (waitingACKs inv - 1) inv]>
                                (invalidations s)) s)).
  { unfold ackInvalidate, invAt, modifyInvAt, modifyInvalidationAt, invalidationAt. mrun.
    rewrite Hinv, Hm. cbn [invalidations set_invalidations]. rewrite Hinv.
    cbn [invalidations set_invalidations]. rewrite !lookup_insert_eq.
    cbn [waitingACKs set_waitingACKs].
    assert (Hge : (0 <=? waitingACKs inv - 1) = true) by (apply Z.leb_le; lia).
    rewrite Hge. destruct (waitingACKs inv - 1 =? 0); reflexivity. }
  rewrite E. clear E. split.
  - intros Hmore.
    assert (Hnz : (waitingACKs inv - 1 =? 0) = false) by (apply Z.eqb_neq; lia).
    rewrite Hnz. reflexivity.
  - intros Hone. rewrite Hone. change (1 - 1) with 0. cbn [Z.eqb].
    set (s1 := set_invalidations (<[getAddr ev := set_waitingACKs 0 inv]> (invalidations s)) s).
    destruct (finishIssueInvalidate_run cfg d (getAddr ev) s1 (set_waitingACKs 0 inv)
                (lookup_insert_eq _ _ _) eq_refl) as [Hblk Hnone].
    split.
    + intros b blk Hblock Hb.
      rewrite (Hblk b blk Hblock (eq_trans (lookupBlock_frame b s s1 eq_refl) Hb)).
      unfold s1. cbn [invalidations set_invalidations inv_waitingEvents newStatus
                      set_waitingACKs].
      rewrite delete_insert_eq, storeBlock_set_invalidations. reflexivity.
    + intros Hblock. rewrite (Hnone Hblock).
      unfold s1. cbn [invalidations set_invalidations inv_waitingEvents set_waitingACKs].
      rewrite delete_insert_eq. reflexivity.
Qed.

Lemma ackInvalidate_counts_and_finishes_witness :
  ackInvalidate cfg_l1 (handleIncomingEvent cfg_l1 4) upgradeAck (st_upgrading 2)
    = Ok (tt, set_invalidations {[ 256 := upgradeRecord 1 ]} (st_upgrading 2))
  /\ ackInvalidate cfg_l1 (handleIncomingEvent cfg_l1 4) upgradeAck (st_upgrading 1)
    = replayInOrder (handleIncomingEvent cfg_l1 4) [(upgradeWrite, UPSTREAM); (readHit, UPSTREAM)]
        (set_invalidations ∅
           (storeBlock (O, O) (set_status EXCLUSIVE (unlock lockedShared)) (st_upgrading 1))).
Proof.
  split.
  - exact (proj1 (ackInvalidate_counts_and_finishes cfg_l1 (handleIncomingEvent cfg_l1 4)
                    upgradeAck (st_upgrading 2) (upgradeRecord 2)
                    eq_refl (or_introl eq_refl) ltac:(simpl; lia))
                 ltac:(simpl; lia)).
  - exact (proj1 (proj2 (ackInvalidate_counts_and_finishes cfg_l1 (handleIncomingEvent cfg_l1 4)
                    upgradeAck (st_upgrading 1) (upgradeRecord 1)
                    eq_refl (or_introl eq_refl) ltac:(simpl; lia)) eq_refl)
                 (O, O) lockedShared eq_refl eq_refl).
Defined.

(** The last ACK of an upgrade, run through the real dispatcher: the block
    becomes Exclusive and is unlocked, the record is gone, the queued write
    is applied first and answered, then the queued read is answered. *)
Example last_ack_completes_upgrade :
  exists s r1 r2,
    ackInvalidate cfg_l1 (handleIncomingEvent cfg_l1 4) upgradeAck (st_upgrading 1)
      = Ok (tt, s)
    /\ invalidations s = ∅
    /\ option_map (fun blk => (status blk, locked blk, take 6 (data blk)))
         (lookupBlock (O, O) s) = Some (EXCLUSIVE, 0, [0; 1; 2; 3; 200; 201])
    /\ sent s = [SendSelf 1 (SendCPUResponse r1 (O, O) UPSTREAM);
                 SendSelf 1 (SendCPUResponse r2 (O, O) UPSTREAM)]
    /\ getResponseToID r1 = getID upgradeWrite
    /\ getResponseToID r2 = getID readHit.
Proof. eexists _, _, _. vm_compute. repeat split. Qed.

(** ** Supplying a user-locked block *)

Lemma storeBlock_nextEventId b x s : nextEventId (storeBlock b x s) = nextEventId s.
Proof. unfold storeBlock. destruct (database s !! b.1); reflexivity. Qed.

Lemma storeBlock_upstreamLinkMap b x s : upstreamLinkMap (storeBlock b x s) = upstreamLinkMap s.
Proof. unfold storeBlock. destruct (database s !! b.1); reflexivity. Qed.

Lemma modifyBlock_frame b f s s' blk :
  lookupBlock b s = Some blk -> database s' = database s ->
  modifyBlock b f s' = Ok (tt, storeBlock b (f blk) s').
Proof.
  intros Hb Hdb. apply modifyBlock_ok. rewrite (lookupBlock_frame b s s' Hdb). exact Hb.
Qed.

Lemma lookupBlock_storeBlock_frame b s0 s blk x :
  lookupBlock b s0 = Some blk -> database s = database s0 ->
  lookupBlock b (storeBlock b x s) = Some x.
Proof.
  intros Hb Hdb. apply (lookupBlock_storeBlock b s blk).
  rewrite (lookupBlock_frame b s0 s Hdb). exact Hb.
Qed.

Lemma newMemEvent_ok (cfg : Config) addr cmd s :
  newMemEvent cfg addr cmd s =
    Ok (mkEvent (nextEventId s, 0) NO_ID cmd (getName cfg) BROADCAST_TARGET
          addr 0 false false false [] (-1),
        set_nextEventId (nextEventId s + 1) s).
Proof. reflexivity. Qed.

Ltac frame_simpl :=
  repeat first
    [ rewrite storeBlock_sent | rewrite storeBlock_nextEventId
    | rewrite storeBlock_snoopBusQueue | rewrite storeBlock_supplyInProgress
    | rewrite storeBlock_upstreamLinkMap | rewrite storeBlock_invalidations
    | rewrite storeBlock_loadInfos | rewrite storeBlock_waitingLoads
    | progress cbn [sent snoopBusQueue nextEventId supplyInProgress upstreamLinkMap
                    invalidations loadInfos waitingLoads database
                    set_sent set_snoopBusQueue set_nextEventId set_supplyInProgress
                    set_upstreamLinkMap set_invalidations set_loadInfos
                    set_waitingLoads set_stats set_isL1] ].

(** The prefix of [supplyData] common to all requesters of a user-locked
    block: the protocol lock is released, the response is built and the
    writeback is noted as pending. *)
Lemma supplyData_user_locked_prefix (cfg : Config) ev b src s blk si :
  lookupBlock b s = Some blk ->
  supplyInProgress s !! (baseAddr blk, src) = Some si ->
  canceled si = false ->
  user_locked blk <> 0 ->
  exists s2,
    lookupBlock b s2 = Some (set_user_lock_needs_wb true (unlock blk))
    /\ sent s2 = sent s /\ snoopBusQueue s2 = snoopBusQueue s
    /\ upstreamLinkMap s2 = upstreamLinkMap s
    /\ supplyData cfg ev b src s =
         match src with
         | DOWNSTREAM =>
             (sendDownstream cfg (delayedResponse cfg s blk) ;;;
              eraseSupply (baseAddr blk, src)) s2
         | SNOOP =>
             (modify (fun st => set_supplyInProgress
                        (<[(baseAddr blk, src) :=
                             mkSupplyInfo (Some (delayedResponse cfg s blk)) false]>
                           (supplyInProgress st)) st) ;;;
              busRequest (delayedResponse cfg s blk)
                (mkBusHandlers (Some (PrepBusSupplyData b))
                   (Some (FinishBusSupplyData b src true)))) s2
         | DIRECTORY =>
             (sendDirectory cfg (delayedResponse cfg s blk) ;;;
              eraseSupply (baseAddr blk, src) ;;;
              fail AssertFailed) s2
         | UPSTREAM =>
             (let* i := upstreamIndexOf (getLinkId ev) in
              sendUpstream cfg i (delayedResponse cfg s blk) ;;;
              eraseSupply (baseAddr blk, src)) s2
         | SELF | PREFETCHER => Ok (tt, s2)
         end.
Proof.
  intros Hb Hsi Hc Hul.
  assert (Hul' : (user_locked (unlock blk) =? 0) = false) by (apply Z.eqb_neq; exact Hul).
  pose proof (lookupBlock_storeBlock b s blk (unlock blk) Hb) as Hb1.
  exists (storeBlock b (set_user_lock_needs_wb true (unlock blk))
            (set_nextEventId (nextEventId s + 1) (storeBlock b (unlock blk) s))).
  split; [|split; [|split; [|split]]].
  - apply (lookupBlock_storeBlock_frame b _ _ _ _ Hb1). reflexivity.
  - frame_simpl. reflexivity.
  - frame_simpl. reflexivity.
  - frame_simpl. reflexivity.
  - unfold supplyData. mrun. rewrite (getBlock_ok _ _ _ Hb), Hsi.
    rewrite (modifyBlock_ok _ _ _ _ Hb), Hc.
    rewrite (getBlock_ok _ _ _ Hb1), newMemEvent_ok, Hul'. cbn [negb].
    rewrite (modifyBlock_frame b _ _ _ _ Hb1) by reflexivity.
    rewrite storeBlock_nextEventId.
    change (baseAddr (unlock blk)) with (baseAddr blk).
    fold (delayedResponse cfg s blk).
    destruct src; cbn [queryFlag delayedResponse setSize setFlag flag_delayed negb];
      try reflexivity; try (rewrite Hc; reflexivity).
Qed.

(** C7 (as stated) does not hold for every source: a supply scheduled for
    the prefetcher on a user-locked block emits no response at all. *)
Lemma locked_supply_to_prefetcher_is_silent : ~ every_locked_supply_answers.
Proof.
  intros H.
  destruct (H cfg_mid prefetchRequest (O, O) PREFETCHER st_supplying userLockedBlock
              (mkSupplyInfo None false) eq_refl eq_refl eq_refl ltac:(discriminate))
    as (s' & resp & Hrun & Hin & _).
  vm_compute in Hrun. injection Hrun as <-.
  vm_compute in Hin. exact Hin.
Qed.

(** C7 (amended).  When a scheduled supply fires on a block whose
    [user_locked] count is non-zero and the supply was not canceled,
    [supplyData] releases the protocol lock, sets [user_lock_needs_wb] and
    builds a response with the Delayed flag and no payload.  The response is
    sent on the downstream link or on the requesting upstream link, or
    queued as a snoop-bus request, according to the source of the request;
    for a Directory source the handler stops on its assertion that the
    response is not Delayed; for a Self or Prefetcher source nothing is
    emitted. *)
Theorem supplyData_user_locked_by_source (cfg : Config) (ev : MemEvent) (b : BlockRef)
    (src : SourceType_t) (s : Cache) (blk : CacheBlock) (si : SupplyInfo) :
  lookupBlock b s = Some blk ->
  supplyInProgress s !! (baseAddr blk, src) = Some si ->
  canceled si = false ->
  user_locked blk <> 0 ->
  let resp := delayedResponse cfg s blk in
  let blk' := set_user_lock_needs_wb true (unlock blk) in
  queryFlag resp F_DELAYED = true /\ getPayload resp = [] /\
  match src with
  | DOWNSTREAM =>
      downstream_link cfg = true ->
      exists s', supplyData cfg ev b src s = Ok (tt, s')
                 /\ lookupBlock b s' = Some blk'
                 /\ sent s' = sent s ++ [SendDownstream resp]
                 /\ snoopBusQueue s' = snoopBusQueue s
  | UPSTREAM =>
      forall i, upstreamLinkMap s !! getLinkId ev = Some i -> (i < n_upstream cfg)%nat ->
      exists s', supplyData cfg ev b src s = Ok (tt, s')
                 /\ lookupBlock b s' = Some blk'
                 /\ sent s' = sent s ++ [SendUpstream i resp]
                 /\ snoopBusQueue s' = snoopBusQueue s
  | SNOOP =>
      exists s', supplyData cfg ev b src s = Ok (tt, s')
                 /\ lookupBlock b s' = Some blk'
                 /\ sent s' = sent s
                 /\ snoopBusQueue s' =
                      snoopBusQueue s ++
                        [(resp, mkBusHandlers (Some (PrepBusSupplyData b))
                                  (Some (FinishBusSupplyData b SNOOP true)))]
  | DIRECTORY =>
      directory_link cfg = true -> supplyData cfg ev b src s = Err AssertFailed
  | SELF | PREFETCHER =>
      exists s', supplyData cfg ev b src s = Ok (tt, s')
                 /\ lookupBlock b s' = Some blk'
                 /\ sent s' = sent s
                 /\ snoopBusQueue s' = snoopBusQueue s
  end.
Proof.
  intros Hb Hsi Hc Hul resp blk'.
  split; [reflexivity | split; [reflexivity|]].
  subst resp blk'.
  destruct (supplyData_user_locked_prefix cfg ev b src s blk si Hb Hsi Hc Hul)
    as (s2 & Hb2 & Hsent & Hbus & Hmap & Hrun).
  rewrite Hrun. clear Hrun.
  destruct src.
  - intros i Hi Hlt. apply Nat.ltb_lt in Hlt.
    unfold upstreamIndexOf, sendUpstream, eraseSupply. mrun.
    rewrite Hmap, Hi, Hlt.
    eexists. split; [reflexivity|].
    split; [rewrite <- Hb2; apply lookupBlock_frame; reflexivity|].
    split; [frame_simpl; rewrite Hsent; reflexivity | frame_simpl; exact Hbus].
  - intros Hdown. unfold sendDownstream, eraseSupply. rewrite Hdown. mrun.
    eexists. split; [reflexivity|].
    split; [rewrite <- Hb2; apply lookupBlock_frame; reflexivity|].
    split; [frame_simpl; rewrite Hsent; reflexivity | frame_simpl; exact Hbus].
  - unfold busRequest. mrun.
    eexists. split; [reflexivity|].
    split; [rewrite <- Hb2; apply lookupBlock_frame; reflexivity|].
    split; [frame_simpl; exact Hsent | frame_simpl; rewrite Hbus; reflexivity].
  - intros Hdir. unfold sendDirectory, eraseSupply. rewrite Hdir. reflexivity.
  - exists s2. repeat split; assumption.
  - exists s2. repeat split; assumption.
Qed.

Lemma supplyData_user_locked_by_source_witness :
  (exists s', supplyData cfg_mid reqDown (O, O) DOWNSTREAM st_supplying = Ok (tt, s')
              /\ sent s' = [SendDownstream (delayedResponse cfg_mid st_supplying userLockedBlock)])
  /\ supplyData cfg_mid reqDown (O, O) DIRECTORY st_supplying = Err AssertFailed.
Proof.
  split.
  - destruct (proj2 (proj2 (supplyData_user_locked_by_source cfg_mid reqDown (O, O) DOWNSTREAM
                st_supplying userLockedBlock (mkSupplyInfo None false)
                eq_refl eq_refl eq_refl ltac:(discriminate))) eq_refl)
      as (s' & Hrun & _ & Hsent & _).
    exists s'. split; [exact Hrun | exact Hsent].
  - exact (proj2 (proj2 (supplyData_user_locked_by_source cfg_mid reqDown (O, O) DIRECTORY
                st_supplying userLockedBlock (mkSupplyInfo None false)
                eq_refl eq_refl eq_refl ltac:(discriminate))) eq_refl).
Defined.

(** ** Fill arrival *)

Lemma set_snoopBusQueue_id s : set_snoopBusQueue (snoopBusQueue s) s = s.
Proof. destruct s; reflexivity. Qed.

Lemma filter_none_found {A} (P : A -> bool) (l : list A) :
  List.find P l = None -> List.filter (fun x => negb (P x)) l = l.
Proof.
  induction l as [|x r IH]; simpl; [reflexivity|].
  destruct (P x); [discriminate|]. simpl. intros H. rewrite (IH H). reflexivity.
Qed.

Lemma busCancelRequest_state be s :
  exists h,
    busCancelRequest (Some be) s =
      Ok (h, set_snoopBusQueue
               (List.filter (fun q => negb (isRequest be q)) (snoopBusQueue s)) s).
Proof.
  unfold busCancelRequest. mrun.
  destruct (List.find (isRequest be) (snoopBusQueue s)) as [[e h]|] eqn:Hfind.
  - exists h. reflexivity.
  - exists noHandlers. rewrite (filter_none_found _ _ Hfind), set_snoopBusQueue_id.
    reflexivity.
Qed.

Lemma withdrawn_request_not_queued li l s be q :
  li_busEvent l = Some be ->
  In q (snoopBusQueue (withdrawLoadRequest li l s)) ->
  isRequest be q = false.
Proof.
  intros Hbe. unfold withdrawLoadRequest. rewrite Hbe. cbn [snoopBusQueue set_loadInfos set_snoopBusQueue].
  intros Hin. apply filter_In in Hin as [_ Hn]. apply negb_true_iff in Hn. exact Hn.
Qed.

Lemma replayedEntries_cons src e r :
  replayedEntries src (e :: r) =
    if bool_decide (src = SNOOP) && bool_decide (le_src e = SNOOP)
    then replayedEntries src r
    else match le_ev e with
         | Some oe => (oe, le_src e) :: replayedEntries src r
         | None => replayedEntries src r
         end.
Proof.
  unfold replayedEntries. simpl.
  destruct (bool_decide (src = SNOOP) && bool_decide (le_src e = SNOOP)); [reflexivity|].
  destruct (le_ev e); reflexivity.
Qed.

(** In a run whose replays keep the queue of the load, the replay loop
    visits that queue once, in order. *)
Lemma replayLoads_in_order
    (d : MemEvent -> SourceType_t -> bool -> bool -> M unit) li src q :
  forall fuel n st l,
    loadInfos st !! li = Some l ->
    li_list l = q ->
    queueKept d li q (replayedEntries src (drop n q)) st ->
    (length q - n < fuel)%nat ->
    replayLoads d fuel li src n st =
      forM_ (replayedEntries src (drop n q))
        (fun e => d (fst e) (snd e) false true) st.
Proof.
  intros fuel. induction fuel as [|fuel IH]; intros n st l Hl Hq Hkept Hfuel; [lia|].
  cbn [replayLoads]. unfold bind at 1. rewrite (getLoadInfo_ok _ _ _ Hl), Hq.
  destruct (q !! n) as [oldEV|] eqn:Hn.
  - rewrite (drop_S _ _ _ Hn), replayedEntries_cons in Hkept |- *.
    assert (Hlen : (n < length q)%nat) by (eapply lookup_lt_Some; exact Hn).
    destruct (bool_decide (src = SNOOP) && bool_decide (le_src oldEV = SNOOP)).
    + unfold bind, ret. apply (IH _ _ l); [exact Hl | exact Hq | exact Hkept | lia].
    + destruct (le_ev oldEV) as [e|]; cbn [forM_ fst snd].
      * unfold bind.
        destruct (d e (le_src oldEV) false true st) as [[[] st']|err] eqn:Hd; [|reflexivity].
        destruct (Hkept st' Hd) as [Hq' Hkept'].
        destruct (loadInfos st' !! li) as [l'|] eqn:Hl'; [|discriminate Hq'].
        injection Hq' as Hq'.
        apply (IH _ _ l'); [exact Hl' | exact Hq' | exact Hkept' | lia].
      * unfold bind, ret. apply (IH _ _ l); [exact Hl | exact Hq | exact Hkept | lia].
  - apply lookup_ge_None in Hn. rewrite drop_ge by lia. reflexivity.
Qed.
Lemma storeBlock_currentSimTime b x s : currentSimTime (storeBlock b x s) = currentSimTime s.
Proof. unfold storeBlock. destruct (database s !! b.1); reflexivity. Qed.

Lemma fill_run_equation (cfg : Config)
    (d : MemEvent -> SourceType_t -> bool -> bool -> M unit) (fuel : nat)
    (ev : MemEvent) (src : SourceType_t) (s s0 : Cache) (li : LoadInfoPtr)
    (l : LoadInfo_t) (tb : BlockRef) (blk : CacheBlock) (dnew : list Z) :
  ~ (src = SNOOP /\ getSrc ev = getName cfg) ->
  when (bool_decide (src = SNOOP) && (blocksize cfg <=? getSize ev))
    (cancelCoveredSupplies cfg (coveredBlocks cfg ev) (addrToBlockAddr cfg (getAddr ev)) ev) s
    = Ok (tt, s0) ->
  waitingLoads s0 !! getAddr ev = Some li ->
  loadInfos s0 !! li = Some l ->
  targetBlock l = Some tb ->
  lookupBlock tb s0 = Some blk ->
  queryFlag ev F_DELAYED = false ->
  updateBlock_data cfg ev blk = Ok dnew ->
  (length (li_list l) < fuel)%nat ->
  queueKept d li (li_list l) (replayedEntries src (li_list l))
    (storeBlock tb (filledBlock (currentSimTime s0) dnew blk) (withdrawLoadRequest li l s0)) ->
  handleCacheSupplyEvent cfg d fuel ev src s =
    (forM_ (replayedEntries src (li_list l)) (fun e => d (fst e) (snd e) false true) ;;;
     modify (fun st => set_waitingLoads (delete (getAddr ev) (waitingLoads st)) st) ;;;
     deleteLoadInfo li ;;;
     let* blk' := getBlock tb in
     let* row := findRow cfg (baseAddr blk') in
     handlePendingEvents row (Some tb))
      (storeBlock tb (filledBlock (currentSimTime s0) dnew blk) (withdrawLoadRequest li l s0)).
Proof.
  intros Hown Hpre Hwl Hl Htb Hb Hnd Hupd Hfuel Hkept.
  assert (Hguard : bool_decide (src = SNOOP) && String.eqb (getSrc ev) (getName cfg) = false).
  { apply andb_false_iff.
    destruct (bool_decide (src = SNOOP)) eqn:Hs; [|left; reflexivity].
    right. apply String.eqb_neq. intros Heq. apply Hown.
    apply bool_decide_eq_true in Hs. split; assumption. }
  unfold handleCacheSupplyEvent. rewrite Hguard.
  unfold bind at 1. rewrite Hpre.
  unfold bind at 1. unfold get at 1. rewrite Hwl.
  unfold bind at 1. rewrite (getLoadInfo_ok _ _ _ Hl).
  (* the state once the bus request is withdrawn *)
  assert (Hcancel :
    match li_busEvent l with
    | Some be => let* _ := busCancelRequest (Some be) in modifyLoadInfo li (set_li_busEvent None)
    | None => ret tt
    end s0 = Ok (tt, withdrawLoadRequest li l s0)).
  { unfold withdrawLoadRequest. destruct (li_busEvent l) as [be|]; [|reflexivity].
    destruct (busCancelRequest_state be s0) as [h Hh].
    unfold bind. rewrite Hh. unfold modifyLoadInfo, bind, getLoadInfo.
    cbn [loadInfos set_snoopBusQueue]. rewrite Hl. reflexivity. }
  unfold bind at 1. rewrite Hcancel. rewrite Htb, Hnd.
  set (sC := withdrawLoadRequest li l s0).
  assert (HdbC : database sC = database s0).
  { unfold sC, withdrawLoadRequest. destruct (li_busEvent l); reflexivity. }
  assert (HnowC : currentSimTime sC = currentSimTime s0).
  { unfold sC, withdrawLoadRequest. destruct (li_busEvent l); reflexivity. }
  assert (HlC : exists l', loadInfos sC !! li = Some l' /\ li_list l' = li_list l).
  { unfold sC, withdrawLoadRequest. destruct (li_busEvent l).
    - exists (set_li_busEvent None l). cbn [loadInfos set_loadInfos].
      rewrite lookup_insert_eq. split; reflexivity.
    - exists l. split; [exact Hl | reflexivity]. }
  destruct HlC as (l' & HlC & Hlist).
  assert (HbC : lookupBlock tb sC = Some blk).
  { rewrite (lookupBlock_frame tb s0 sC HdbC). exact Hb. }
  (* the block update *)
  assert (Hfill :
    (updateBlock cfg ev tb ;;;
     modifyBlock tb (set_loadInfo None) ;;;
     modifyBlock tb (set_status SHARED) ;;;
     modifyBlock tb unlock) sC
    = Ok (tt, storeBlock tb (filledBlock (currentSimTime s0) dnew blk) sC)).
  { unfold updateBlock. mrun. rewrite (getBlock_ok _ _ _ HbC), Hupd.
    rewrite (modifyBlock_ok _ _ _ _ HbC), HnowC.
    pose proof (lookupBlock_storeBlock tb sC blk
                  (set_last_touched (currentSimTime s0) (set_data dnew blk)) HbC) as H1.
    rewrite (modifyBlock_ok _ _ _ _ H1), (storeBlock_storeBlock _ _ _ _ _ HbC).
    pose proof (lookupBlock_storeBlock tb sC blk
                  (set_loadInfo None
                     (set_last_touched (currentSimTime s0) (set_data dnew blk))) HbC) as H2.
    rewrite (modifyBlock_ok _ _ _ _ H2), (storeBlock_storeBlock _ _ _ _ _ HbC).
    pose proof (lookupBlock_storeBlock tb sC blk
                  (set_status SHARED
                     (set_loadInfo None
                        (set_last_touched (currentSimTime s0) (set_data dnew blk)))) HbC) as H3.
    rewrite (modifyBlock_ok _ _ _ _ H3), (storeBlock_storeBlock _ _ _ _ _ HbC).
    reflexivity. }
  set (s1 := storeBlock tb (filledBlock (currentSimTime s0) dnew blk) sC) in *.
  assert (Hl1 : loadInfos s1 !! li = Some l').
  { unfold s1. rewrite storeBlock_loadInfos. exact HlC. }
  assert (Hreplay : replayLoads d fuel li src 0 s1 =
                    forM_ (replayedEntries src (li_list l))
                      (fun e => d (fst e) (snd e) false true) s1).
  { rewrite (replayLoads_in_order d li src (li_list l) fuel 0 s1 l' Hl1 Hlist);
      rewrite ?drop_0; [reflexivity | exact Hkept | lia]. }
  revert Hfill Hreplay. generalize s1. clear. intros s1 Hfill Hreplay.
  unfold bind in *.
  destruct (updateBlock cfg ev tb sC) as [[[] sa]|]; [|discriminate].
  destruct (modifyBlock tb (set_loadInfo None) sa) as [[[] sb]|]; [|discriminate].
  destruct (modifyBlock tb (set_status SHARED) sb) as [[[] sc]|]; [|discriminate].
  rewrite Hfill, Hreplay.
  destruct (forM_ _ _ s1) as [[[] s2]|]; reflexivity.
Qed.

Lemma replayedEntries_snoop_fill q e :
  In e (replayedEntries SNOOP q) -> snd e <> SNOOP.
Proof.
  induction q as [|x r IH]; intros Hin; [destruct Hin|].
  rewrite replayedEntries_cons in Hin.
  rewrite bool_decide_eq_true_2 in Hin by reflexivity. cbn [andb] in Hin.
  destruct (bool_decide (le_src x = SNOOP)) eqn:Hx; [exact (IH Hin)|].
  apply bool_decide_eq_false in Hx.
  destruct (le_ev x) as [oe|]; [|exact (IH Hin)].
  destruct Hin as [<-|Hin]; [exact Hx | exact (IH Hin)].
Qed.

(** C3 (as stated) fails when the fill does not come over the snoop bus: a
    SupplyData from downstream matches the outstanding load of block 256,
    whose target block is Assigned, and carries no Delayed flag; the queued
    entry that came over the snoop bus is not discarded but replayed through
    the dispatcher, which schedules the supply to that peer. *)
Lemma downstream_fill_replays_snoop_waiter :
  waitingLoads st_peer_loading !! getAddr fillForPeer = Some 1%positive
  /\ loadInfos st_peer_loading !! 1%positive = Some loadForPeer
  /\ In (mkLoadElement (Some snoopRequest) SNOOP 4) (li_list loadForPeer)
  /\ queryFlag fillForPeer F_DELAYED = false
  /\ exists s',
       handleIncomingEvent cfg_mid 5 fillForPeer DOWNSTREAM true false st_peer_loading
         = Ok (tt, s')
       /\ sent s' = [SendSelf 1 (SupplyDataEvent snoopRequest (O, O) SNOOP);
                     SendSelf 1 (SupplyDataEvent reqUp (O, O) UPSTREAM)]
       /\ supplyInProgress s' !! (256, SNOOP) = Some (mkSupplyInfo None false).
Proof.
  split; [reflexivity|]. split; [reflexivity|]. split; [left; reflexivity|].
  split; [reflexivity|].
  eexists. split; [vm_compute; reflexivity|]. split; reflexivity.
Qed.

(** C3 (amended).  For a SupplyData event that is not our own snooped send,
    whose address matches an outstanding load with an assigned target block
    and that does not carry the Delayed flag: the load's pending bus request
    (if any) is withdrawn from the bus queue, the payload is copied into the
    block, the block becomes Shared and its protocol lock is released; then
    the queued entries are replayed through the dispatcher in queue order —
    except that, when the supply came over the snoop bus, snoop-sourced
    entries are discarded, and entries purged by an earlier Delayed supply
    are skipped — and the load is retired.  The loop reads the queue again
    at every step, so this is the replay of a run in which the handling of
    each replayed event leaves the queue of this load as it is
    ([queueKept], about this run of the dispatcher only).  ([s0] is the
    state after the cancellation of our own snoop supplies that opens the
    handler; [s1] the state in which the replay starts.) *)
Theorem handleCacheSupplyEvent_fill (cfg : Config)
    (d : MemEvent -> SourceType_t -> bool -> bool -> M unit) (fuel : nat)
    (ev : MemEvent) (src : SourceType_t) (s s0 : Cache) (li : LoadInfoPtr)
    (l : LoadInfo_t) (tb : BlockRef) (blk : CacheBlock) (dnew : list Z) :
  ~ (src = SNOOP /\ getSrc ev = getName cfg) ->
  when (bool_decide (src = SNOOP) && (blocksize cfg <=? getSize ev))
    (cancelCoveredSupplies cfg (coveredBlocks cfg ev) (addrToBlockAddr cfg (getAddr ev)) ev) s
    = Ok (tt, s0) ->
  waitingLoads s0 !! getAddr ev = Some li ->
  loadInfos s0 !! li = Some l ->
  targetBlock l = Some tb ->
  lookupBlock tb s0 = Some blk ->
  queryFlag ev F_DELAYED = false ->
  updateBlock_data cfg ev blk = Ok dnew ->
  (length (li_list l) < fuel)%nat ->
  let s1 := storeBlock tb (filledBlock (currentSimTime s0) dnew blk)
              (withdrawLoadRequest li l s0) in
  queueKept d li (li_list l) (replayedEntries src (li_list l)) s1 ->
  handleCacheSupplyEvent cfg d fuel ev src s =
    (forM_ (replayedEntries src (li_list l)) (fun e => d (fst e) (snd e) false true) ;;;
     modify (fun st => set_waitingLoads (delete (getAddr ev) (waitingLoads st)) st) ;;;
     deleteLoadInfo li ;;;
     let* blk' := getBlock tb in
     let* row := findRow cfg (baseAddr blk') in
     handlePendingEvents row (Some tb)) s1
  /\ (exists blk1, lookupBlock tb s1 = Some blk1
                   /\ status blk1 = SHARED /\ locked blk1 = locked blk - 1
                   /\ data blk1 = dnew /\ loadInfo blk1 = None)
  /\ (forall be q, li_busEvent l = Some be -> In q (snoopBusQueue s1) ->
        isRequest be q = false)
  /\ (getSize ev = blocksize cfg -> length (getPayload ev) = length (data blk) ->
      dnew = getPayload ev)
  /\ (src <> SNOOP ->
      replayedEntries src (li_list l)
        = omap (fun e => option_map (fun oe => (oe, le_src e)) (le_ev e)) (li_list l))
  /\ (src = SNOOP ->
      forall e, In e (replayedEntries src (li_list l)) -> snd e <> SNOOP).
Proof.
  intros Hown Hpre Hwl Hl Htb Hb Hnd Hupd Hfuel s1 Hkept.
  split; [exact (fill_run_equation cfg d fuel ev src s s0 li l tb blk dnew
                   Hown Hpre Hwl Hl Htb Hb Hnd Hupd Hfuel Hkept)|].
  split; [|split; [|split; [|split]]].
  - exists (filledBlock (currentSimTime s0) dnew blk). split.
    + apply (lookupBlock_storeBlock_frame tb s0 _ blk); [exact Hb|].
      unfold withdrawLoadRequest. destruct (li_busEvent l); reflexivity.
    + repeat split.
  - intros be q Hbe Hin. unfold s1 in Hin. rewrite storeBlock_snoopBusQueue in Hin.
    exact (withdrawn_request_not_queued li l s0 be q Hbe Hin).
  - intros Hsz Hlen. unfold updateBlock_data in Hupd.
    apply Z.eqb_eq in Hsz. rewrite Hsz in Hupd.
    rewrite Hlen, Nat.leb_refl, drop_all, app_nil_r in Hupd. congruence.
  - intros Hns. unfold replayedEntries.
    rewrite (bool_decide_eq_false_2 _ Hns). reflexivity.
  - intros -> e Hin. exact (replayedEntries_snoop_fill _ _ Hin).
Qed.

Lemma handleCacheSupplyEvent_fill_witness :
  exists s' blk,
    handleIncomingEvent cfg_bus 5 fillForPeer SNOOP true false st_bus_loading = Ok (tt, s')
    /\ sent s' = [SendSelf 1 (SupplyDataEvent reqUp (O, O) UPSTREAM)]
    /\ supplyInProgress s' !! (256, SNOOP) = None
    /\ snoopBusQueue s' = []
    /\ waitingLoads s' = ∅ /\ loadInfos s' = ∅
    /\ lookupBlock (O, O) s' = Some blk
    /\ status blk = SHARED /\ data blk = repeat 170 64 /\ loadInfo blk = None.
Proof.
  assert (Hkept : queueKept (handleIncomingEvent cfg_bus 4) 1%positive (li_list loadOnBus)
                    (replayedEntries SNOOP (li_list loadOnBus))
                    (storeBlock (O, O)
                       (filledBlock (currentSimTime st_bus_loading) (repeat 170 64)
                          assignedBlock)
                       (withdrawLoadRequest 1%positive loadOnBus st_bus_loading))).
  { simpl. intros st' H. vm_compute in H. injection H as <-.
    split; [vm_compute; reflexivity | exact I]. }
  pose proof (proj1 (handleCacheSupplyEvent_fill cfg_bus (handleIncomingEvent cfg_bus 4) 4
                       fillForPeer SNOOP st_bus_loading st_bus_loading 1%positive loadOnBus
                       (O, O) assignedBlock (repeat 170 64)
                       ltac:(intros [_ H]; discriminate H) eq_refl eq_refl eq_refl eq_refl
                       eq_refl eq_refl eq_refl ltac:(simpl; lia) Hkept)) as Hrun.
  change (handleCacheSupplyEvent cfg_bus (handleIncomingEvent cfg_bus 4) 4 fillForPeer SNOOP
            st_bus_loading)
    with (handleIncomingEvent cfg_bus 5 fillForPeer SNOOP true false st_bus_loading) in Hrun.
  eexists _, _. split; [rewrite Hrun; vm_compute; reflexivity|].
  repeat split.
Defined.

(** The whole path of a read miss with the real dispatcher: the fill from
    downstream retires the load, leaves the block Shared and unlocked, and
    the replayed read is answered with the requested bytes. *)
Example fill_completes_read_miss :
  exists s resp,
    handleIncomingEvent cfg_l1 5 fill256 DOWNSTREAM true false st_loading = Ok (tt, s)
    /\ waitingLoads s = ∅ /\ loadInfos s = ∅
    /\ option_map (fun blk => (status blk, locked blk)) (lookupBlock (O, O) s)
         = Some (SHARED, 0)
    /\ sent s = [SendSelf 1 (SendCPUResponse resp (O, O) UPSTREAM)]
    /\ getPayload resp = [170; 170; 170; 170]
    /\ getResponseToID resp = getID readMiss.
Proof. eexists _, _. vm_compute. repeat split. Qed.

(** * Further properties of the controller *)

(** ** Storage and lookup *)

Lemma land_le_mask a m : 0 <= m -> Z.land a m <= m.
Proof.
  intros Hm.
  assert (H : Z.ldiff (Z.land a m) m = 0).
  { apply Z.bits_inj'. intros n Hn.
    rewrite Z.ldiff_spec, Z.land_spec, Z.bits_0.
    destruct (Z.testbit a n), (Z.testbit m n); reflexivity. }
  pose proof (Z.sub_nocarry_ldiff m (Z.land a m) H) as Hsub.
  assert (0 <= Z.ldiff m (Z.land a m)) by (apply Z.ldiff_nonneg; left; exact Hm).
  lia.
Qed.

Lemma find_index_Some {A} (f : A -> bool) (l : list A) i :
  find_index f l = Some i ->
  exists x, l !! i = Some x /\ f x = true
            /\ forall j y, (j < i)%nat -> l !! j = Some y -> f y = false.
Proof.
  revert i. induction l as [|x r IH]; intros i; simpl; [discriminate|].
  destruct (f x) eqn:Hx.
  - intros [= <-]. exists x. split; [reflexivity|]. split; [exact Hx|].
    intros j y Hlt. lia.
  - destruct (find_index f r) as [k|] eqn:Hr; [|discriminate].
    intros [= <-]. destruct (IH k eq_refl) as (y & Hy & Hfy & Hbefore).
    exists y. split; [exact Hy|]. split; [exact Hfy|].
    intros [|j] z Hlt Hz.
    + injection Hz as <-. exact Hx.
    + apply (Hbefore j z); [lia | exact Hz].
Qed.

Lemma find_index_None {A} (f : A -> bool) (l : list A) :
  find_index f l = None -> forall x, In x l -> f x = false.
Proof.
  induction l as [|x r IH]; simpl; [intros _ y []|].
  destruct (f x) eqn:Hx; [discriminate|].
  destruct (find_index f r) eqn:Hr; [discriminate|].
  intros _ y [<-|Hin]; [exact Hx | exact (IH eq_refl y Hin)].
Qed.

(** X1.  The row index computed by [findRow] is the address shifted and
    masked with [n_rows - 1]; for an unsigned address and a block array of
    [n_rows] rows (at least one) its assertion [row < n_rows] cannot fail:
    the call returns a row of the array and leaves the state alone. *)
Theorem findRow_in_range (cfg : Config) (addr : Z) (s : Cache) :
  0 <= addr ->
  1 <= n_rows cfg ->
  Z.of_nat (length (database s)) = n_rows cfg ->
  exists r, findRow cfg addr s = Ok (r, s)
            /\ Z.of_nat r = Z.land (Z.shiftr addr (rowshift cfg)) (n_rows cfg - 1)
            /\ (r < length (database s))%nat.
Proof.
  intros Ha Hn Hlen.
  set (row := Z.land (Z.shiftr addr (rowshift cfg)) (n_rows cfg - 1)).
  assert (Hlo : 0 <= row).
  { apply Z.land_nonneg. right. lia. }
  assert (Hhi : row <= n_rows cfg - 1) by (apply land_le_mask; lia).
  exists (Z.to_nat row).
  assert (Hr : (Z.to_nat row < length (database s))%nat) by lia.
  split; [|split; [lia | exact Hr]].
  unfold findRow, rowmask. fold row. mrun.
  assert (Hlt : (row <? n_rows cfg) = true) by (apply Z.ltb_lt; lia).
  rewrite Hlt. unfold getRow.
  destruct (lookup_lt_is_Some_2 (database s) (Z.to_nat row) Hr) as [x Hx].
  rewrite Hx. reflexivity.
Qed.

Lemma findRow_in_range_witness :
  exists r, findRow cfg_l1 264 st_init = Ok (r, st_init) /\ (r < 2)%nat.
Proof.
  destruct (findRow_in_range cfg_l1 264 st_init ltac:(lia) ltac:(simpl; lia) eq_refl)
    as (r & Hrun & _ & Hlt).
  exists r. split; [exact Hrun | exact Hlt].
Defined.

Lemma find_index_None_lookup {A} (f : A -> bool) (l : list A) j y :
  find_index f l = None -> l !! j = Some y -> f y = false.
Proof.
  intros Hn Hj. apply (find_index_None f l Hn).
  apply list_elem_of_In. eapply list_elem_of_lookup_2. exact Hj.
Qed.

Lemma find_index_lt {A} (f : A -> bool) (l : list A) i :
  find_index f l = Some i -> (i < length l)%nat.
Proof.
  intros H. destruct (find_index_Some f l i H) as (x & Hx & _).
  eapply lookup_lt_Some. exact Hx.
Qed.

(** X2.  A lookup that does not accept empty slots returns the first way of
    the address's row that holds valid data (neither Invalid nor Assigned)
    under the address's tag; when it returns nothing, no way of the row
    does.  The state is left alone. *)
Theorem findBlock_first_valid_match (cfg : Config) (addr : Z) (s : Cache)
    (r : nat) (row : CacheRow) :
  findRow cfg addr s = Ok (r, s) ->
  database s !! r = Some row ->
  exists res,
    findBlock cfg addr false s = Ok (res, s)
    /\ match res with
       | Some (r', c) =>
           r' = r /\ (c < n_ways cfg)%nat
           /\ exists blk,
                lookupBlock (r, c) s = Some blk
                /\ status blk <> INVALID /\ status blk <> ASSIGNED
                /\ tag blk = wrap32 (addrToTag cfg addr)
                /\ forall c' blk', (c' < c)%nat -> blocks row !! c' = Some blk' ->
                     hits cfg addr blk' = false
       | None =>
           forall c blk, (c < n_ways cfg)%nat -> blocks row !! c = Some blk ->
             hits cfg addr blk = false
       end.
Proof.
  intros Hrow Hdb.
  unfold findBlock. unfold bind at 1. rewrite Hrow.
  unfold bind at 1. unfold getRow. rewrite Hdb.
  fold (hits cfg addr).
  destruct (find_index (hits cfg addr) (take (n_ways cfg) (blocks row))) as [c|] eqn:Hfi.
  - exists (Some (r, c)). split; [reflexivity|].
    destruct (find_index_Some _ _ _ Hfi) as (blk & Hblk & Hhit & Hfirst).
    pose proof (find_index_lt _ _ _ Hfi) as Hlen. rewrite length_take in Hlen.
    assert (Hc : (c < n_ways cfg)%nat) by lia.
    split; [reflexivity|]. split; [exact Hc|].
    rewrite lookup_take_lt in Hblk by exact Hc.
    exists blk. split; [unfold lookupBlock; simpl; rewrite Hdb; exact Hblk|].
    unfold hits, isValid in Hhit. apply andb_true_iff in Hhit as [Hv Ht].
    apply Z.eqb_eq in Ht.
    split; [intros E; rewrite E in Hv; discriminate|].
    split; [intros E; rewrite E in Hv; discriminate|].
    split; [exact Ht|].
    intros c' blk' Hlt Hc'. apply (Hfirst c' blk' Hlt).
    rewrite lookup_take_lt by lia. exact Hc'.
  - exists None. split; [reflexivity|].
    intros c blk Hc Hblk. apply (find_index_None_lookup _ _ c blk Hfi).
    rewrite lookup_take_lt by exact Hc. exact Hblk.
Qed.

(** X3.  A lookup that accepts empty slots prefers a hit; on a miss it
    returns the first Invalid way of the address's row (the way belongs to
    the row [findRow] gives for the address, its block is Invalid, and no
    way before it is), and nothing only when the row has neither.  Whatever
    it returns is a hit or an Invalid block. *)
Theorem findBlock_accepting_empty (cfg : Config) (addr : Z) (s : Cache) (res : option BlockRef) :
  findBlock cfg addr false s = Ok (res, s) ->
  (forall b, res = Some b -> findBlock cfg addr true s = Ok (Some b, s))
  /\ (res = None ->
      exists res',
        findBlock cfg addr true s = Ok (res', s)
        /\ match res' with
           | Some b => exists row blk,
               findRow cfg addr s = Ok (fst b, s)
               /\ database s !! fst b = Some row
               /\ (snd b < n_ways cfg)%nat
               /\ blocks row !! snd b = Some blk
               /\ lookupBlock b s = Some blk
               /\ status blk = INVALID
               /\ (forall c' blk', (c' < snd b)%nat -> blocks row !! c' = Some blk' ->
                                   status blk' <> INVALID)
           | None => forall r row c blk,
               findRow cfg addr s = Ok (r, s) -> database s !! r = Some row ->
               (c < n_ways cfg)%nat -> blocks row !! c = Some blk ->
               status blk <> INVALID
           end).
Proof.
  unfold findBlock, bind.
  destruct (findRow cfg addr s) as [[r s1]|e] eqn:Hrow; [|discriminate].
  assert (s1 = s) as ->.
  { unfold findRow, bind, ASSERT, getRow, ret, fail in Hrow.
    destruct (_ <? _); [|discriminate].
    destruct (database s !! _); [|discriminate]. congruence. }
  unfold getRow.
  destruct (database s !! r) as [row|] eqn:Hdb; [|discriminate].
  destruct (find_index _ (take (n_ways cfg) (blocks row))) as [c|] eqn:Hfi.
  - intros [= <-]. split; [intros b [= <-]; reflexivity | discriminate].
  - intros [= <-]. split; [discriminate|]. intros _.
    destruct (find_index isInvalid (take (n_ways cfg) (blocks row))) as [c|] eqn:Hinv.
    + exists (Some (r, c)). split; [reflexivity|].
      destruct (find_index_Some _ _ _ Hinv) as (blk & Hblk & Hi & Hfirst).
      pose proof (find_index_lt _ _ _ Hinv) as Hlen. rewrite length_take in Hlen.
      assert (Hc : (c < n_ways cfg)%nat) by lia.
      rewrite lookup_take_lt in Hblk by exact Hc.
      exists row, blk. cbn [fst snd].
      split; [reflexivity|]. split; [exact Hdb|]. split; [exact Hc|].
      split; [exact Hblk|].
      split; [unfold lookupBlock; simpl; rewrite Hdb; exact Hblk|].
      split; [unfold isInvalid in Hi; destruct (status blk); try discriminate; reflexivity|].
      intros c' blk' Hlt Hc' E.
      assert (Hi' : isInvalid blk' = false).
      { apply (Hfirst c' blk' Hlt). rewrite lookup_take_lt by lia. exact Hc'. }
      unfold isInvalid in Hi'. rewrite E in Hi'. discriminate.
    + exists None. split; [reflexivity|].
      intros r' row' c blk [= <-] Hdb' Hc Hblk.
      rewrite Hdb in Hdb'. injection Hdb' as <-.
      assert (Hi : isInvalid blk = false).
      { apply (find_index_None_lookup _ _ c blk Hinv).
        rewrite lookup_take_lt by exact Hc. exact Hblk. }
      intros E. unfold isInvalid in Hi. rewrite E in Hi. discriminate.
Qed.

Lemma findBlock_first_valid_match_witness :
  exists res,
    findBlock cfg_l1 264 false st_shared = Ok (res, st_shared)
    /\ match res with
       | Some (r', c) => r' = O /\ (c < 2)%nat
       | None => False
       end.
Proof.
  destruct (findBlock_first_valid_match cfg_l1 264 st_shared O
              (mkRow [sharedBlock; emptyBlock] ∅) eq_refl eq_refl) as (res & Hrun & Hres).
  exists res. split; [exact Hrun|].
  destruct res as [[r' c]|].
  - destruct Hres as (Hr & Hc & _). split; [exact Hr | exact Hc].
  - specialize (Hres O sharedBlock ltac:(simpl; lia) eq_refl). discriminate Hres.
Defined.

Lemma findBlock_accepting_empty_witness :
  exists res', findBlock cfg_l1 384 true st_shared = Ok (res', st_shared)
               /\ match res' with
                  | Some b => exists row blk,
                      findRow cfg_l1 384 st_shared = Ok (fst b, st_shared)
                      /\ database st_shared !! fst b = Some row
                      /\ (snd b < 2)%nat
                      /\ blocks row !! snd b = Some blk
                      /\ lookupBlock b st_shared = Some blk
                      /\ status blk = INVALID
                      /\ (forall c' blk', (c' < snd b)%nat -> blocks row !! c' = Some blk' ->
                                          status blk' <> INVALID)
                  | None => True
                  end.
Proof.
  destruct (proj2 (findBlock_accepting_empty cfg_l1 384 st_shared None eq_refl) eq_refl)
    as (res' & Hrun & Hres).
  exists res'. split; [exact Hrun|].
  destruct res' as [b|]; [exact Hres | exact I].
Defined.

(** ** Events waiting on a row *)

Lemma set_sent_id s : set_sent (sent s) s = s.
Proof. destruct s; reflexivity. Qed.

Lemma forM_send {A} (g : A -> Action) (l : list A) s :
  forM_ l (fun x => send (g x)) s = Ok (tt, set_sent (sent s ++ List.map g l) s).
Proof.
  revert s. induction l as [|x r IH]; intros s; simpl.
  - rewrite app_nil_r, set_sent_id. reflexivity.
  - unfold bind, send at 1, modify. rewrite IH. cbn [sent set_sent].
    rewrite <- app_assoc. reflexivity.
Qed.

Lemma first_key_least (m : gmap Z eventQueue_t) k :
  first_key m = Some k ->
  is_Some (m !! k) /\ forall k', is_Some (m !! k') -> k <= k'.
Proof.
  unfold first_key.
  assert (H : forall (l : list (Z * eventQueue_t)) k,
             foldr (fun kv acc => match acc with
                                  | None => Some (fst kv)
                                  | Some k => Some (Z.min (fst kv) k)
                                  end) None l = Some k ->
             (exists q, In (k, q) l) /\ forall k' q', In (k', q') l -> k <= k').
  { induction l as [|[k0 q0] r IH]; intros k1; simpl; [discriminate|].
    destruct (foldr _ None r) as [kr|] eqn:Hr.
    - intros [= <-]. destruct (IH kr eq_refl) as ((q & Hq) & Hmin).
      split.
      + destruct (Z.min_spec k0 kr) as [[_ ->]|[_ ->]];
          [exists q0; left; reflexivity | exists q; right; exact Hq].
      + intros k' q' [[= <- <-]|Hin]; [lia|]. specialize (Hmin k' q' Hin). lia.
    - intros [= <-]. destruct r as [|x r']; [|simpl in Hr; destruct (foldr _ None r'); discriminate].
      split; [exists q0; left; reflexivity|].
      intros k' q' [[= <- <-]|[]]. lia. }
  intros Hk. destruct (H _ _ Hk) as ((q & Hq) & Hmin). split.
  - exists q. apply elem_of_map_to_list. apply list_elem_of_In. exact Hq.
  - intros k' [q' Hq']. apply (Hmin k' q').
    apply list_elem_of_In. apply elem_of_map_to_list. exact Hq'.
Qed.

(** X4.  [handlePendingEvents] releases one queue of the row: the queue of
    the given block's address, or, when no block is given, the queue with
    the least block address.  Its events are rescheduled on the self link in
    FIFO order (delay 1, no block attached), that queue is erased, and the
    other queues and the rest of the state stay as they are.  When the row
    has no queue for the given block, nothing happens. *)
Theorem handlePendingEvents_releases_one_queue (r : nat) (block : option BlockRef)
    (s : Cache) (row : CacheRow) :
  database s !! r = Some row ->
  (forall k queue,
     match block with
     | Some b => exists blk, lookupBlock b s = Some blk /\ baseAddr blk = k
     | None => first_key (waitingEvents row) = Some k
     end ->
     waitingEvents row !! k = Some queue ->
     handlePendingEvents r block s =
       Ok (tt, set_database
                 (<[r := mkRow (blocks row) (delete k (waitingEvents row))]> (database s))
                 (set_sent
                    (sent s ++ List.map (fun e => SendSelf 1 (RetryEvent (fst e) None (snd e)))
                                 queue) s)))
  /\ (forall b blk, block = Some b -> lookupBlock b s = Some blk ->
        waitingEvents row !! baseAddr blk = None ->
        handlePendingEvents r block s = Ok (tt, s))
  /\ (block = None ->
      forall k, first_key (waitingEvents row) = Some k ->
        is_Some (waitingEvents row !! k)
        /\ forall k', is_Some (waitingEvents row !! k') -> k <= k').
Proof.
  intros Hdb. split; [|split].
  - intros k queue Hk Hq.
    assert (Hsize : (0 <? size (waitingEvents row))%nat = true).
    { apply Nat.ltb_lt.
      assert (size (waitingEvents row) <> O)
        by (apply map_size_non_empty_iff; intros E; rewrite E, lookup_empty in Hq; discriminate).
      lia. }
    unfold handlePendingEvents. unfold bind at 1. unfold getRow. rewrite Hdb, Hsize.
    destruct block as [b|].
    + destruct Hk as (blk & Hb & <-).
      unfold bind at 1. unfold bind at 1. rewrite (getBlock_ok _ _ _ Hb). unfold ret at 1.
      rewrite Hq. unfold bind. unfold sendSelf. rewrite forM_send. reflexivity.
    + unfold bind at 1. unfold ret at 1. rewrite Hk, Hq.
      unfold bind. unfold sendSelf. rewrite forM_send. reflexivity.
  - intros b blk -> Hb Hnone.
    unfold handlePendingEvents. unfold bind at 1. unfold getRow. rewrite Hdb.
    destruct (0 <? size (waitingEvents row))%nat; [|reflexivity].
    unfold bind at 1. unfold bind at 1. rewrite (getBlock_ok _ _ _ Hb). unfold ret at 1.
    cbv beta iota.
    destruct (waitingEvents row !! baseAddr blk) as [q|] eqn:E; [|reflexivity].
    discriminate Hnone.
  - intros _ k Hk. exact (first_key_least _ _ Hk).
Qed.

Lemma handlePendingEvents_releases_one_queue_witness :
  exists s',
    handlePendingEvents O None st_row_waiting = Ok (tt, s')
    /\ sent s' = [SendSelf 1 (RetryEvent readMiss None UPSTREAM);
                  SendSelf 1 (RetryEvent readHit None UPSTREAM)]
    /\ option_map waitingEvents (database s' !! O)
         = Some {[ 384 := [(readMiss384, UPSTREAM)] ]}.
Proof.
  eexists. split.
  - apply (proj1 (handlePendingEvents_releases_one_queue O None st_row_waiting
                    (mkRow [sharedBlock; emptyBlock]
                       {[ 384 := [(readMiss384, UPSTREAM)];
                          256 := [(readMiss, UPSTREAM); (readHit, UPSTREAM)] ]})
                    eq_refl) 256 [(readMiss, UPSTREAM); (readHit, UPSTREAM)]);
      vm_compute; reflexivity.
  - split; vm_compute; reflexivity.
Defined.

(** ** Merging a payload into a block *)

Lemma updatePortion_merges (cfg : Config) (off : nat) (payload : list Z) :
  forall (n k : nat) (d : list Z),
    Z.of_nat (length d) = blocksize cfg ->
    Z.of_nat (off + k + n) <= blocksize cfg ->
    blocksize cfg < 2 ^ 64 ->
    (k + n <= length payload)%nat ->
    updatePortion cfg n (Z.of_nat k) (Z.of_nat off) 0 payload d =
      Ok (take (off + k) d ++ take n (drop k payload) ++ drop (off + k + n) d).
Proof.
  induction n as [|n IH]; intros k d Hlen Hfit Hbs Hpay.
  - simpl. rewrite !Nat.add_0_r, take_drop. reflexivity.
  - cbn [updatePortion].
    assert (Hw : wrap64 (Z.of_nat off + Z.of_nat k) = Z.of_nat (off + k)).
    { rewrite <- Nat2Z.inj_add. apply wrap64_small. unfold is_u64. lia. }
    assert (Hwp : wrap64 (0 + Z.of_nat k) = Z.of_nat k).
    { apply wrap64_small. unfold is_u64. lia. }
    rewrite Hw, Hwp, !Nat2Z.id.
    assert (Hlt : (Z.of_nat (off + k) <? blocksize cfg) = true) by (apply Z.ltb_lt; lia).
    rewrite Hlt.
    destruct (lookup_lt_is_Some_2 payload k ltac:(lia)) as [v Hv]. rewrite Hv.
    assert (Hin : (off + k <? length d)%nat = true) by (apply Nat.ltb_lt; lia).
    rewrite Hin.
    replace (Z.of_nat k + 1) with (Z.of_nat (S k)) by lia.
    rewrite IH; [| rewrite length_insert; exact Hlen | lia | exact Hbs | lia].
    f_equal.
    destruct (lookup_lt_is_Some_2 d (off + k) ltac:(lia)) as [x Hx].
    replace (off + S k)%nat with (S (off + k)) by lia.
    rewrite (take_S_r (<[(off + k)%nat := v]> d) (off + k) v)
      by (apply list_lookup_insert_eq; lia).
    rewrite take_insert_ge by lia.
    rewrite drop_insert_lt by lia.
    rewrite (drop_S payload v k Hv). cbn [firstn].
    rewrite <- app_assoc. cbn [app].
    replace (S (off + k) + n)%nat with (off + k + S n)%nat by lia. reflexivity.
Qed.

Lemma updateBlock_data_partial (cfg : Config) (ev : MemEvent) (blk : CacheBlock) :
  getSize ev <> blocksize cfg ->
  0 <= baseAddr blk <= getAddr ev ->
  blocksize cfg < 2 ^ 32 ->
  0 <= getSize ev ->
  getAddr ev - baseAddr blk + getSize ev <= blocksize cfg ->
  Z.of_nat (length (data blk)) = blocksize cfg ->
  getSize ev <= Z.of_nat (length (getPayload ev)) ->
  exists d',
    updateBlock_data cfg ev blk = Ok d'
    /\ d' = take (Z.to_nat (getAddr ev - baseAddr blk)) (data blk)
            ++ take (Z.to_nat (getSize ev)) (getPayload ev)
            ++ drop (Z.to_nat (getAddr ev - baseAddr blk + getSize ev)) (data blk)
    /\ length d' = length (data blk).
Proof.
  intros Hne Hbase Hu Hsz Hfit Hlen Hpay.
  set (off := getAddr ev - baseAddr blk) in *.
  assert (Hblock : (if getAddr ev <=? baseAddr blk then 0 else wrap64 (getAddr ev - baseAddr blk))
                   = Z.of_nat (Z.to_nat off)).
  { destruct (getAddr ev <=? baseAddr blk) eqn:E.
    - apply Z.leb_le in E. unfold off. lia.
    - fold off. rewrite wrap64_small by (unfold is_u64, off; lia). unfold off in *. lia. }
  assert (Hpo : (if baseAddr blk <=? getAddr ev then 0 else wrap64 (baseAddr blk - getAddr ev)) = 0).
  { destruct (baseAddr blk <=? getAddr ev) eqn:E; [reflexivity|]. apply Z.leb_gt in E. lia. }
  eexists. split; [|split; [reflexivity|]].
  - unfold updateBlock_data. apply Z.eqb_neq in Hne. rewrite Hne, Hblock, Hpo.
    replace (Z.min (blocksize cfg) (getSize ev)) with (getSize ev) by (unfold off in *; lia).
    change 0 with (Z.of_nat 0) at 1.
    rewrite (updatePortion_merges cfg (Z.to_nat off) (getPayload ev)
               (Z.to_nat (getSize ev)) 0 (data blk) Hlen);
      [| unfold off in *; lia | unfold off in *; lia | lia].
    rewrite Nat.add_0_r, drop_0.
    replace (Z.to_nat off + Z.to_nat (getSize ev))%nat with (Z.to_nat (off + getSize ev))
      by (unfold off in *; lia).
    reflexivity.
  - rewrite !length_app, !length_take, length_drop. unfold off in *. lia.
Qed.

Lemma updatePortion_overruns (cfg : Config) (off : nat) (payload : list Z) :
  forall (n k : nat) (d : list Z),
    Z.of_nat (length d) = blocksize cfg ->
    Z.of_nat (off + k) <= blocksize cfg ->
    blocksize cfg < Z.of_nat (off + k + n) ->
    blocksize cfg < 2 ^ 64 ->
    blocksize cfg - Z.of_nat off <= Z.of_nat (length payload) ->
    updatePortion cfg n (Z.of_nat k) (Z.of_nat off) 0 payload d = Err AssertFailed.
Proof.
  induction n as [|n IH]; intros k d Hlen Hlo Hover Hbs Hpay; [lia|].
  cbn [updatePortion].
  assert (Hw : wrap64 (Z.of_nat off + Z.of_nat k) = Z.of_nat (off + k)).
  { rewrite <- Nat2Z.inj_add. apply wrap64_small. unfold is_u64. lia. }
  rewrite Hw.
  destruct (Z.of_nat (off + k) <? blocksize cfg) eqn:Hlt; [|reflexivity].
  apply Z.ltb_lt in Hlt.
  assert (Hwp : wrap64 (0 + Z.of_nat k) = Z.of_nat k).
  { apply wrap64_small. unfold is_u64. lia. }
  rewrite Hwp, !Nat2Z.id.
  destruct (lookup_lt_is_Some_2 payload k ltac:(lia)) as [v Hv]. rewrite Hv.
  assert (Hin : (off + k <? length d)%nat = true) by (apply Nat.ltb_lt; lia).
  rewrite Hin.
  replace (Z.of_nat k + 1) with (Z.of_nat (S k)) by lia.
  apply IH; [rewrite length_insert; exact Hlen | lia | lia | exact Hbs | exact Hpay].
Qed.

Lemma updateBlock_data_overrun (cfg : Config) (ev : MemEvent) (blk : CacheBlock) :
  getSize ev <> blocksize cfg ->
  0 <= baseAddr blk < getAddr ev ->
  getAddr ev - baseAddr blk <= blocksize cfg ->
  blocksize cfg < getAddr ev - baseAddr blk + getSize ev ->
  blocksize cfg < 2 ^ 64 ->
  Z.of_nat (length (data blk)) = blocksize cfg ->
  blocksize cfg - (getAddr ev - baseAddr blk) <= Z.of_nat (length (getPayload ev)) ->
  updateBlock_data cfg ev blk = Err AssertFailed.
Proof.
  intros Hne Hbase Hin Hover Hbs Hlen Hpay.
  unfold updateBlock_data. apply Z.eqb_neq in Hne. rewrite Hne.
  assert (E1 : (getAddr ev <=? baseAddr blk) = false) by (apply Z.leb_gt; lia).
  assert (E2 : (baseAddr blk <=? getAddr ev) = true) by (apply Z.leb_le; lia).
  rewrite E1, E2, wrap64_small by (unfold is_u64; lia).
  replace (getAddr ev - baseAddr blk) with (Z.of_nat (Z.to_nat (getAddr ev - baseAddr blk)))
    by lia.
  change 0 with (Z.of_nat 0) at 1.
  apply updatePortion_overruns; try lia.
Qed.

(** X5.  A payload smaller than a block, addressed at or above the block's
    base and fitting inside the block, is merged in place: the bytes before
    the offset and after the written range are kept, the range takes the
    first [size] bytes of the payload, the data keeps its length, the block
    is stamped with the current time, and nothing else of the cache
    changes. *)
Theorem updateBlock_merges_in_place (cfg : Config) (ev : MemEvent) (b : BlockRef)
    (s : Cache) (blk : CacheBlock) :
  lookupBlock b s = Some blk ->
  getSize ev <> blocksize cfg ->
  0 <= baseAddr blk <= getAddr ev ->
  blocksize cfg < 2 ^ 32 ->
  0 <= getSize ev ->
  getAddr ev - baseAddr blk + getSize ev <= blocksize cfg ->
  Z.of_nat (length (data blk)) = blocksize cfg ->
  getSize ev <= Z.of_nat (length (getPayload ev)) ->
  let d' := take (Z.to_nat (getAddr ev - baseAddr blk)) (data blk)
            ++ take (Z.to_nat (getSize ev)) (getPayload ev)
            ++ drop (Z.to_nat (getAddr ev - baseAddr blk + getSize ev)) (data blk) in
  updateBlock cfg ev b s
    = Ok (tt, storeBlock b (set_last_touched (currentSimTime s) (set_data d' blk)) s)
  /\ length d' = length (data blk).
Proof.
  intros Hb Hne Hbase Hbs Hsz Hfit Hlen Hpay d'.
  destruct (updateBlock_data_partial cfg ev blk Hne Hbase Hbs Hsz Hfit Hlen Hpay)
    as (d & Hrun & Hd & Hl).
  fold d' in Hd. subst d. split; [|exact Hl].
  unfold updateBlock, bind. rewrite (getBlock_ok _ _ _ Hb), Hrun.
  unfold getCurrentSimTime. rewrite (modifyBlock_ok _ _ _ _ Hb). reflexivity.
Qed.

Lemma updateBlock_merges_in_place_witness :
  exists s',
    updateBlock cfg_l1 writeInside (O, O) st_exclusive = Ok (tt, s')
    /\ option_map (fun x => take 8 (data x)) (lookupBlock (O, O) s')
         = Some [0; 1; 2; 3; 200; 201; 202; 7]
    /\ option_map last_touched (lookupBlock (O, O) s') = Some 5.
Proof.
  eexists. split.
  - apply (updateBlock_merges_in_place cfg_l1 writeInside (O, O) st_exclusive exclusiveBlock
             eq_refl ltac:(discriminate) ltac:(simpl; lia) ltac:(simpl; lia)
             ltac:(simpl; lia) ltac:(simpl; lia) eq_refl ltac:(simpl; lia)).
  - split; vm_compute; reflexivity.
Defined.

(** X6.  A payload smaller than a block that starts inside the block, past
    its base, and runs beyond its end trips the assertion
    [blockoffset+i < blocksize] of the copy loop (the payload being long
    enough to reach the end of the block): the update fails, and never
    writes outside the block. *)
Theorem updateBlock_overrun_asserts (cfg : Config) (ev : MemEvent) (b : BlockRef)
    (s : Cache) (blk : CacheBlock) :
  lookupBlock b s = Some blk ->
  getSize ev <> blocksize cfg ->
  0 <= baseAddr blk < getAddr ev ->
  getAddr ev - baseAddr blk <= blocksize cfg ->
  blocksize cfg < getAddr ev - baseAddr blk + getSize ev ->
  blocksize cfg < 2 ^ 64 ->
  Z.of_nat (length (data blk)) = blocksize cfg ->
  blocksize cfg - (getAddr ev - baseAddr blk) <= Z.of_nat (length (getPayload ev)) ->
  updateBlock cfg ev b s = Err AssertFailed.
Proof.
  intros Hb Hne Hbase Hin Hover Hbs Hlen Hpay.
  unfold updateBlock, bind. rewrite (getBlock_ok _ _ _ Hb).
  rewrite (updateBlock_data_overrun cfg ev blk Hne Hbase Hin Hover Hbs Hlen Hpay).
  reflexivity.
Qed.

Lemma updateBlock_overrun_asserts_witness :
  updateBlock cfg_l1 writeSplit (O, O) st_exclusive = Err AssertFailed.
Proof.
  apply (updateBlock_overrun_asserts cfg_l1 writeSplit (O, O) st_exclusive exclusiveBlock
           eq_refl); simpl; try lia; discriminate.
Defined.

(** ** Canceling an invalidation *)

Lemma busCancelRequest_run be s :
  exists h, busCancelRequest be s = Ok (h, withdrawBusRequest be s).
Proof.
  destruct be as [e|]; [apply busCancelRequest_state|].
  exists noHandlers. reflexivity.
Qed.

(** X7.  [cancelInvalidate] on a block: without a record for the block's
    address the assertion fails; an uncancelable record is left alone and
    the answer is [false]; a cancelable one is erased, its bus request is
    withdrawn, the block is unlocked only when the record holds this very
    block, and every waiting event is re-issued, in order, through the self
    link with delay 1. *)
Theorem cancelInvalidate_outcomes (b : BlockRef) (s : Cache) (blk : CacheBlock) :
  lookupBlock b s = Some blk ->
  match invalidations s !! baseAddr blk with
  | None => cancelInvalidate b s = Err AssertFailed
  | Some i =>
      if canCancel i then
        let s1 := withdrawBusRequest (inv_busEvent i) s in
        let s2 := if bool_decide (inv_block i = Some b)
                  then storeBlock b (unlock blk) s1 else s1 in
        cancelInvalidate b s =
          Ok (true,
              set_sent (sent s ++ List.map retryLater (inv_waitingEvents i))
                (set_invalidations (delete (baseAddr blk) (invalidations s)) s2))
      else cancelInvalidate b s = Ok (false, s)
  end.
Proof.
  intros Hb. unfold cancelInvalidate. mrun. rewrite (getBlock_ok _ _ _ Hb).
  cbv beta iota.
  destruct (invalidations s !! baseAddr blk) as [i|] eqn:Hi; [|reflexivity].
  destruct (canCancel i) eqn:Hc; [|reflexivity].
  destruct (busCancelRequest_run (inv_busEvent i) s) as [h Hh]. rewrite Hh.
  cbv beta iota zeta.
  assert (Hb1 : lookupBlock b (withdrawBusRequest (inv_busEvent i) s) = Some blk).
  { destruct (inv_busEvent i); [|exact Hb]. exact Hb. }
  assert (Hinv1 : invalidations (withdrawBusRequest (inv_busEvent i) s) = invalidations s).
  { destruct (inv_busEvent i); reflexivity. }
  assert (Hsent1 : sent (withdrawBusRequest (inv_busEvent i) s) = sent s).
  { destruct (inv_busEvent i); reflexivity. }
  destruct (inv_block i) as [b'|] eqn:Hib.
  - destruct (bool_decide (b' = b)) eqn:Hd.
    + apply bool_decide_eq_true in Hd. subst b'.
      rewrite bool_decide_eq_true_2 by reflexivity.
      rewrite (modifyBlock_ok _ _ _ _ Hb1). cbv beta iota.
      unfold eraseInvalidation, modify. cbv beta iota.
      unfold retryLater. rewrite (forM_send (fun e => SendSelf 1 (RetryEvent e.1 None e.2))).
      frame_simpl. rewrite Hinv1, Hsent1. reflexivity.
    + apply bool_decide_eq_false in Hd.
      rewrite bool_decide_eq_false_2 by congruence.
      cbv beta iota. unfold eraseInvalidation, modify. cbv beta iota.
      unfold retryLater. rewrite (forM_send (fun e => SendSelf 1 (RetryEvent e.1 None e.2))).
      frame_simpl. rewrite Hinv1, Hsent1. reflexivity.
  - rewrite bool_decide_eq_false_2 by discriminate.
    cbv beta iota. unfold eraseInvalidation, modify. cbv beta iota.
    unfold retryLater. rewrite (forM_send (fun e => SendSelf 1 (RetryEvent e.1 None e.2))).
    frame_simpl. rewrite Hinv1, Hsent1. reflexivity.
Qed.

Lemma cancelInvalidate_outcomes_witness :
  exists s',
    cancelInvalidate (O, O) (st_upgrading 2) = Ok (true, s')
    /\ invalidations s' = ∅
    /\ option_map locked (lookupBlock (O, O) s') = Some 0
    /\ sent s' = [SendSelf 1 (RetryEvent upgradeWrite None UPSTREAM);
                  SendSelf 1 (RetryEvent readHit None UPSTREAM)].
Proof.
  eexists. split.
  - exact (cancelInvalidate_outcomes (O, O) (st_upgrading 2) lockedShared eq_refl).
  - repeat split; vm_compute; reflexivity.
Defined.

(** ** Incoming invalidations *)

(** X8.  An Invalidate for an address the cache holds no block for, when no
    forwarding is due: a snooped one from another component changes nothing
    and is never acknowledged; one from the downstream link, the directory
    or an upstream link is answered by exactly one ACK on the link it came
    from (an L1 never forwards an invalidate upstream, so it answers even
    before the first phase is complete). *)
Theorem handleInvalidate_miss (cfg : Config)
    (dispatch : MemEvent -> SourceType_t -> bool -> bool -> M unit)
    (ev : MemEvent) (s : Cache) :
  findBlock cfg (getAddr ev) (findBlock_emptyOK cfg) s = Ok (None, s) ->
  (getSrc ev <> getName cfg ->
   forall fu, handleInvalidate cfg dispatch ev SNOOP fu s = Ok (tt, s))
  /\ (downstream_link cfg = true ->
      forall fu, fu = true \/ isL1 s = true ->
        handleInvalidate cfg dispatch ev DOWNSTREAM fu s
          = Ok (tt, afterSending (SendDownstream (responseTo cfg ev s)) s))
  /\ (directory_link cfg = true ->
      forall fu, fu = true \/ isL1 s = true ->
        handleInvalidate cfg dispatch ev DIRECTORY fu s
          = Ok (tt, afterSending (SendDirectory (responseTo cfg ev s)) s))
  /\ (forall i, upstreamLinkMap s !! getLinkId ev = Some i ->
      (i < n_upstream cfg)%nat ->
        handleInvalidate cfg dispatch ev UPSTREAM true s
          = Ok (tt, afterSending (SendUpstream i (responseTo cfg ev s)) s)).
Proof.
  intros Hfind.
  assert (E : forall B (k : option BlockRef -> M B),
             bind (findBlock cfg (getAddr ev) (findBlock_emptyOK cfg)) k s = k None s).
  { intros B k. unfold bind. rewrite Hfind. reflexivity. }
  refine (conj _ (conj _ (conj _ _))).
  - intros Hsrc fu. unfold handleInvalidate.
    apply String.eqb_neq in Hsrc. rewrite Hsrc, andb_false_r, E.
    mrun. decide_consts. rewrite !andb_false_r. reflexivity.
  - intros Hlink fu Hfu. unfold handleInvalidate.
    decide_consts. cbn [andb]. rewrite E. mrun. cbv beta iota.
    assert (Hno : negb fu && (true || false) && negb (isL1 s) = false).
    { destruct Hfu as [-> | ->]; [reflexivity|]. rewrite andb_false_r. reflexivity. }
    decide_consts. cbn [negb]. cbv beta iota. rewrite Hno, andb_false_r. cbv beta iota.
    unfold sendInvalidateACK, bind. rewrite makeResponse_ok.
    unfold sendDownstream. rewrite Hlink. reflexivity.
  - intros Hlink fu Hfu. unfold handleInvalidate.
    decide_consts. cbn [andb]. rewrite E. mrun. cbv beta iota.
    assert (Hno : negb fu && (false || true) && negb (isL1 s) = false).
    { destruct Hfu as [-> | ->]; [reflexivity|]. rewrite andb_false_r. reflexivity. }
    decide_consts. cbn [negb]. cbv beta iota. rewrite Hno, andb_false_r. cbv beta iota.
    unfold sendInvalidateACK, bind. rewrite makeResponse_ok.
    unfold sendDirectory. rewrite Hlink. reflexivity.
  - intros i Hi Hlt. unfold handleInvalidate.
    decide_consts. cbn [andb]. rewrite E. mrun. cbv beta iota.
    decide_consts. cbn [negb andb orb]. cbv beta iota.
    unfold sendInvalidateACK, bind. rewrite makeResponse_ok.
    unfold upstreamIndexOf. cbn [upstreamLinkMap set_nextEventId]. rewrite Hi.
    unfold sendUpstream. apply Nat.ltb_lt in Hlt. rewrite Hlt. reflexivity.
Qed.

Lemma handleInvalidate_miss_witness :
  exists s',
    handleInvalidate cfg_l1 (handleIncomingEvent cfg_l1 2) invalidate512 DOWNSTREAM false
      st_exclusive = Ok (tt, s')
    /\ sent s' = [SendDownstream
                    (mkEvent (100, 0) (40, 0) ACK "l1cache" "l2cache" 512 0
                       false false false [] (-1))]
    /\ database s' = database st_exclusive.
Proof.
  eexists. split.
  - apply (proj1 (proj2 (handleInvalidate_miss cfg_l1 (handleIncomingEvent cfg_l1 2)
                           invalidate512 st_exclusive eq_refl)) eq_refl false).
    right. reflexivity.
  - split; reflexivity.
Defined.

(** ** Fetches from the directory *)

(** X9.  [handleFetch], once the lookup has run: without a directory link
    the assertion fails; for a block the cache does not hold the fetch is
    dropped without a trace; past the invalidation phase, a Shared block is
    sent to the directory in a response addressed to the requester (and
    turns Invalid for a FetchInvalidate), a Dirty block is fetched from
    upstream, and any other status aborts. *)
Theorem handleFetch_cases (cfg : Config)
    (dispatch : MemEvent -> SourceType_t -> bool -> bool -> M unit)
    (ev : MemEvent) (invalidate hasInvalidated : bool) (s : Cache)
    (block : option BlockRef) :
  findBlock cfg (getAddr ev) false s = Ok (block, s) ->
  (directory_link cfg = false ->
   handleFetch cfg dispatch ev invalidate hasInvalidated s = Err AssertFailed)
  /\ (directory_link cfg = true ->
      match block with
      | None => handleFetch cfg dispatch ev invalidate hasInvalidated s = Ok (tt, s)
      | Some b =>
          forall blk, lookupBlock b s = Some blk ->
            invalidate && negb hasInvalidated = false ->
            match status blk with
            | SHARED =>
                let resp := setPayload (data blk) (setDst (getSrc ev) (responseTo cfg ev s)) in
                let s1 := afterSending (SendDirectory resp) s in
                handleFetch cfg dispatch ev invalidate hasInvalidated s
                  = Ok (tt, if invalidate then storeBlock b (set_status INVALID blk) s1
                            else s1)
            | DIRTY =>
                handleFetch cfg dispatch ev invalidate hasInvalidated s
                  = fetchBlock cfg ev b s
            | _ =>
                handleFetch cfg dispatch ev invalidate hasInvalidated s = Err Abort
            end
      end).
Proof.
  intros Hfind.
  assert (E : forall B (k : option BlockRef -> M B),
             bind (findBlock cfg (getAddr ev) false) k s = k block s).
  { intros B k. unfold bind. rewrite Hfind. reflexivity. }
  split; intros Hdir; unfold handleFetch; rewrite E, Hdir; mrun; cbv beta iota.
  - reflexivity.
  - destruct block as [b|]; [|reflexivity].
    intros blk Hb Hphase. rewrite Hphase, (getBlock_ok _ _ _ Hb). cbv beta iota.
    destruct (status blk) eqn:Hst; try reflexivity.
    rewrite makeResponse_ok. cbv beta iota zeta.
    unfold sendDirectory. rewrite Hdir. mrun. cbv beta iota.
    destruct invalidate; [|reflexivity].
    rewrite (modifyBlock_ok b _ _ blk) by exact Hb. reflexivity.
Qed.

Lemma handleFetch_cases_witness :
  exists s',
    handleFetch cfg_dir (handleIncomingEvent cfg_dir 2) (fetch256 FetchInvalidate) true true
      st_dir_shared = Ok (tt, s')
    /\ sent s' = [SendDirectory
                    (mkEvent (100, 0) (30, 0) FetchResp "l2cache" "dir0" 256 64
                       false false false (List.map Z.of_nat (seq 0 64)) (-1))]
    /\ option_map status (lookupBlock (O, O) s') = Some INVALID.
Proof.
  eexists. split.
  - exact (proj2 (handleFetch_cases cfg_dir (handleIncomingEvent cfg_dir 2)
                    (fetch256 FetchInvalidate) true true st_dir_shared (Some (O, O)) eq_refl)
             eq_refl sharedBlock eq_refl eq_refl).
  - split; vm_compute; reflexivity.
Defined.

(** ** Loads *)

(** X10.  [initLoad] registers a load and finds it again: for a block
    address with no load waiting it allocates a record for that address,
    stamped with the event's id, and reports it as initial; a later call for
    any address within the same block returns that very record, reports it
    as not initial, and changes nothing. *)
Theorem initLoad_registers_then_finds (cfg : Config) (ev ev2 : MemEvent)
    (src src2 : SourceType_t) (s : Cache) :
  waitingLoads s !! addrToBlockAddr cfg (getAddr ev) = None ->
  addrToBlockAddr cfg (getAddr ev2) = addrToBlockAddr cfg (getAddr ev) ->
  exists s1,
    initLoad cfg ev src s = Ok ((nextLoadInfo s, true), s1)
    /\ waitingLoads s1 !! addrToBlockAddr cfg (getAddr ev) = Some (nextLoadInfo s)
    /\ loadInfos s1 !! nextLoadInfo s
         = Some (mkLoadInfo (addrToBlockAddr cfg (getAddr ev)) None None (getID ev)
                   SEND_DOWN [])
    /\ initLoad cfg ev2 src2 s1 = Ok ((nextLoadInfo s, false), s1).
Proof.
  intros Hnone Hsame.
  eexists. split.
  - unfold initLoad. mrun. rewrite Hnone. unfold newLoadInfo. mrun.
    unfold modifyLoadInfo, getLoadInfo. mrun.
    cbn [loadInfos set_waitingLoads set_nextLoadInfo set_loadInfos].
    rewrite lookup_insert_eq. reflexivity.
  - cbn [waitingLoads loadInfos set_waitingLoads set_nextLoadInfo set_loadInfos].
    rewrite insert_insert_eq, !lookup_insert_eq.
    refine (conj eq_refl (conj eq_refl _)).
    unfold initLoad. mrun. rewrite Hsame.
    cbn [waitingLoads set_loadInfos set_waitingLoads]. rewrite lookup_insert_eq.
    unfold getLoadInfo. cbn [loadInfos set_loadInfos]. rewrite lookup_insert_eq.
    cbn [li_addr set_initiatingEvent]. rewrite Z.eqb_refl. reflexivity.
Qed.

Lemma initLoad_registers_then_finds_witness :
  exists s1,
    initLoad cfg_l1 readMiss UPSTREAM st_init = Ok ((1%positive, true), s1)
    /\ initLoad cfg_l1 readSplit UPSTREAM s1 = Ok ((1%positive, false), s1).
Proof.
  destruct (initLoad_registers_then_finds cfg_l1 readMiss readSplit UPSTREAM UPSTREAM st_init
              eq_refl eq_refl) as (s1 & H1 & _ & _ & H2).
  exists s1. split; assumption.
Defined.

(** X11.  A request for a block that is already being loaded for another
    event joins that load: [loadBlock] appends it, with its source and the
    current time, to the end of the load's list, and does nothing else (no
    block is chosen, nothing is sent). *)
Theorem loadBlock_joins_waiting_load (cfg : Config)
    (dispatch : MemEvent -> SourceType_t -> bool -> bool -> M unit)
    (ev : MemEvent) (src : SourceType_t) (s : Cache) (li : LoadInfoPtr) (l : LoadInfo_t) :
  waitingLoads s !! addrToBlockAddr cfg (getAddr ev) = Some li ->
  loadInfos s !! li = Some l ->
  li_addr l = addrToBlockAddr cfg (getAddr ev) ->
  initiatingEvent l <> getID ev ->
  loadBlock cfg dispatch ev src s
    = Ok (tt, set_loadInfos
                (<[li := push_back (mkLoadElement (Some ev) src (currentSimTime s)) l]>
                   (loadInfos s)) s).
Proof.
  intros Hw Hl Haddr Hid.
  unfold loadBlock, initLoad. mrun. rewrite Hw. cbv beta iota.
  rewrite (getLoadInfo_ok _ _ _ Hl). cbv beta iota.
  rewrite Haddr, Z.eqb_refl. cbv beta iota. cbn [fst snd negb andb].
  rewrite (getLoadInfo_ok _ _ _ Hl). cbv beta iota.
  apply id_eqb_neq in Hid. rewrite Hid. cbn [negb]. cbv beta iota.
  unfold modifyLoadInfo. mrun. rewrite (getLoadInfo_ok _ _ _ Hl). reflexivity.
Qed.

Lemma loadBlock_joins_waiting_load_witness :
  exists s',
    loadBlock cfg_mid (handleIncomingEvent cfg_mid 2) lateRequest UPSTREAM st_peer_loading
      = Ok (tt, s')
    /\ option_map li_list (loadInfos s' !! 1%positive)
         = Some [mkLoadElement (Some snoopRequest) SNOOP 4;
                 mkLoadElement (Some reqUp) UPSTREAM 5;
                 mkLoadElement (Some lateRequest) UPSTREAM 5]
    /\ sent s' = [] /\ database s' = database st_peer_loading.
Proof.
  eexists. split.
  - apply (loadBlock_joins_waiting_load cfg_mid (handleIncomingEvent cfg_mid 2) lateRequest
             UPSTREAM st_peer_loading 1%positive loadForPeer eq_refl eq_refl eq_refl).
    discriminate.
  - repeat split; vm_compute; reflexivity.
Defined.

(** ** Fetching a dirty block from upstream *)

Lemma upstream_requests_run (cfg : Config) (addr : Z) :
  forall (n k : nat) (s : Cache),
    (k + n <= n_upstream cfg)%nat ->
    forM_ (seq k n) (fun i =>
        let* req := newMemEvent cfg addr RequestData in
        sendUpstream cfg i (setSize (blocksize cfg) req)) s
      = Ok (tt, set_sent
                  (sent s ++ List.map (fun i => SendUpstream i
                     (loadRequest cfg addr (nextEventId s + Z.of_nat i - Z.of_nat k)))
                     (seq k n))
                  (set_nextEventId (nextEventId s + Z.of_nat n) s)).
Proof.
  induction n as [|n IH]; intros k s Hk.
  - cbn [forM_ seq List.map]. unfold ret. destruct s as [db inv wl lis nli sip ulm sbq l1 st nid now snt];
      unfold set_sent, set_nextEventId;
      cbn [sent nextEventId database invalidations waitingLoads loadInfos nextLoadInfo
           supplyInProgress upstreamLinkMap snoopBusQueue isL1 stats currentSimTime].
    rewrite app_nil_r, Z.add_0_r. reflexivity.
  - cbn [forM_ seq List.map]. unfold bind at 1. unfold bind at 1.
    rewrite newMemEvent_ok. unfold sendUpstream at 1.
    assert (Hlt : (k <? n_upstream cfg)%nat = true) by (apply Nat.ltb_lt; lia).
    rewrite Hlt. unfold send, modify. rewrite IH by lia.
    destruct s as [db inv wl lis nli sip ulm sbq l1 st nid now snt];
      unfold set_sent, set_nextEventId;
      cbn [sent nextEventId database invalidations waitingLoads loadInfos nextLoadInfo
           supplyInProgress upstreamLinkMap snoopBusQueue isL1 stats currentSimTime].
    rewrite <- app_assoc. cbn [app].
    assert (Hmap : List.map (fun i => SendUpstream i
                     (loadRequest cfg addr (nid + 1 + Z.of_nat i - Z.of_nat (S k))))
                     (seq (S k) n)
                   = List.map (fun i => SendUpstream i
                     (loadRequest cfg addr (nid + Z.of_nat i - Z.of_nat k)))
                     (seq (S k) n)).
    { apply map_ext. intros i. do 2 f_equal. lia. }
    rewrite Hmap.
    replace (nid + Z.of_nat k - Z.of_nat k) with nid by lia.
    replace (nid + 1 + Z.of_nat n) with (nid + Z.of_nat (S n)) by lia.
    reflexivity.
Qed.

Lemma modifyLoadInfo_ok p f s l :
  loadInfos s !! p = Some l ->
  modifyLoadInfo p f s = Ok (tt, set_loadInfos (<[p := f l]> (loadInfos s)) s).
Proof. intros H. unfold modifyLoadInfo, bind. rewrite (getLoadInfo_ok _ _ _ H). reflexivity. Qed.

Lemma initLoad_fresh (cfg : Config) ev src s :
  waitingLoads s !! addrToBlockAddr cfg (getAddr ev) = None ->
  initLoad cfg ev src s =
    Ok ((nextLoadInfo s, true),
        set_loadInfos
          (<[nextLoadInfo s := mkLoadInfo (addrToBlockAddr cfg (getAddr ev)) None None
                                 (getID ev) SEND_DOWN []]> (loadInfos s))
          (set_waitingLoads
             (<[addrToBlockAddr cfg (getAddr ev) := nextLoadInfo s]> (waitingLoads s))
             (set_nextLoadInfo (Pos.succ (nextLoadInfo s)) s))).
Proof.
  intros Hnone. unfold initLoad. mrun. rewrite Hnone. unfold newLoadInfo. mrun.
  unfold modifyLoadInfo, getLoadInfo. mrun.
  cbn [loadInfos set_waitingLoads set_nextLoadInfo set_loadInfos].
  rewrite lookup_insert_eq.
  unfold set_loadInfos, set_waitingLoads, set_nextLoadInfo, set_initiatingEvent.
  cbn. rewrite insert_insert_eq. reflexivity.
Qed.

(** X12.  Fetching a Dirty block from upstream, in a cache that is not an
    L1 and has upstream links, when no load is waiting for the block:
    [fetchBlock] locks the block, ties it to a fresh upward load and
    schedules [finishLoadBlock]; when that call fires it is not skipped,
    and asks every upstream link, in order, for the whole block. *)
Theorem fetchBlock_requests_every_upstream (cfg : Config) (ev : MemEvent) (b : BlockRef)
    (s : Cache) (blk : CacheBlock) :
  lookupBlock b s = Some blk ->
  status blk = DIRTY ->
  waitingLoads s !! addrToBlockAddr cfg (getAddr ev) = None ->
  isL1 s = false ->
  (0 < n_upstream cfg)%nat ->
  exists s1 s2,
    fetchBlock cfg ev b s = Ok (tt, s1)
    /\ sent s1 = sent s ++ [SendSelf 1 (FinishLoadBlock (nextLoadInfo s) (baseAddr blk) b)]
    /\ lookupBlock b s1 = Some (lock (set_loadInfo (Some (nextLoadInfo s)) blk))
    /\ finishLoadBlock cfg (nextLoadInfo s) (baseAddr blk) b s1 = Ok (tt, s2)
    /\ sent s2 = sent s1
         ++ List.map (fun i => SendUpstream i
                        (loadRequest cfg (baseAddr blk) (nextEventId s + Z.of_nat i)))
              (seq 0 (n_upstream cfg)).
Proof.
  intros Hb Hst Hnone Hl1 Hup.
  set (p := nextLoadInfo s).
  set (l0 := mkLoadInfo (addrToBlockAddr cfg (getAddr ev)) None None (getID ev) SEND_DOWN []).
  set (l3 := push_back (mkLoadElement (Some ev) DIRECTORY (currentSimTime s))
               (set_loadDirection SEND_UP (set_targetBlock (Some b) l0))).
  set (blk1 := lock (set_loadInfo (Some p) blk)).
  assert (Hrun : exists s1,
            fetchBlock cfg ev b s = Ok (tt, s1)
            /\ sent s1 = sent s ++ [SendSelf 1 (FinishLoadBlock p (baseAddr blk) b)]
            /\ lookupBlock b s1 = Some blk1
            /\ loadInfos s1 !! p = Some l3
            /\ isL1 s1 = isL1 s /\ nextEventId s1 = nextEventId s).
  { unfold fetchBlock. unfold bind at 1. rewrite (initLoad_fresh cfg ev DIRECTORY s Hnone).
    fold p l0. cbn [fst snd negb].
    match goal with |- context [set_loadInfos ?m ?x] => set (s0 := set_loadInfos m x) end.
    assert (Hli : loadInfos s0 !! p = Some l0) by apply lookup_insert_eq.
    assert (Hb0 : lookupBlock b s0 = Some blk) by exact Hb.
    unfold bind at 1. rewrite (modifyLoadInfo_ok _ _ _ _ Hli).
    unfold bind at 1. rewrite (modifyLoadInfo_ok p _ _ (set_targetBlock (Some b) l0))
      by apply lookup_insert_eq.
    unfold bind at 1. rewrite (modifyBlock_frame b _ s0 _ blk Hb0) by reflexivity.
    unfold bind at 1.
    rewrite (modifyBlock_ok b lock _ (set_loadInfo (Some p) blk))
      by (apply (lookupBlock_storeBlock_frame b s0 _ blk); [exact Hb0 | reflexivity]).
    rewrite (storeBlock_storeBlock b _ blk) by exact Hb0.
    fold blk1.
    match goal with |- context [storeBlock b blk1 ?x] => set (sB := x) end.
    assert (HdbB : database sB = database s0) by reflexivity.
    set (sC := storeBlock b blk1 sB).
    assert (HbC : lookupBlock b sC = Some blk1)
      by (apply (lookupBlock_storeBlock_frame b s0 sB blk); assumption).
    unfold bind at 1. unfold getCurrentSimTime at 1.
    unfold bind at 1.
    rewrite (modifyLoadInfo_ok p _ _ (set_loadDirection SEND_UP (set_targetBlock (Some b) l0)))
      by (unfold sC; rewrite storeBlock_loadInfos; apply lookup_insert_eq).
    unfold bind at 1.
    rewrite (getBlock_frame b sC _ blk1 HbC) by reflexivity.
    unfold sendSelf, send, modify.
    eexists. split; [reflexivity|].
    cbn [sent loadInfos isL1 nextEventId set_sent set_loadInfos].
    unfold sC. rewrite storeBlock_sent, storeBlock_currentSimTime, storeBlock_nextEventId.
    refine (conj eq_refl (conj _ (conj _ (conj _ eq_refl)))).
    - rewrite <- HbC. apply lookupBlock_frame. reflexivity.
    - apply lookup_insert_eq.
    - unfold storeBlock. destruct (database sB !! b.1); reflexivity. }
  destruct Hrun as (s1 & Hrun & Hsent & Hblk1 & Hl3 & HisL1 & Hnext).
  assert (Hfin : finishLoadBlock cfg p (baseAddr blk) b s1 =
                 Ok (tt, set_sent
                           (sent s1 ++ List.map (fun i => SendUpstream i
                              (loadRequest cfg (baseAddr blk)
                                 (nextEventId s1 + Z.of_nat i - Z.of_nat 0)))
                              (seq 0 (n_upstream cfg)))
                           (set_nextEventId (nextEventId s1 + Z.of_nat (n_upstream cfg)) s1))).
  { unfold finishLoadBlock, bind.
    rewrite (getBlock_ok _ _ _ Hblk1), (skipsLoad_spec _ _ _ _ _ Hl3).
    assert (Hp : loadProceeds blk1 (loadDirection l3) (baseAddr blk) p = true).
    { unfold loadProceeds, blk1, l3. cbn. rewrite Hst, Z.eqb_refl.
      decide_consts. rewrite bool_decide_eq_true_2 by reflexivity. reflexivity. }
    rewrite Hp. cbn [negb].
    unfold issueLoadRequest, bind. rewrite (getLoadInfo_ok _ _ _ Hl3). unfold get.
    cbv beta iota.
    change (loadDirection l3) with SEND_UP. decide_consts. cbv beta iota.
    rewrite HisL1, Hl1. apply Nat.ltb_lt in Hup. rewrite Hup. cbn [negb andb].
    change (baseAddr blk1) with (baseAddr blk).
    apply (upstream_requests_run cfg (baseAddr blk) (n_upstream cfg) 0 s1). lia. }
  exists s1. eexists.
  refine (conj Hrun (conj Hsent (conj Hblk1 (conj Hfin _)))).
  cbn [sent set_sent]. f_equal. apply map_ext. intros i. rewrite Hnext. do 2 f_equal. lia.
Qed.

Lemma fetchBlock_requests_every_upstream_witness :
  exists s1 s2,
    fetchBlock cfg_dir (fetch256 Fetch) (O, O) st_dirty = Ok (tt, s1)
    /\ sent s1 = [SendSelf 1 (FinishLoadBlock 1%positive 256 (O, O))]
    /\ finishLoadBlock cfg_dir 1%positive 256 (O, O) s1 = Ok (tt, s2)
    /\ sent s2 = [SendSelf 1 (FinishLoadBlock 1%positive 256 (O, O));
                  SendUpstream 0
                    (mkEvent (100, 0) NO_ID RequestData "l2cache" BROADCAST_TARGET 256 64
                       false false false [] (-1))].
Proof.
  destruct (fetchBlock_requests_every_upstream cfg_dir (fetch256 Fetch) (O, O) st_dirty
              dirtyBlock eq_refl eq_refl eq_refl eq_refl ltac:(unfold n_upstream; simpl; lia))
    as (s1 & s2 & Hrun & Hsent & _ & Hfin & Hsent2).
  exists s1, s2. refine (conj Hrun (conj Hsent (conj Hfin _))).
  rewrite Hsent2, Hsent. reflexivity.
Defined.


(** ** Negative acknowledgements *)



(** ** The channel of a fill request *)

(** X14.  A load that does not fetch upward asks exactly one channel for the
    block, in a fixed order of preference: the downstream link when there
    is one; else the directory link, with the request addressed to the
    directory that owns the block; else the snoop bus, where the request is
    queued (with the next level as destination when one is named) and
    remembered in the load's record; with no channel at all nothing
    happens. *)
Theorem issueLoadRequest_channel_order (cfg : Config) (li : LoadInfoPtr) (blk : CacheBlock)
    (s : Cache) (l : LoadInfo_t) :
  loadInfos s !! li = Some l ->
  loadDirection l <> SEND_UP ->
  let req := loadRequest cfg (baseAddr blk) (nextEventId s) in
  (downstream_link cfg = true ->
   issueLoadRequest cfg li blk s = Ok (tt, afterSending (SendDownstream req) s))
  /\ (downstream_link cfg = false -> directory_link cfg = true ->
      forall dst, findTargetDirectory cfg (baseAddr blk) s = Ok (dst, s) ->
        issueLoadRequest cfg li blk s
          = Ok (tt, afterSending (SendDirectory (setDst dst req)) s))
  /\ (downstream_link cfg = false -> directory_link cfg = false -> snoop_link cfg = true ->
      let busReq := if String.eqb (next_level_name cfg) NO_NEXT_LEVEL then req
                    else setDst (next_level_name cfg) req in
      issueLoadRequest cfg li blk s
        = Ok (tt, set_snoopBusQueue
                    (snoopBusQueue s
                       ++ [(busReq, mkBusHandlers None (Some (FinishLoadBlockBus li)))])
                    (set_loadInfos (<[li := set_li_busEvent (Some busReq) l]> (loadInfos s))
                       (set_nextEventId (nextEventId s + 1) s))))
  /\ (downstream_link cfg = false -> directory_link cfg = false -> snoop_link cfg = false ->
      issueLoadRequest cfg li blk s = Ok (tt, s)).
Proof.
  intros Hl Hdir req.
  assert (Hd : bool_decide (loadDirection l = SEND_UP) = false)
    by (apply bool_decide_eq_false; exact Hdir).
  assert (E : issueLoadRequest cfg li blk s =
              (if downstream_link cfg then
                 let* r := newMemEvent cfg (baseAddr blk) RequestData in
                 sendDownstream cfg (setSize (blocksize cfg) r)
               else if directory_link cfg then
                 let* r := newMemEvent cfg (baseAddr blk) RequestData in
                 let* dst := findTargetDirectory cfg (baseAddr blk) in
                 sendDirectory cfg (setDst dst (setSize (blocksize cfg) r))
               else if snoop_link cfg then requestOnBus cfg li blk
               else ret tt) s).
  { unfold issueLoadRequest. unfold bind at 1. rewrite (getLoadInfo_ok _ _ _ Hl).
    unfold bind at 1, get at 1. rewrite Hd. reflexivity. }
  rewrite E. clear E.
  refine (conj _ (conj _ (conj _ _))).
  - intros Hdown. rewrite Hdown. unfold bind. rewrite newMemEvent_ok.
    unfold sendDownstream. rewrite Hdown. reflexivity.
  - intros Hdown Hdl dst Hdst. rewrite Hdown, Hdl. unfold bind. rewrite newMemEvent_ok.
    unfold findTargetDirectory in *.
    destruct (findTargetDirectory_in (directories cfg) (baseAddr blk)) as [n|e];
      [|discriminate Hdst].
    injection Hdst as ->. unfold sendDirectory. rewrite Hdl. reflexivity.
  - intros -> -> ->. cbv zeta. unfold requestOnBus, bind. rewrite newMemEvent_ok.
    unfold modifyLoadInfo, bind, getLoadInfo. cbn [loadInfos set_nextEventId].
    rewrite Hl. unfold modify, busRequest, modify.
    destruct (String.eqb (next_level_name cfg) NO_NEXT_LEVEL); reflexivity.
  - intros -> -> ->. reflexivity.
Qed.

Lemma issueLoadRequest_channel_order_witness :
  exists s',
    issueLoadRequest cfg_dirs 1%positive assignedBlock st_loading = Ok (tt, s')
    /\ sent s' = [SendDirectory
                    (mkEvent (100, 0) NO_ID RequestData "l2cache" "dir_low" 256 64
                       false false false [] (-1))]
    /\ snoopBusQueue s' = [].
Proof.
  eexists. split.
  - apply (proj1 (proj2 (issueLoadRequest_channel_order cfg_dirs 1%positive assignedBlock
                           st_loading load256 eq_refl ltac:(discriminate)))
             eq_refl eq_refl "dir_low"%string eq_refl).
  - split; reflexivity.
Defined.

(** ** Lookup after bookkeeping updates *)

Lemma find_index_insert_same {A} (f : A -> bool) (l : list A) c x y :
  l !! c = Some y -> f x = f y -> find_index f (<[c := x]> l) = find_index f l.
Proof.
  revert c. induction l as [|a r IH]; intros c Hc Hf; [discriminate|].
  destruct c as [|c].
  - injection Hc as Hay. subst y. change (<[O := x]> (a :: r)) with (x :: r).
    cbn [find_index]. rewrite Hf. reflexivity.
  - change (<[S c := x]> (a :: r)) with (a :: <[c := x]> r).
    cbn [find_index]. rewrite (IH c Hc Hf). reflexivity.
Qed.

Lemma find_index_take_insert {A} (f : A -> bool) (l : list A) n c x y :
  l !! c = Some y -> f x = f y ->
  find_index f (take n (<[c := x]> l)) = find_index f (take n l).
Proof.
  intros Hc Hf. destruct (Nat.lt_ge_cases c n) as [Hlt|Hge].
  - rewrite take_insert_lt by exact Hlt.
    apply (find_index_insert_same f _ c x y); [|exact Hf].
    rewrite lookup_take_lt by exact Hlt. exact Hc.
  - rewrite take_insert_ge by exact Hge. reflexivity.
Qed.

(** Lookup depends on the status and tag of the blocks only: an update of a
    block that keeps both (locking, touching, new data) leaves the result of
    [findBlock] as it was. *)
Lemma findBlock_storeBlock_same_key (cfg : Config) addr emptyOK s r b blk x :
  findBlock cfg addr emptyOK s = Ok (r, s) ->
  lookupBlock b s = Some blk ->
  status x = status blk -> tag x = tag blk ->
  findBlock cfg addr emptyOK (storeBlock b x s) = Ok (r, storeBlock b x s).
Proof.
  intros H Hb Hst Htag.
  assert (Hrows : forall r0 row, database s !! r0 = Some row ->
            exists row', database (storeBlock b x s) !! r0 = Some row'
              /\ (forall f, f x = f blk ->
                     find_index f (take (n_ways cfg) (blocks row'))
                     = find_index f (take (n_ways cfg) (blocks row)))).
  { intros r0 row Hrow. unfold lookupBlock in Hb. unfold storeBlock.
    destruct (database s !! b.1) as [rowb|] eqn:Hrb; [|discriminate].
    cbn [database set_database].
    destruct (decide (r0 = b.1)) as [Heq|Hne].
    - subst r0. assert (row = rowb) by congruence. subst rowb.
      eexists. split.
      + apply list_lookup_insert_eq. eapply lookup_lt_Some; eauto.
      + intros f Hf. cbn [blocks].
        apply (find_index_take_insert f (blocks row) (n_ways cfg) b.2 x blk Hb Hf).
    - exists row. split; [|reflexivity].
      rewrite list_lookup_insert_ne by congruence. exact Hrow. }
  revert H. unfold findBlock, findRow, getRow, bind, ASSERT, ret, fail.
  destruct (Z.land (Z.shiftr addr (rowshift cfg)) (rowmask cfg) <? n_rows cfg);
    [|discriminate].
  cbv beta iota.
  destruct (database s !! Z.to_nat (Z.land (Z.shiftr addr (rowshift cfg)) (rowmask cfg)))
    as [row|] eqn:Hrow; [|discriminate].
  cbv beta iota. rewrite Hrow. cbv beta iota.
  destruct (Hrows _ _ Hrow) as (row' & Hrow' & Hfi).
  rewrite Hrow'. cbv beta iota. rewrite Hrow'. cbv beta iota.
  rewrite (Hfi (fun b0 => isValid b0 && (tag b0 =? wrap32 (addrToTag cfg addr))))
    by (unfold isValid; rewrite Hst, Htag; reflexivity).
  rewrite (Hfi isInvalid) by (unfold isInvalid; rewrite Hst; reflexivity).
  destruct (find_index _ (take (n_ways cfg) (blocks row))) as [i|].
  - intros [= <-]. reflexivity.
  - destruct emptyOK; intros [= <-]; reflexivity.
Qed.

(** ** A request that hits *)

Lemma notify_run (fp : bool) (a : Action) (f : Stats -> Stats) (s : Cache) :
  when fp (send a ;;; bump f) s
    = Ok (tt, if fp then set_stats (f (stats s)) (set_sent (sent s ++ [a]) s) else s).
Proof. destruct fp; reflexivity. Qed.

(** X15.  A RequestData of block size that hits a block that is neither
    Dirty, nor being written back, nor awaiting invalidation, with no supply
    to that requester in progress: the supply is recorded, the block is
    locked and touched, and [supplyData] is scheduled with delay 1.  A
    second such request while that supply is in progress schedules nothing
    and leaves the blocks and the supply records alone. *)
Theorem handleCacheRequestEvent_hit_schedules_once (cfg : Config)
    (dispatch : MemEvent -> SourceType_t -> bool -> bool -> M unit)
    (ev : MemEvent) (src : SourceType_t) (fp fp2 : bool) (s : Cache)
    (b : BlockRef) (blk : CacheBlock) :
  ~ (src = SNOOP /\ getSrc ev = getName cfg) ->
  findBlock cfg (getAddr ev) false s = Ok (Some b, s) ->
  lookupBlock b s = Some blk ->
  getSize ev = blocksize cfg ->
  status blk <> DIRTY ->
  supplyActive s (baseAddr blk, src) = false ->
  invalidations s !! baseAddr blk = None ->
  wb_in_progress blk = false ->
  let notice := fun (first : bool) =>
    if first then [NotifyAccess true true (getAddr ev)] else [] in
  exists s1 s2,
    handleCacheRequestEvent cfg dispatch ev src fp s = Ok (tt, s1)
    /\ sent s1 = sent s ++ notice fp ++ [SendSelf 1 (SupplyDataEvent ev b src)]
    /\ supplyInProgress s1
         = <[(baseAddr blk, src) := mkSupplyInfo None false]> (supplyInProgress s)
    /\ lookupBlock b s1 = Some (set_last_touched (currentSimTime s) (lock blk))
    /\ handleCacheRequestEvent cfg dispatch ev src fp2 s1 = Ok (tt, s2)
    /\ sent s2 = sent s1 ++ notice fp2
    /\ supplyInProgress s2 = supplyInProgress s1
    /\ database s2 = database s1.
Proof.
  intros Hown Hfind Hb Hsz Hst Hsup Hinv Hwb notice.
  assert (Hguard : bool_decide (src = SNOOP) && String.eqb (getSrc ev) (getName cfg) = false).
  { apply andb_false_iff.
    destruct (bool_decide (src = SNOOP)) eqn:Hs; [|left; reflexivity].
    right. apply String.eqb_neq. intros Heq. apply Hown.
    apply bool_decide_eq_true in Hs. split; assumption. }
  apply Z.eqb_eq in Hsz.
  set (blk2 := set_last_touched (currentSimTime s) (lock blk)).
  set (key := (baseAddr blk, src)).
  (* the first request *)
  assert (Hrun : exists s1,
            handleCacheRequestEvent cfg dispatch ev src fp s = Ok (tt, s1)
            /\ sent s1 = sent s ++ notice fp ++ [SendSelf 1 (SupplyDataEvent ev b src)]
            /\ supplyInProgress s1 = <[key := mkSupplyInfo None false]> (supplyInProgress s)
            /\ lookupBlock b s1 = Some blk2
            /\ invalidations s1 = invalidations s
            /\ findBlock cfg (getAddr ev) false s1 = Ok (Some b, s1)).
  { unfold handleCacheRequestEvent. rewrite Hguard.
    unfold bind at 1. rewrite Hfind. rewrite Hsz. cbn [negb].
    unfold bind at 1. rewrite (getBlock_ok _ _ _ Hb).
    rewrite bool_decide_eq_false_2 by exact Hst.
    unfold bind at 1. rewrite notify_run.
    set (sF := if fp then _ else s).
    assert (HdbF : database sF = database s) by (unfold sF; destruct fp; reflexivity).
    assert (HsipF : supplyInProgress sF = supplyInProgress s)
      by (unfold sF; destruct fp; reflexivity).
    assert (HinvF : invalidations sF = invalidations s)
      by (unfold sF; destruct fp; reflexivity).
    assert (HnowF : currentSimTime sF = currentSimTime s)
      by (unfold sF; destruct fp; reflexivity).
    assert (HsentF : sent sF = sent s ++ notice fp).
    { unfold sF, notice. destruct fp; [reflexivity|]. rewrite app_nil_r. reflexivity. }
    assert (Hact : supplyActive sF key = false).
    { unfold supplyActive. rewrite HsipF. exact Hsup. }
    assert (HbF : lookupBlock b sF = Some blk)
      by (rewrite (lookupBlock_frame b s sF HdbF); exact Hb).
    unfold bind at 1, get at 1. fold key. rewrite Hact.
    unfold bind at 1, waitingForInvalidate at 1. unfold bind at 1, get at 1, ret at 1.
    rewrite HinvF, Hinv, Hwb.
    unfold bind at 1, modify at 1.
    match goal with |- context [set_supplyInProgress ?m sF] =>
      set (sG := set_supplyInProgress m sF) end.
    assert (HbG : lookupBlock b sG = Some blk) by exact HbF.
    unfold bind at 1. rewrite (modifyBlock_ok _ _ _ _ HbG).
    unfold bind at 1, touch at 1. unfold bind at 1, getCurrentSimTime at 1.
    rewrite (modifyBlock_ok b _ _ (lock blk)) by (apply (lookupBlock_storeBlock b sG blk _ HbG)).
    rewrite (storeBlock_storeBlock b sG blk) by exact HbG.
    rewrite storeBlock_currentSimTime.
    change (currentSimTime sG) with (currentSimTime sF). rewrite HnowF. fold blk2.
    unfold sendSelf, send, modify.
    eexists. split; [reflexivity|].
    cbn [sent supplyInProgress invalidations set_sent].
    rewrite storeBlock_sent, storeBlock_supplyInProgress, storeBlock_invalidations.
    change (sent sG) with (sent sF). rewrite HsentF, <- app_assoc.
    change (supplyInProgress sG) with (<[key := mkSupplyInfo None false]> (supplyInProgress sF)).
    rewrite HsipF. change (invalidations sG) with (invalidations sF).
    refine (conj eq_refl (conj eq_refl (conj _ (conj HinvF _)))).
    - rewrite (lookupBlock_frame b (storeBlock b blk2 sG)) by reflexivity.
      apply (lookupBlock_storeBlock b sG blk _ HbG).
    - apply (findBlock_frame cfg _ _ (storeBlock b blk2 sG)); [|reflexivity].
      apply (findBlock_storeBlock_same_key cfg _ _ sG (Some b) b blk blk2);
        [|exact HbG|reflexivity|reflexivity].
      apply (findBlock_frame cfg _ _ s); [exact Hfind|].
      change (database sG) with (database sF). exact HdbF. }
  destruct Hrun as (s1 & Hrun & Hsent1 & Hsip1 & Hb1 & Hinv1 & Hfind1).
  (* the second request finds the supply in progress *)
  assert (Hrun2 : handleCacheRequestEvent cfg dispatch ev src fp2 s1 =
                  Ok (tt, if fp2
                          then set_stats (inc_supply_hit (stats s1))
                                 (set_sent (sent s1 ++ [NotifyAccess true true (getAddr ev)]) s1)
                          else s1)).
  { unfold handleCacheRequestEvent. rewrite Hguard.
    unfold bind at 1. rewrite Hfind1. rewrite Hsz. cbn [negb].
    unfold bind at 1. rewrite (getBlock_ok _ _ _ Hb1).
    change (status blk2) with (status blk).
    rewrite bool_decide_eq_false_2 by exact Hst.
    unfold bind at 1. rewrite notify_run.
    set (sF := if fp2 then _ else s1).
    assert (Hact : supplyActive sF (baseAddr blk2, src) = true).
    { unfold supplyActive.
      replace (supplyInProgress sF) with (supplyInProgress s1)
        by (unfold sF; destruct fp2; reflexivity).
      rewrite Hsip1. change (baseAddr blk2, src) with key.
      rewrite lookup_insert_eq. reflexivity. }
    unfold bind at 1, get at 1. rewrite Hact. reflexivity. }
  exists s1. eexists.
  refine (conj Hrun (conj Hsent1 (conj Hsip1 (conj Hb1 (conj Hrun2 _))))).
  unfold notice. destruct fp2; cbn [sent supplyInProgress database set_stats set_sent].
  - refine (conj eq_refl (conj eq_refl eq_refl)).
  - rewrite app_nil_r. refine (conj eq_refl (conj eq_refl eq_refl)).
Qed.

Lemma handleCacheRequestEvent_hit_schedules_once_witness :
  exists s1 s2,
    handleCacheRequestEvent cfg_mid (handleIncomingEvent cfg_mid 2) reqUp UPSTREAM true
      st_dir_shared = Ok (tt, s1)
    /\ sent s1 = [NotifyAccess true true 256; SendSelf 1 (SupplyDataEvent reqUp (O, O) UPSTREAM)]
    /\ handleCacheRequestEvent cfg_mid (handleIncomingEvent cfg_mid 2) reqUp UPSTREAM true
         s1 = Ok (tt, s2)
    /\ sent s2 = sent s1 ++ [NotifyAccess true true 256]
    /\ database s2 = database s1.
Proof.
  destruct (handleCacheRequestEvent_hit_schedules_once cfg_mid (handleIncomingEvent cfg_mid 2)
              reqUp UPSTREAM true true st_dir_shared (O, O) sharedBlock
              ltac:(intros [H _]; discriminate H) eq_refl eq_refl eq_refl
              ltac:(discriminate) eq_refl eq_refl eq_refl)
    as (s1 & s2 & H1 & Hs1 & _ & _ & H2 & Hs2 & _ & Hdb).
  exists s1, s2. refine (conj H1 (conj Hs1 (conj H2 (conj Hs2 Hdb)))).
Defined.

(** ** Supplying a block *)

(** X16.  When a scheduled supply fires, [supplyData] first requires a
    supply record for (block address, requester), and fails its assertion
    without one.  With a record it releases the protocol lock taken when
    the supply was scheduled; a canceled supply is then dropped with its
    record and nothing is sent.  Otherwise, for a block that is not
    user-locked, the block's data goes out in a SupplyData event and the
    record is erased: sent downstream, the block is downgraded to Shared;
    sent to the upstream link the request came from, the block keeps its
    status. *)
Theorem supplyData_outcomes (cfg : Config) (ev : MemEvent) (b : BlockRef)
    (src : SourceType_t) (s : Cache) (blk : CacheBlock) :
  lookupBlock b s = Some blk ->
  let key := (baseAddr blk, src) in
  (supplyInProgress s !! key = None -> supplyData cfg ev b src s = Err AssertFailed)
  /\ (forall si, supplyInProgress s !! key = Some si ->
      (canceled si = true ->
       exists s', supplyData cfg ev b src s = Ok (tt, s')
         /\ sent s' = sent s /\ snoopBusQueue s' = snoopBusQueue s
         /\ supplyInProgress s' = delete key (supplyInProgress s)
         /\ lookupBlock b s' = Some (unlock blk))
      /\ (canceled si = false -> user_locked blk = 0 ->
          (src = DOWNSTREAM -> downstream_link cfg = true ->
           exists s', supplyData cfg ev b src s = Ok (tt, s')
             /\ sent s' = sent s ++ [SendDownstream (supplyResponse cfg blk s)]
             /\ supplyInProgress s' = delete key (supplyInProgress s)
             /\ lookupBlock b s' = Some (set_status SHARED (unlock blk)))
          /\ (src = UPSTREAM ->
              forall i, upstreamLinkMap s !! getLinkId ev = Some i ->
                (i < n_upstream cfg)%nat ->
                exists s', supplyData cfg ev b src s = Ok (tt, s')
                  /\ sent s' = sent s ++ [SendUpstream i (supplyResponse cfg blk s)]
                  /\ supplyInProgress s' = delete key (supplyInProgress s)
                  /\ lookupBlock b s' = Some (unlock blk)))).
Proof.
  intros Hb key.
  pose proof (lookupBlock_storeBlock b s blk (unlock blk) Hb) as Hb1.
  split.
  - intros Hnone. unfold supplyData. mrun. rewrite (getBlock_ok _ _ _ Hb). cbv beta iota.
    fold key. rewrite Hnone. reflexivity.
  - intros si Hsi. split.
    + intros Hc. eexists. split.
      * unfold supplyData. mrun. rewrite (getBlock_ok _ _ _ Hb). cbv beta iota.
        fold key. rewrite Hsi. rewrite (modifyBlock_ok _ _ _ _ Hb), Hc. reflexivity.
      * frame_simpl. refine (conj eq_refl (conj eq_refl (conj eq_refl _))).
        rewrite <- Hb1. apply lookupBlock_frame. reflexivity.
    + intros Hc Hul.
      assert (Hul' : (user_locked (unlock blk) =? 0) = true) by (apply Z.eqb_eq; exact Hul).
      assert (Hpre : forall k : MemEvent -> M unit,
                supplyData cfg ev b src s =
                  (let* resp := ret (supplyResponse cfg blk s) in
                   match src with
                   | DOWNSTREAM =>
                       sendDownstream cfg resp ;;;
                       eraseSupply key ;;;
                       when (negb (queryFlag resp F_DELAYED)) (modifyBlock b (set_status SHARED))
                   | UPSTREAM =>
                       let* i := upstreamIndexOf (getLinkId ev) in
                       sendUpstream cfg i resp ;;;
                       eraseSupply key
                   | _ => k resp
                   end) (set_nextEventId (nextEventId s + 1) (storeBlock b (unlock blk) s))
                \/ (src <> DOWNSTREAM /\ src <> UPSTREAM)).
      { intros k. destruct (decide (src = DOWNSTREAM \/ src = UPSTREAM)) as [Hs|Hs];
          [left | right; split; intros ->; apply Hs; auto].
        unfold supplyData. mrun. rewrite (getBlock_ok _ _ _ Hb). cbv beta iota.
        fold key. rewrite Hsi. rewrite (modifyBlock_ok _ _ _ _ Hb), Hc. cbv beta iota.
        rewrite (getBlock_ok _ _ _ Hb1), newMemEvent_ok, Hul'. cbn [negb]. cbv beta iota.
        rewrite storeBlock_nextEventId.
        destruct Hs as [-> | ->]; reflexivity. }
      split.
      * intros -> Hdown. destruct (Hpre (fun _ => ret tt)) as [E | [Hne _]]; [|congruence].
        rewrite E. clear E Hpre.
        eexists. split.
        -- mrun. unfold sendDownstream. rewrite Hdown. mrun. cbv beta iota.
           unfold eraseSupply. mrun. cbv beta iota.
           cbn [queryFlag supplyResponse setPayload flag_delayed negb].
           rewrite (modifyBlock_frame b _ _ _ _ Hb1) by reflexivity. reflexivity.
        -- frame_simpl. refine (conj eq_refl (conj eq_refl _)).
           apply (lookupBlock_storeBlock_frame b _ _ _ _ Hb1). reflexivity.
      * intros -> i Hi Hlt. destruct (Hpre (fun _ => ret tt)) as [E | [_ Hne]]; [|congruence].
        rewrite E. clear E Hpre.
        eexists. split.
        -- mrun. unfold upstreamIndexOf. frame_simpl. rewrite Hi. cbv beta iota.
           unfold sendUpstream. apply Nat.ltb_lt in Hlt. rewrite Hlt. mrun. reflexivity.
        -- frame_simpl. refine (conj eq_refl (conj eq_refl _)).
           rewrite <- Hb1. apply lookupBlock_frame. reflexivity.
Qed.

Lemma supplyData_outcomes_witness :
  exists s',
    supplyData cfg_mid reqUp (O, O) UPSTREAM st_supply_up = Ok (tt, s')
    /\ sent s' = [SendUpstream 0
                    (mkEvent (100, 0) NO_ID SupplyData "l2cache" BROADCAST_TARGET 256 64
                       false false false (List.map Z.of_nat (seq 0 64)) (-1))]
    /\ supplyInProgress s' = ∅
    /\ option_map (fun x => (status x, locked x)) (lookupBlock (O, O) s') = Some (SHARED, 0).
Proof.
  destruct (proj2 (supplyData_outcomes cfg_mid reqUp (O, O) UPSTREAM st_supply_up
                     lockedShared eq_refl) (mkSupplyInfo None false) eq_refl) as [_ Hplain].
  destruct (proj2 (Hplain eq_refl eq_refl) eq_refl O eq_refl
              ltac:(unfold n_upstream; simpl; lia))
    as (s' & Hrun & Hsent & Hsip & Hblk).
  exists s'. refine (conj Hrun (conj _ (conj _ _))).
  - rewrite Hsent. reflexivity.
  - rewrite Hsip. vm_compute. reflexivity.
  - rewrite Hblk. reflexivity.
Defined.

(** ** Writing a block back *)

Lemma rowIdle_frame r s s' : database s' = database s -> rowIdle r s -> rowIdle r s'.
Proof. intros Hdb (row & Hr & Hw). exists row. rewrite Hdb. split; assumption. Qed.

Lemma rowIdle_storeBlock r b x s : rowIdle r s -> rowIdle r (storeBlock b x s).
Proof.
  intros (row & Hr & Hw). unfold rowIdle, storeBlock.
  destruct (database s !! b.1) as [rowb|] eqn:Hrb; [|exists row; split; assumption].
  cbn [database set_database].
  destruct (decide (r = b.1)) as [->|Hne].
  - assert (row = rowb) by congruence. subst rowb.
    eexists. split; [apply list_lookup_insert_eq; eapply lookup_lt_Some; eauto|exact Hw].
  - exists row. rewrite list_lookup_insert_ne by congruence. split; assumption.
Qed.

Lemma handlePendingEvents_idle r block s :
  rowIdle r s -> handlePendingEvents r block s = Ok (tt, s).
Proof.
  intros (row & Hr & Hw). unfold handlePendingEvents, bind, getRow.
  rewrite Hr, Hw. reflexivity.
Qed.

Lemma findRow_stable (cfg : Config) addr r s s' :
  findRow cfg addr s = Ok (r, s) -> is_Some (database s' !! r) ->
  findRow cfg addr s' = Ok (r, s').
Proof.
  unfold findRow, bind, ASSERT, ret, fail, getRow. intros H [row' Hr'].
  destruct (Z.land (Z.shiftr addr (rowshift cfg)) (rowmask cfg) <? n_rows cfg);
    [|discriminate].
  cbv beta iota in *.
  destruct (database s !! Z.to_nat (Z.land (Z.shiftr addr (rowshift cfg)) (rowmask cfg)));
    [|discriminate].
  injection H as <-. rewrite Hr'. reflexivity.
Qed.

Lemma rowIdle_is_Some r s : rowIdle r s -> is_Some (database s !! r).
Proof. intros (row & Hr & _). exists row. exact Hr. Qed.

Lemma writebackSends_run (cfg : Config) (blk : CacheBlock) (s : Cache) :
  exists s',
    (when (downstream_link cfg)
       (let* ev := newMemEvent cfg (baseAddr blk) SupplyData in
        sendDownstream cfg (setPayload (data blk) (setFlag F_WRITEBACK ev))) ;;;
     when (directory_link cfg)
       (let* ev := newMemEvent cfg (baseAddr blk) SupplyData in
        sendDirectory cfg (setPayload (data blk) (setFlag F_WRITEBACK ev)))) s
      = Ok (tt, s')
    /\ sent s' = sent s ++ writebackSends cfg blk (nextEventId s)
    /\ database s' = database s /\ snoopBusQueue s' = snoopBusQueue s.
Proof.
  unfold writebackSends, sendDownstream, sendDirectory.
  destruct (downstream_link cfg), (directory_link cfg); eexists;
    (split; [reflexivity|]); cbn [sent database snoopBusQueue set_sent set_nextEventId];
    rewrite <- ?app_assoc, ?app_nil_r; refine (conj eq_refl (conj eq_refl eq_refl)).
Qed.

Lemma finishWritebackBlock_run (cfg : Config) b newSt (dec : bool) s blk r :
  lookupBlock b s = Some blk ->
  newSt <> INVALID ->
  findRow cfg (baseAddr blk) s = Ok (r, s) ->
  rowIdle r s ->
  let blk1 := (if dec then unlock else fun x => x) (set_wb_in_progress false blk) in
  exists s2,
    finishWritebackBlock cfg b newSt dec s = Ok (tt, s2)
    /\ lookupBlock b s2 = Some (set_status newSt blk1)
    /\ sent s2 = sent s ++ writebackSends cfg blk (nextEventId s)
    /\ snoopBusQueue s2 = snoopBusQueue s.
Proof.
  intros Hb Hnew Hrow Hidle blk1.
  pose proof (lookupBlock_storeBlock b s blk (set_wb_in_progress false blk) Hb) as Hb0.
  set (s0 := storeBlock b (set_wb_in_progress false blk) s) in *.
  assert (Hstep1 : exists sA,
            (modifyBlock b (set_wb_in_progress false) ;;;
             when dec (modifyBlock b unlock)) s = Ok (tt, sA)
            /\ lookupBlock b sA = Some blk1 /\ sent sA = sent s
            /\ nextEventId sA = nextEventId s /\ snoopBusQueue sA = snoopBusQueue s
            /\ rowIdle r sA).
  { unfold bind. rewrite (modifyBlock_ok _ _ _ _ Hb). fold s0. unfold blk1.
    destruct dec; cbn [when].
    - rewrite (modifyBlock_ok _ _ _ _ Hb0). eexists. split; [reflexivity|].
      unfold s0. frame_simpl.
      refine (conj _ (conj eq_refl (conj eq_refl (conj eq_refl _)))).
      + apply (lookupBlock_storeBlock b _ _ _ Hb0).
      + apply rowIdle_storeBlock, rowIdle_storeBlock, Hidle.
    - eexists. split; [reflexivity|]. unfold s0. frame_simpl.
      refine (conj Hb0 (conj eq_refl (conj eq_refl (conj eq_refl _)))).
      apply rowIdle_storeBlock, Hidle. }
  destruct Hstep1 as (sA & HA & HbA & HsentA & HnextA & HbusA & HidleA).
  destruct (writebackSends_run cfg blk1 sA) as (sB & HB & HsentB & HdbB & HbusB).
  assert (HbB : lookupBlock b sB = Some blk1)
    by (rewrite (lookupBlock_frame b sA sB HdbB); exact HbA).
  assert (HidleB : rowIdle r sB) by (apply (rowIdle_frame r sA sB HdbB HidleA)).
  assert (Hsends : writebackSends cfg blk1 (nextEventId sA)
                   = writebackSends cfg blk (nextEventId s)).
  { rewrite HnextA. unfold blk1. destruct dec; reflexivity. }
  assert (Hbase : baseAddr blk1 = baseAddr blk) by (unfold blk1; destruct dec; reflexivity).
  assert (Hdata : data blk1 = data blk) by (unfold blk1; destruct dec; reflexivity).
  exists (storeBlock b (set_status newSt blk1) sB).
  split.
  - unfold finishWritebackBlock.
    rewrite <- (bind_assoc (modifyBlock b (set_wb_in_progress false))
                  (fun _ => when dec (modifyBlock b unlock)) _ s).
    rewrite (bind_ok _ _ _ _ _ HA).
    unfold bind at 1. rewrite (getBlock_ok _ _ _ HbA).
    rewrite <- (bind_assoc _ (fun _ => when (directory_link cfg) _) _ sA).
    rewrite (bind_ok _ _ _ _ _ HB).
    rewrite Hbase. unfold bind at 1.
    rewrite (findRow_stable cfg _ r s sB Hrow (rowIdle_is_Some _ _ HidleB)).
    unfold bind at 1. rewrite (modifyBlock_ok _ _ _ _ HbB).
    assert (Hend : handlePendingEvents r (Some b) (storeBlock b (set_status newSt blk1) sB)
                   = Ok (tt, storeBlock b (set_status newSt blk1) sB))
      by (apply handlePendingEvents_idle, rowIdle_storeBlock, HidleB).
    destruct newSt; try exact Hend. congruence.
  - frame_simpl. rewrite HsentB, HsentA, Hsends, HbusB, HbusA.
    refine (conj _ (conj eq_refl eq_refl)).
    apply (lookupBlock_storeBlock b _ _ _ HbB).
Qed.

(** X17.  Without a snoop link, writing back a block that is not already
    being written back completes at once: a SupplyData event flagged as
    writeback and carrying the block's data goes to the downstream link and
    to the directory link (whichever exist), the block takes the new
    status, its lock count is untouched and the in-progress mark is cleared
    again.  (New status other than Invalid, no event waiting on the
    block's row.) *)
Theorem writebackBlock_direct (cfg : Config) (b : BlockRef) (newSt : BlockStatus)
    (s : Cache) (blk : CacheBlock) (r : nat) :
  lookupBlock b s = Some blk ->
  wb_in_progress blk = false ->
  snoop_link cfg = false ->
  newSt <> INVALID ->
  findRow cfg (baseAddr blk) s = Ok (r, s) ->
  rowIdle r s ->
  exists s2,
    writebackBlock cfg b newSt s = Ok (tt, s2)
    /\ lookupBlock b s2 = Some (set_status newSt blk)
    /\ sent s2 = sent s ++ writebackSends cfg blk (nextEventId s)
    /\ snoopBusQueue s2 = snoopBusQueue s.
Proof.
  intros Hb Hwb Hsnoop Hnew Hrow Hidle.
  pose proof (lookupBlock_storeBlock b s blk (set_wb_in_progress true blk) Hb) as Hb1.
  destruct (finishWritebackBlock_run cfg b newSt false
              (storeBlock b (set_wb_in_progress true blk) s) (set_wb_in_progress true blk) r
              Hb1 Hnew
              (findRow_stable cfg _ r s _ Hrow
                 (rowIdle_is_Some _ _ (rowIdle_storeBlock r b _ s Hidle)))
              (rowIdle_storeBlock r b _ s Hidle))
    as (s2 & Hrun & Hblk & Hsent & Hbus).
  exists s2. split; [|split; [|split]].
  - unfold writebackBlock. unfold bind at 1. rewrite (getBlock_ok _ _ _ Hb), Hwb, Hsnoop.
    unfold bind at 1. rewrite (modifyBlock_ok _ _ _ _ Hb). exact Hrun.
  - rewrite Hblk. f_equal. destruct blk; cbn in *. subst. reflexivity.
  - rewrite Hsent. frame_simpl. reflexivity.
  - rewrite Hbus. frame_simpl. reflexivity.
Qed.


Lemma writebackBlock_direct_witness :
  exists s2,
    writebackBlock cfg_l1 (O, O) SHARED st_exclusive = Ok (tt, s2)
    /\ lookupBlock (O, O) s2 = Some (set_status SHARED exclusiveBlock)
    /\ sent s2 = [SendDownstream
                    (mkEvent (100, 0) NO_ID SupplyData "l1cache" BROADCAST_TARGET 256 64
                       true false false (List.map Z.of_nat (seq 0 64)) (-1))].
Proof.
  destruct (writebackBlock_direct cfg_l1 (O, O) SHARED st_exclusive exclusiveBlock O
              eq_refl eq_refl eq_refl ltac:(discriminate) eq_refl
              (ex_intro _ (mkRow [exclusiveBlock; emptyBlock] ∅) (conj eq_refl eq_refl)))
    as (s2 & Hrun & Hblk & Hsent & _).
  exists s2. refine (conj Hrun (conj Hblk _)). rewrite Hsent. reflexivity.
Defined.


(** ** Supplies nobody waits for *)

(** X19.  A SupplyData event for an address with no load waiting, in a
    cache that is not INCLUSIVE.  From an upstream link it must be a
    writeback (the assertion fails otherwise) and is passed on unchanged to
    the downstream link, or else to the directory link with this cache as
    its source; with neither link the cache aborts.  From the downstream
    link, the directory, the cache itself or the prefetcher it is
    ignored. *)
Theorem handleCacheSupplyEvent_unmatched (cfg : Config)
    (d : MemEvent -> SourceType_t -> bool -> bool -> M unit) (fuel : nat)
    (ev : MemEvent) (s : Cache) :
  waitingLoads s !! getAddr ev = None ->
  cacheMode cfg <> MODE_INCLUSIVE ->
  (queryFlag ev F_WRITEBACK = false ->
   handleCacheSupplyEvent cfg d fuel ev UPSTREAM s = Err AssertFailed)
  /\ (queryFlag ev F_WRITEBACK = true ->
      handleCacheSupplyEvent cfg d fuel ev UPSTREAM s =
        if downstream_link cfg then Ok (tt, set_sent (sent s ++ [SendDownstream ev]) s)
        else if directory_link cfg
             then Ok (tt, set_sent (sent s ++ [SendDirectory (setSrc (getName cfg) ev)]) s)
             else Err Abort)
  /\ (forall src, src = DOWNSTREAM \/ src = DIRECTORY \/ src = SELF \/ src = PREFETCHER ->
      handleCacheSupplyEvent cfg d fuel ev src s = Ok (tt, s)).
Proof.
  intros Hnone Hmode.
  assert (Hm : bool_decide (cacheMode cfg = MODE_INCLUSIVE) = false)
    by (apply bool_decide_eq_false; exact Hmode).
  assert (E : forall src, src <> SNOOP ->
            handleCacheSupplyEvent cfg d fuel ev src s =
              match src with
              | SNOOP => ret tt
              | UPSTREAM =>
                  ASSERT (queryFlag ev F_WRITEBACK) ;;;
                  if downstream_link cfg then sendDownstream cfg ev
                  else if directory_link cfg then sendDirectory cfg (setSrc (getName cfg) ev)
                  else fail Abort
              | _ => ret tt
              end s).
  { intros src Hsrc. unfold handleCacheSupplyEvent.
    rewrite (bool_decide_eq_false_2 (src = SNOOP)) by exact Hsrc. cbn [andb when].
    unfold bind at 1, ret at 1. unfold bind at 1, get at 1. rewrite Hnone, Hm.
    cbn [when]. unfold bind at 1, ret at 1.
    destruct src; try reflexivity. congruence. }
  refine (conj _ (conj _ _)).
  - intros Hwb. rewrite E by discriminate. unfold bind, ASSERT. rewrite Hwb. reflexivity.
  - intros Hwb. rewrite E by discriminate. unfold bind, ASSERT. rewrite Hwb.
    unfold ret, sendDownstream, sendDirectory.
    destruct (downstream_link cfg); [reflexivity|].
    destruct (directory_link cfg); reflexivity.
  - intros src Hsrc. rewrite E by (intros ->; decompose [or] Hsrc; discriminate).
    decompose [or] Hsrc; subst src; reflexivity.
Qed.

Lemma handleCacheSupplyEvent_unmatched_witness :
  handleCacheSupplyEvent cfg_mid (handleIncomingEvent cfg_mid 2) 3 writebackFromAbove
    UPSTREAM st_dir_shared
    = Ok (tt, set_sent [SendDownstream writebackFromAbove] st_dir_shared).
Proof.
  exact (proj1 (proj2 (handleCacheSupplyEvent_unmatched cfg_mid (handleIncomingEvent cfg_mid 2)
                         3 writebackFromAbove st_dir_shared eq_refl ltac:(discriminate)))
           eq_refl).
Defined.

(** ** Invalidations that meet a block *)

Lemma own_snoop_guard (cfg : Config) (ev : MemEvent) (src : SourceType_t) :
  ~ (src = SNOOP /\ getSrc ev = getName cfg) ->
  bool_decide (src = SNOOP) && String.eqb (getSrc ev) (getName cfg) = false.
Proof.
  intros Hown. apply andb_false_iff.
  destruct (bool_decide (src = SNOOP)) eqn:Hs; [|left; reflexivity].
  right. apply String.eqb_neq. intros Heq. apply Hown.
  apply bool_decide_eq_true in Hs. split; assumption.
Qed.

(** X20.  An Invalidate (not the cache's own, seen on the bus) that finds a
    block for which an invalidation is in progress that may not be
    canceled is put off: it is rescheduled on the self link with delay 2,
    and nothing else changes. *)
Theorem handleInvalidate_waits_for_firm_invalidation (cfg : Config)
    (d : MemEvent -> SourceType_t -> bool -> bool -> M unit)
    (ev : MemEvent) (src : SourceType_t) (fu : bool) (s : Cache)
    (b : BlockRef) (blk : CacheBlock) (i : Invalidation) :
  ~ (src = SNOOP /\ getSrc ev = getName cfg) ->
  findBlock cfg (getAddr ev) (findBlock_emptyOK cfg) s = Ok (Some b, s) ->
  lookupBlock b s = Some blk ->
  invalidations s !! baseAddr blk = Some i ->
  canCancel i = false ->
  handleInvalidate cfg d ev src fu s
    = Ok (tt, set_sent (sent s ++ [SendSelf 2 (RetryEvent ev None src)]) s).
Proof.
  intros Hown Hfind Hb Hi Hc.
  unfold handleInvalidate. rewrite (own_snoop_guard cfg ev src Hown).
  unfold bind at 1. rewrite Hfind.
  unfold bind at 1. unfold bind at 1. rewrite (getBlock_ok _ _ _ Hb).
  unfold bind at 1, waitingForInvalidate at 1. unfold bind at 1, get at 1, ret at 1.
  rewrite Hi. unfold cancelInvalidate. unfold bind at 1. rewrite (getBlock_ok _ _ _ Hb).
  unfold bind at 1, get at 1. rewrite Hi, Hc. reflexivity.
Qed.

Lemma handleInvalidate_waits_for_firm_invalidation_witness :
  handleInvalidate cfg_l1 (handleIncomingEvent cfg_l1 2) invalidate256 DOWNSTREAM false
    st_upgrading_firm
    = Ok (tt, set_sent [SendSelf 2 (RetryEvent invalidate256 None DOWNSTREAM)]
                st_upgrading_firm).
Proof.
  apply (handleInvalidate_waits_for_firm_invalidation cfg_l1 (handleIncomingEvent cfg_l1 2)
           invalidate256 DOWNSTREAM false st_upgrading_firm (O, O) lockedShared
           (mkInvalidation 1 [(upgradeWrite, UPSTREAM)] (90, 0) None (Some (O, O))
              EXCLUSIVE false));
    try reflexivity.
  intros [H _]. discriminate H.
Defined.

Lemma cancelSupply_absent key s :
  supplyInProgress s !! key = None -> cancelSupply key s = Ok (tt, s).
Proof. intros H. unfold cancelSupply, bind, get. rewrite H. reflexivity. Qed.

Lemma handleInvalidate_shared_run (cfg : Config)
    (d : MemEvent -> SourceType_t -> bool -> bool -> M unit)
    (ev : MemEvent) (src : SourceType_t) (fu : bool) (s sC : Cache)
    (b : BlockRef) (blk : CacheBlock) (r : nat) :
  ~ (src = SNOOP /\ getSrc ev = getName cfg) ->
  findBlock cfg (getAddr ev) (findBlock_emptyOK cfg) s = Ok (Some b, s) ->
  lookupBlock b s = Some blk ->
  status blk = SHARED ->
  invalidations s !! baseAddr blk = None ->
  fu = true \/ src = SNOOP \/ ((src = DOWNSTREAM \/ src = DIRECTORY) /\ isL1 s = true) ->
  findRow cfg (baseAddr blk) s = Ok (r, s) ->
  rowIdle r s ->
  cancelSupply (baseAddr blk, SNOOP) s = Ok (tt, sC) ->
  database sC = database s ->
  let s1 := storeBlock b (set_status (invalidatedStatus cfg src) blk) sC in
  handleInvalidate cfg d ev src fu s
    = (if bool_decide (src = SNOOP) then Ok (tt, s1) else sendInvalidateACK cfg ev src s1).
Proof.
  intros Hown Hfind Hb Hst Hinv Hphase Hrow Hidle Hcancel HdbC s1.
  assert (HbC : lookupBlock b sC = Some blk)
    by (rewrite (lookupBlock_frame b s sC HdbC); exact Hb).
  assert (HidleC : rowIdle r sC) by (apply (rowIdle_frame r s sC HdbC Hidle)).
  unfold handleInvalidate. rewrite (own_snoop_guard cfg ev src Hown).
  unfold bind at 1. rewrite Hfind.
  unfold bind at 1. unfold bind at 1. rewrite (getBlock_ok _ _ _ Hb).
  unfold bind at 1, waitingForInvalidate at 1. unfold bind at 1, get at 1, ret at 1.
  rewrite Hinv. unfold ret at 1. cbn [negb].
  unfold bind at 1, get at 1.
  assert (Hfwd1 : negb fu && (bool_decide (src = DOWNSTREAM) || bool_decide (src = DIRECTORY))
                  && negb (isL1 s) = false).
  { destruct Hphase as [-> | [-> | [_ ->]]]; [reflexivity | | ].
    - decide_consts. cbn. rewrite andb_false_r. reflexivity.
    - rewrite andb_false_r. reflexivity. }
  assert (Hfwd2 : negb fu && bool_decide (src = UPSTREAM) = false).
  { destruct Hphase as [-> | [-> | [[-> | ->] _]]]; [reflexivity | | | ];
      decide_consts; apply andb_false_r. }
  rewrite Hfwd1, Hfwd2.
  unfold bind at 1. unfold bind at 1. rewrite (getBlock_ok _ _ _ Hb).
  rewrite (bool_decide_eq_true_2 (status blk = SHARED)) by exact Hst. cbn [when].
  unfold bind at 1. unfold bind at 1. rewrite Hcancel.
  assert (Hmod : (if bool_decide (cacheMode cfg = MODE_INCLUSIVE)
                     && negb (bool_decide (src = DOWNSTREAM))
                     && negb (bool_decide (src = DIRECTORY))
                  then modifyBlock b (set_status DIRTY)
                  else modifyBlock b (set_status INVALID)) sC = Ok (tt, s1)).
  { unfold s1, invalidatedStatus.
    destruct (bool_decide (cacheMode cfg = MODE_INCLUSIVE)
              && negb (bool_decide (src = DOWNSTREAM))
              && negb (bool_decide (src = DIRECTORY)));
      apply (modifyBlock_ok _ _ _ _ HbC). }
  unfold bind at 1. rewrite Hmod.
  assert (Hidle1 : rowIdle r s1) by (apply rowIdle_storeBlock, HidleC).
  unfold bind at 1.
  rewrite (findRow_stable cfg _ r s s1 Hrow (rowIdle_is_Some _ _ Hidle1)).
  rewrite (handlePendingEvents_idle r None s1 Hidle1).
  unfold bind at 1.
  rewrite (getBlock_ok b s1 (set_status (invalidatedStatus cfg src) blk))
    by (apply (lookupBlock_storeBlock b sC blk _ HbC)).
  assert (Hne : bool_decide (status (set_status (invalidatedStatus cfg src) blk) = EXCLUSIVE)
                = false).
  { apply bool_decide_eq_false. cbn [status set_status]. unfold invalidatedStatus.
    match goal with |- (if ?c then _ else _) <> _ => destruct c end; discriminate. }
  rewrite Hne. unfold ret at 1.
  destruct (bool_decide (src = SNOOP)); reflexivity.
Qed.

(** X21.  An Invalidate in its final phase (nothing left to forward) that
    finds a Shared block with no invalidation in progress and no supply
    over the bus pending: the block loses its data, turning Invalid, or
    Dirty in an INCLUSIVE cache invalidated from above or over the bus;
    then the invalidation is acknowledged on the link it came from, and
    never when it was snooped.  (No event waiting on the block's row.) *)
Theorem handleInvalidate_shared_block (cfg : Config)
    (d : MemEvent -> SourceType_t -> bool -> bool -> M unit)
    (ev : MemEvent) (src : SourceType_t) (fu : bool) (s : Cache)
    (b : BlockRef) (blk : CacheBlock) (r : nat) :
  ~ (src = SNOOP /\ getSrc ev = getName cfg) ->
  findBlock cfg (getAddr ev) (findBlock_emptyOK cfg) s = Ok (Some b, s) ->
  lookupBlock b s = Some blk ->
  status blk = SHARED ->
  invalidations s !! baseAddr blk = None ->
  supplyInProgress s !! (baseAddr blk, SNOOP) = None ->
  fu = true \/ src = SNOOP \/ ((src = DOWNSTREAM \/ src = DIRECTORY) /\ isL1 s = true) ->
  findRow cfg (baseAddr blk) s = Ok (r, s) ->
  rowIdle r s ->
  let s1 := storeBlock b (set_status (invalidatedStatus cfg src) blk) s in
  handleInvalidate cfg d ev src fu s
    = (if bool_decide (src = SNOOP) then Ok (tt, s1) else sendInvalidateACK cfg ev src s1).
Proof.
  intros Hown Hfind Hb Hst Hinv Hsup Hphase Hrow Hidle.
  exact (handleInvalidate_shared_run cfg d ev src fu s s b blk r Hown Hfind Hb Hst Hinv
           Hphase Hrow Hidle (cancelSupply_absent _ _ Hsup) eq_refl).
Qed.

Lemma handleInvalidate_shared_block_witness :
  exists s',
    handleInvalidate cfg_l1 (handleIncomingEvent cfg_l1 2) invalidate256 DOWNSTREAM false
      st_shared = Ok (tt, s')
    /\ option_map status (lookupBlock (O, O) s') = Some INVALID
    /\ sent s' = [SendDownstream
                    (mkEvent (100, 0) (41, 0) ACK "l1cache" "l2cache" 256 0
                       false false false [] (-1))].
Proof.
  eexists. split.
  - rewrite (handleInvalidate_shared_block cfg_l1 (handleIncomingEvent cfg_l1 2)
               invalidate256 DOWNSTREAM false st_shared (O, O) sharedBlock O
               ltac:(intros [H _]; discriminate H) eq_refl eq_refl eq_refl eq_refl eq_refl
               ltac:(right; right; split; [left|]; reflexivity) eq_refl
               (ex_intro _ (mkRow [sharedBlock; emptyBlock] ∅) (conj eq_refl eq_refl))).
    reflexivity.
  - split; vm_compute; reflexivity.
Defined.

(** ** A CPU read that hits *)

Lemma makeCPUResponse_read (cfg : Config) ev b src s blk :
  lookupBlock b s = Some blk ->
  getCmd ev = ReadReq ->
  0 <= baseAddr blk <= getAddr ev ->
  0 <= getSize ev ->
  getAddr ev - baseAddr blk + getSize ev <= blocksize cfg ->
  blocksize cfg < 2 ^ 64 ->
  Z.of_nat (length (data blk)) = blocksize cfg ->
  makeCPUResponse cfg ev b src s
    = Ok (readResponse cfg ev blk s, set_nextEventId (nextEventId s + 1) s).
Proof.
  intros Hb Hcmd Hbase Hsz Hfit Hbs Hlen.
  assert (Hoff : wrap64 (getAddr ev - baseAddr blk) = getAddr ev - baseAddr blk).
  { apply wrap64_small. unfold is_u64. lia. }
  assert (Hend : wrap64 (getAddr ev - baseAddr blk + getSize ev)
                 = getAddr ev - baseAddr blk + getSize ev).
  { apply wrap64_small. unfold is_u64. lia. }
  unfold makeCPUResponse, bind.
  rewrite (getBlock_ok _ _ _ Hb), Hoff, Hend.
  assert (Hcmp : (blocksize cfg <? getAddr ev - baseAddr blk + getSize ev) = false)
    by (apply Z.ltb_ge; lia).
  assert (Hin : (Z.to_nat (getAddr ev - baseAddr blk) + Z.to_nat (getSize ev)
                 <=? length (data blk))%nat = true) by (apply Nat.leb_le; lia).
  rewrite Hcmp, makeResponse_ok, Hin. unfold readResponse, responseTo.
  rewrite Hcmd. reflexivity.
Qed.

Lemma read_hit_run (cfg : Config)
    (d : MemEvent -> SourceType_t -> bool -> bool -> M unit)
    (ev : MemEvent) (fp : bool) (s : Cache) (b : BlockRef) (blk : CacheBlock) :
  getCmd ev = ReadReq ->
  queryFlag ev F_LOCKED = false ->
  findBlock cfg (getAddr ev) false s = Ok (Some b, s) ->
  lookupBlock b s = Some blk ->
  invalidations s !! baseAddr blk = None ->
  0 <= baseAddr blk <= getAddr ev ->
  0 <= getSize ev ->
  getAddr ev - baseAddr blk + getSize ev <= blocksize cfg ->
  blocksize cfg < 2 ^ 64 ->
  Z.of_nat (length (data blk)) = blocksize cfg ->
  exists s1,
    handleCPURequest cfg d ev fp s = Ok (tt, s1)
    /\ isL1 s1 = true
    /\ stats s1 = (if fp then inc_read_hit (stats s) else stats s)
    /\ lookupBlock b s1 = Some (set_last_touched (currentSimTime s) blk)
    /\ sent s1 = sent s ++ (if fp then [NotifyAccess true true (getAddr ev)] else [])
                   ++ [SendSelf 1 (SendCPUResponse (readResponse cfg ev blk s) b UPSTREAM)]
    /\ forall r, rowIdle r s -> rowIdle r s1.
Proof.
  intros Hcmd Hlk Hfind Hb Hinv Hbase Hsz Hfit Hbs Hlen.
  unfold handleCPURequest, checkLockedWrite. rewrite Hcmd, Hlk.
  decide_consts. cbn [orb negb andb]. mrun.
  rewrite (findBlock_frame cfg _ _ s (set_isL1 true s) _ Hfind eq_refl).
  destruct fp; mrun;
    rewrite (getBlock_frame b s _ blk Hb) by reflexivity;
    unfold waitingForInvalidate; mrun; cbn [invalidations set_stats set_sent set_isL1];
    rewrite Hinv;
    unfold respondToCPU; mrun;
    (rewrite (makeCPUResponse_read cfg ev b UPSTREAM _ blk)
       by (try assumption; rewrite <- Hb; apply lookupBlock_frame; reflexivity));
    unfold touch, modifyBlock; mrun;
    rewrite (getBlock_frame b s _ blk Hb) by reflexivity;
    (eexists; split; [reflexivity|]);
    frame_simpl; rewrite ?storeBlock_currentSimTime;
    cbn [isL1 stats currentSimTime set_sent set_nextEventId set_stats set_isL1 app];
    (refine (conj _ (conj _ (conj _ (conj _ _))));
     [ unfold storeBlock; match goal with |- context [database ?x !! _] =>
         destruct (database x !! b.1) end; reflexivity
     | unfold storeBlock; match goal with |- context [database ?x !! _] =>
         destruct (database x !! b.1) end; reflexivity
     | apply (lookupBlock_storeBlock_frame b s _ blk _ Hb); reflexivity
     | try rewrite <- app_assoc; reflexivity
     | intros r Hidle; apply rowIdle_storeBlock;
       apply (rowIdle_frame r s); [reflexivity | exact Hidle] ]).
Qed.

(** X22.  A CPU read without the lock flag that hits a block with no
    invalidation in progress, and lies within the block: the cache marks
    itself an L1, counts and reports the hit on first processing, touches
    the block, and schedules (delay 1) the response that carries the bytes
    asked for.  When that self event fires, the response leaves on
    upstream link 0.  (No event waiting on the row of the address.) *)
Theorem handleCPURequest_read_hit_responds (cfg : Config)
    (d : MemEvent -> SourceType_t -> bool -> bool -> M unit)
    (ev : MemEvent) (fp : bool) (s : Cache) (b : BlockRef) (blk : CacheBlock) (r : nat) :
  getCmd ev = ReadReq ->
  queryFlag ev F_LOCKED = false ->
  findBlock cfg (getAddr ev) false s = Ok (Some b, s) ->
  lookupBlock b s = Some blk ->
  invalidations s !! baseAddr blk = None ->
  0 <= baseAddr blk <= getAddr ev ->
  0 <= getSize ev ->
  getAddr ev - baseAddr blk + getSize ev <= blocksize cfg ->
  blocksize cfg < 2 ^ 64 ->
  Z.of_nat (length (data blk)) = blocksize cfg ->
  (0 < n_upstream cfg)%nat ->
  findRow cfg (getAddr ev) s = Ok (r, s) ->
  rowIdle r s ->
  let resp := readResponse cfg ev blk s in
  exists s1 s2,
    handleCPURequest cfg d ev fp s = Ok (tt, s1)
    /\ isL1 s1 = true
    /\ stats s1 = (if fp then inc_read_hit (stats s) else stats s)
    /\ lookupBlock b s1 = Some (set_last_touched (currentSimTime s) blk)
    /\ sent s1 = sent s ++ (if fp then [NotifyAccess true true (getAddr ev)] else [])
                   ++ [SendSelf 1 (SendCPUResponse resp b UPSTREAM)]
    /\ sendCPUResponse cfg resp b UPSTREAM s1 = Ok (tt, s2)
    /\ sent s2 = sent s1 ++ [SendUpstream 0 resp].
Proof.
  intros Hcmd Hlk Hfind Hb Hinv Hbase Hsz Hfit Hbs Hlen Hup Hrow Hidle resp.
  destruct (read_hit_run cfg d ev fp s b blk Hcmd Hlk Hfind Hb Hinv Hbase Hsz Hfit Hbs Hlen)
    as (s1 & Hrun & HL1 & Hstats & Hblk & Hsent & Hidle1).
  specialize (Hidle1 r Hidle).
  exists s1. eexists.
  refine (conj Hrun (conj HL1 (conj Hstats (conj Hblk (conj Hsent _))))).
  unfold sendCPUResponse, bind, sendUpstream.
  apply Nat.ltb_lt in Hup. rewrite Hup. unfold send, modify.
  change (getAddr resp) with (getAddr ev).
  rewrite (findRow_stable cfg _ r s _ Hrow)
    by (apply rowIdle_is_Some; apply (rowIdle_frame r s1); [reflexivity | exact Hidle1]).
  rewrite handlePendingEvents_idle
    by (apply (rowIdle_frame r s1); [reflexivity | exact Hidle1]).
  split; reflexivity.
Qed.

Lemma handleCPURequest_read_hit_responds_witness :
  exists s1 s2 resp,
    handleCPURequest cfg_l1 (handleIncomingEvent cfg_l1 2) readHit true st_shared = Ok (tt, s1)
    /\ sent s1 = [NotifyAccess true true 264; SendSelf 1 (SendCPUResponse resp (O, O) UPSTREAM)]
    /\ getPayload resp = [8; 9; 10; 11]
    /\ sendCPUResponse cfg_l1 resp (O, O) UPSTREAM s1 = Ok (tt, s2)
    /\ sent s2 = sent s1 ++ [SendUpstream 0 resp].
Proof.
  destruct (handleCPURequest_read_hit_responds cfg_l1 (handleIncomingEvent cfg_l1 2) readHit
              true st_shared (O, O) sharedBlock O eq_refl eq_refl eq_refl eq_refl eq_refl
              ltac:(simpl; lia) ltac:(simpl; lia) ltac:(simpl; lia) ltac:(simpl; lia)
              eq_refl ltac:(unfold n_upstream; simpl; lia) eq_refl
              (ex_intro _ (mkRow [sharedBlock; emptyBlock] ∅) (conj eq_refl eq_refl)))
    as (s1 & s2 & Hrun & _ & _ & _ & Hsent & Hfire & Hsent2).
  exists s1, s2, (readResponse cfg_l1 readHit sharedBlock st_shared).
  refine (conj Hrun (conj _ (conj eq_refl (conj Hfire Hsent2)))).
  rewrite Hsent. reflexivity.
Defined.


(** ** A CPU write that hits, and the read that follows *)

Lemma makeCPUResponse_write (cfg : Config) ev b src s blk :
  lookupBlock b s = Some blk ->
  getCmd ev = WriteReq ->
  0 <= baseAddr blk <= getAddr ev ->
  0 <= getSize ev ->
  getAddr ev - baseAddr blk + getSize ev <= blocksize cfg ->
  blocksize cfg < 2 ^ 64 ->
  makeCPUResponse cfg ev b src s
    = Ok (responseTo cfg ev s, set_nextEventId (nextEventId s + 1) s).
Proof.
  intros Hb Hcmd Hbase Hsz Hfit Hbs.
  assert (Hoff : wrap64 (getAddr ev - baseAddr blk) = getAddr ev - baseAddr blk).
  { apply wrap64_small. unfold is_u64. lia. }
  assert (Hend : wrap64 (getAddr ev - baseAddr blk + getSize ev)
                 = getAddr ev - baseAddr blk + getSize ev).
  { apply wrap64_small. unfold is_u64. lia. }
  unfold makeCPUResponse, bind.
  rewrite (getBlock_ok _ _ _ Hb), Hoff, Hend.
  assert (Hcmp : (blocksize cfg <? getAddr ev - baseAddr blk + getSize ev) = false)
    by (apply Z.ltb_ge; lia).
  rewrite Hcmp, makeResponse_ok. unfold responseTo.
  rewrite (bool_decide_eq_false_2 (getCmd ev = ReadReq)) by (rewrite Hcmd; discriminate).
  reflexivity.
Qed.

(** The block just stored is the block found, below any update of the
    counters and of the trace. *)
Ltac lookup_stored Hb :=
  match goal with
  | |- lookupBlock ?b _ = Some ?x =>
      first
        [ apply (lookupBlock_storeBlock_frame b _ _ _ x Hb); reflexivity
        | etransitivity;
          [ apply (lookupBlock_frame b (storeBlock b x _)); reflexivity
          | apply (lookupBlock_storeBlock_frame b _ _ _ x Hb); reflexivity ] ]
  end.

Lemma write_hit_run (cfg : Config)
    (d : MemEvent -> SourceType_t -> bool -> bool -> M unit)
    (ev : MemEvent) (fp : bool) (s : Cache) (b : BlockRef) (blk : CacheBlock)
    (dnew : list Z) :
  getCmd ev = WriteReq ->
  queryFlag ev F_LOCKED = false ->
  findBlock cfg (getAddr ev) false s = Ok (Some b, s) ->
  lookupBlock b s = Some blk ->
  status blk = EXCLUSIVE ->
  updateBlock_data cfg ev blk = Ok dnew ->
  0 <= baseAddr blk <= getAddr ev ->
  0 <= getSize ev ->
  getAddr ev - baseAddr blk + getSize ev <= blocksize cfg ->
  blocksize cfg < 2 ^ 64 ->
  let blk1 := set_last_touched (currentSimTime s) (set_data dnew blk) in
  exists s1,
    handleCPURequest cfg d ev fp s = Ok (tt, s1)
    /\ lookupBlock b s1 = Some blk1
    /\ findBlock cfg (getAddr ev) false s1 = Ok (Some b, s1)
    /\ invalidations s1 = invalidations s
    /\ sent s1 = sent s ++ (if fp then [NotifyAccess false true (getAddr ev)] else [])
                   ++ [SendSelf 1 (SendCPUResponse
                                     (responseTo cfg ev s) b UPSTREAM)].
Proof.
  intros Hcmd Hlk Hfind Hb Hst Hupd Hbase Hsz Hfit Hbs blk1.
  pose proof (lookupBlock_storeBlock b s blk blk1 Hb) as Hb1.
  unfold handleCPURequest, checkLockedWrite. rewrite Hcmd, Hlk.
  decide_consts. cbn [orb negb andb]. mrun.
  rewrite (findBlock_frame cfg _ _ s (set_isL1 true s) _ Hfind eq_refl).
  destruct fp; mrun;
    rewrite (getBlock_frame b s _ blk Hb) by reflexivity;
    rewrite (bool_decide_eq_true_2 (status blk = EXCLUSIVE)) by exact Hst;
    unfold updateBlock; mrun;
    rewrite (getBlock_frame b s _ blk Hb) by reflexivity;
    rewrite Hupd; unfold modifyBlock; mrun;
    rewrite (getBlock_frame b s _ blk Hb) by reflexivity;
    cbn [currentSimTime set_stats set_sent set_isL1]; fold blk1;
    unfold respondToCPU; mrun;
    (rewrite (makeCPUResponse_write cfg ev b UPSTREAM _ blk1)
       by (try assumption; lookup_stored Hb));
    cbv beta iota;
    (rewrite (getBlock_ok b _ blk1) by lookup_stored Hb);
    rewrite andb_false_r; cbv beta iota;
    unfold touch, modifyBlock; mrun;
    (rewrite (getBlock_ok b _ blk1) by lookup_stored Hb);
    (eexists; split; [reflexivity|]);
    frame_simpl; rewrite ?storeBlock_currentSimTime;
    cbn [currentSimTime set_sent set_nextEventId set_stats set_isL1 app];
    unfold responseTo; rewrite ?storeBlock_nextEventId;
    cbn [nextEventId set_sent set_nextEventId set_stats set_isL1];
    rewrite ?storeBlock_currentSimTime;
    cbn [currentSimTime set_sent set_nextEventId set_stats set_isL1];
    change (set_last_touched (currentSimTime s) blk1) with blk1;
    (refine (conj _ (conj _ (conj eq_refl _)));
     [ apply (lookupBlock_storeBlock b _ blk1 blk1); lookup_stored Hb
     | apply (findBlock_storeBlock_same_key cfg _ _ _ _ b blk1 blk1);
       [ | lookup_stored Hb | reflexivity | reflexivity ];
       match goal with |- findBlock _ _ _ ?st = _ =>
         match st with context [storeBlock b blk1 ?y] =>
           apply (findBlock_frame cfg _ _ (storeBlock b blk1 y)); [|reflexivity];
           apply (findBlock_storeBlock_same_key cfg _ _ y _ b blk blk1);
             [ apply (findBlock_frame cfg _ _ s); [exact Hfind | reflexivity]
             | exact Hb | reflexivity | reflexivity ]
         end
       end
     | try rewrite <- app_assoc; reflexivity ]).
Qed.

Lemma written_range_read_back {A} (d p : list A) (off n : nat) :
  (off <= length d)%nat -> (n <= length p)%nat ->
  take n (drop off (take off d ++ take n p ++ drop (off + n) d)) = take n p.
Proof.
  intros Hoff Hn.
  rewrite (drop_app_length' (take off d)) by (rewrite length_take; lia).
  rewrite (take_app_length' (take n p)) by (rewrite length_take; lia).
  reflexivity.
Qed.

(** X23.  What a CPU write puts into an Exclusive block, a read of the same
    range gets back.  A write without the lock flag, smaller than a block
    and lying within the block it hits, is merged into the block and
    answered; a read of the same address and size that follows it (no
    invalidation in progress) is answered, as the last thing the cache
    schedules, by a ReadResp whose payload is the bytes just written. *)
Theorem cpu_write_then_read_returns_written (cfg : Config)
    (d : MemEvent -> SourceType_t -> bool -> bool -> M unit)
    (w rd : MemEvent) (fp fp' : bool) (s : Cache) (b : BlockRef) (blk : CacheBlock) :
  getCmd w = WriteReq -> queryFlag w F_LOCKED = false ->
  getCmd rd = ReadReq -> queryFlag rd F_LOCKED = false ->
  getAddr rd = getAddr w -> getSize rd = getSize w ->
  findBlock cfg (getAddr w) false s = Ok (Some b, s) ->
  lookupBlock b s = Some blk ->
  status blk = EXCLUSIVE ->
  invalidations s !! baseAddr blk = None ->
  getSize w <> blocksize cfg ->
  0 <= baseAddr blk <= getAddr w ->
  blocksize cfg < 2 ^ 32 ->
  0 <= getSize w ->
  getAddr w - baseAddr blk + getSize w <= blocksize cfg ->
  Z.of_nat (length (data blk)) = blocksize cfg ->
  getSize w <= Z.of_nat (length (getPayload w)) ->
  exists s1 s2 resp,
    handleCPURequest cfg d w fp s = Ok (tt, s1)
    /\ handleCPURequest cfg d rd fp' s1 = Ok (tt, s2)
    /\ last (sent s2) = Some (SendSelf 1 (SendCPUResponse resp b UPSTREAM))
    /\ getResponseToID resp = getID rd
    /\ getCmd resp = ReadResp
    /\ getPayload resp = take (Z.to_nat (getSize w)) (getPayload w).
Proof.
  intros Hcw Hlw Hcr Hlr Haddr Hsize Hfind Hb Hst Hinv Hne Hbase Hbs Hsz Hfit Hlen Hpay.
  destruct (updateBlock_data_partial cfg w blk Hne Hbase Hbs Hsz Hfit Hlen Hpay)
    as (dnew & Hupd & Hd & Hl).
  destruct (write_hit_run cfg d w fp s b blk dnew Hcw Hlw Hfind Hb Hst Hupd Hbase Hsz Hfit
              ltac:(lia))
    as (s1 & Hrun1 & Hb1 & Hfind1 & Hinv1 & _).
  set (blk1 := set_last_touched (currentSimTime s) (set_data dnew blk)) in *.
  rewrite <- Haddr in Hfind1.
  destruct (read_hit_run cfg d rd fp' s1 b blk1 Hcr Hlr Hfind1 Hb1
              ltac:(rewrite Hinv1; exact Hinv)
              ltac:(rewrite Haddr; exact Hbase)
              ltac:(rewrite Hsize; exact Hsz)
              ltac:(rewrite Haddr, Hsize; exact Hfit)
              ltac:(lia)
              ltac:(cbn [data blk1 set_last_touched set_data]; rewrite Hl; exact Hlen))
    as (s2 & Hrun2 & _ & _ & _ & Hsent2 & _).
  exists s1, s2, (readResponse cfg rd blk1 s1).
  refine (conj Hrun1 (conj Hrun2 (conj _ (conj eq_refl (conj _ _))))).
  - rewrite Hsent2, app_assoc. apply last_snoc.
  - cbn [getCmd readResponse setPayloadFrom responseTo]. rewrite Hcr. reflexivity.
  - cbn [getPayload readResponse setPayloadFrom data blk1 set_last_touched set_data
         baseAddr]. rewrite Hsize, Haddr, Hd.
    replace (Z.to_nat (getAddr w - baseAddr blk + getSize w))
      with (Z.to_nat (getAddr w - baseAddr blk) + Z.to_nat (getSize w))%nat by lia.
    apply written_range_read_back; lia.
Qed.

Lemma cpu_write_then_read_returns_written_witness :
  exists s1 s2 resp,
    handleCPURequest cfg_l1 (handleIncomingEvent cfg_l1 2) writeInside true st_exclusive
      = Ok (tt, s1)
    /\ handleCPURequest cfg_l1 (handleIncomingEvent cfg_l1 2) readInside true s1 = Ok (tt, s2)
    /\ last (sent s2) = Some (SendSelf 1 (SendCPUResponse resp (O, O) UPSTREAM))
    /\ getPayload resp = [200; 201; 202].
Proof.
  destruct (cpu_write_then_read_returns_written cfg_l1 (handleIncomingEvent cfg_l1 2)
              writeInside readInside true true st_exclusive (O, O) exclusiveBlock
              eq_refl eq_refl eq_refl eq_refl eq_refl eq_refl eq_refl eq_refl eq_refl eq_refl
              ltac:(discriminate) ltac:(simpl; lia) ltac:(simpl; lia) ltac:(simpl; lia)
              ltac:(simpl; lia) eq_refl ltac:(simpl; lia))
    as (s1 & s2 & resp & H1 & H2 & Hlast & _ & _ & Hpay).
  exists s1, s2, resp. refine (conj H1 (conj H2 (conj Hlast _))).
  rewrite Hpay. reflexivity.
Defined.

(** ** Block addresses *)

Lemma testbit_above (a m n : Z) : 0 <= a < 2 ^ m -> 0 <= m <= n -> Z.testbit a n = false.
Proof.
  intros [Ha Hlt] Hmn. destruct (Z.eq_dec a 0) as [->|Hne]; [apply Z.bits_0|].
  apply Z.bits_above_log2; [exact Ha|].
  assert (Z.log2 a < m) by (apply Z.log2_lt_pow2; lia). lia.
Qed.

Lemma block_mask (k : Z) :
  0 <= k < 32 -> lnot32 (2 ^ k - 1) = Z.shiftl (Z.ones (32 - k)) k.
Proof.
  intros Hk. unfold lnot32, wrap32.
  assert (H2k : 0 < 2 ^ k) by (apply Z.pow_pos_nonneg; lia).
  assert (Hlt : 2 ^ k <= 2 ^ 31) by (apply Z.pow_le_mono_r; lia).
  rewrite Z.mod_small by lia.
  rewrite Z.shiftl_mul_pow2, Z.ones_equiv by lia.
  rewrite <- Z.sub_1_r, Z.mul_sub_distr_r, <- Z.pow_add_r by lia.
  replace (32 - k + k) with 32 by lia. lia.
Qed.

Lemma land_block_mask (a k : Z) :
  0 <= k < 32 -> 0 <= a < 2 ^ 32 ->
  Z.land a (Z.shiftl (Z.ones (32 - k)) k) = 2 ^ k * (a / 2 ^ k).
Proof.
  intros Hk Ha.
  rewrite Z.mul_comm, <- Z.shiftr_div_pow2, <- Z.shiftl_mul_pow2 by lia.
  apply Z.bits_inj'. intros n Hn. rewrite Z.land_spec.
  destruct (Z.lt_ge_cases n k) as [Hlt|Hge].
  - rewrite !Z.shiftl_spec_low by exact Hlt. apply andb_false_r.
  - rewrite !Z.shiftl_spec by lia. rewrite Z.shiftr_spec by lia.
    replace (n - k + k) with n by lia.
    destruct (Z.lt_ge_cases n 32) as [H32|H32].
    + rewrite Z.ones_spec_low by lia. apply andb_true_r.
    + rewrite Z.ones_spec_high by lia. rewrite andb_false_r.
      symmetry. apply (testbit_above a 32 n); lia.
Qed.

(** X24.  For a block size that is a power of two and an address below
    2^32, [addrToBlockAddr] rounds the address down to a multiple of the
    block size: the result is the base of the block that contains the
    address, and it is its own block address. *)
Theorem addrToBlockAddr_rounds_down (cfg : Config) (addr k : Z) :
  blocksize cfg = 2 ^ k -> 0 <= k < 32 -> 0 <= addr < 2 ^ 32 ->
  addrToBlockAddr cfg addr = blocksize cfg * (addr / blocksize cfg)
  /\ addrToBlockAddr cfg addr <= addr < addrToBlockAddr cfg addr + blocksize cfg
  /\ addrToBlockAddr cfg (addrToBlockAddr cfg addr) = addrToBlockAddr cfg addr.
Proof.
  intros Hbs Hk Ha.
  assert (H2k : 0 < 2 ^ k) by (apply Z.pow_pos_nonneg; lia).
  assert (E : forall a, 0 <= a < 2 ^ 32 -> addrToBlockAddr cfg a = 2 ^ k * (a / 2 ^ k)).
  { intros a Hr. unfold addrToBlockAddr. rewrite Hbs, block_mask by exact Hk.
    apply land_block_mask; assumption. }
  rewrite (E addr Ha), Hbs.
  pose proof (Z.mul_div_le addr (2 ^ k) H2k) as Hle.
  pose proof (Z.mul_succ_div_gt addr (2 ^ k) H2k) as Hgt.
  assert (Hq : 0 <= addr / 2 ^ k) by (apply Z.div_pos; lia).
  refine (conj eq_refl (conj _ _)); [lia|].
  rewrite E by nia.
  rewrite (Z.mul_comm (2 ^ k) (addr / 2 ^ k)), Z.div_mul by lia. lia.
Qed.

Lemma addrToBlockAddr_rounds_down_witness :
  addrToBlockAddr cfg_l1 264 = 256 /\ addrToBlockAddr cfg_l1 256 = 256.
Proof.
  destruct (addrToBlockAddr_rounds_down cfg_l1 264 6 eq_refl ltac:(lia) ltac:(lia))
    as (H1 & _ & H3).
  split.
  - rewrite H1. reflexivity.
  - assert (E : addrToBlockAddr cfg_l1 264 = 256) by (rewrite H1; reflexivity).
    rewrite E in H3. exact H3.
Defined.

(** ** Counting the acknowledgements to wait for *)

Lemma modifyInvAt_run (cfg : Config) addr f s :
  modifyInvAt cfg addr f s
    = Ok (tt, set_invalidations
                (<[addr := f (default (defaultInvalidation cfg) (invalidations s !! addr))]>
                   (invalidations s)) s).
Proof.
  unfold modifyInvAt, modifyInvalidationAt, invalidationAt, bind, modify.
  destruct (invalidations s !! addr) as [i|]; [reflexivity|].
  cbn [invalidations set_invalidations default]. rewrite insert_insert_eq. reflexivity.
Qed.

Lemma issuingAt_modify (cfg : Config) addr s0 inv out s f :
  issuingAt addr s0 inv out s ->
  exists s', modifyInvAt cfg addr f s = Ok (tt, s') /\ issuingAt addr s0 (f inv) out s'.
Proof.
  intros (Hinv & Hsent & Hdb & Hnow & Hbq). eexists. split; [apply modifyInvAt_run|].
  rewrite Hinv. refine (conj _ (conj Hsent (conj Hdb (conj Hnow Hbq)))).
  apply lookup_insert_eq.
Qed.

Lemma issuingAt_send_count (cfg : Config) addr s0 inv out s (m : M unit) a :
  (forall st, m st = Ok (tt, set_sent (sent st ++ [a]) st)) ->
  issuingAt addr s0 inv out s ->
  exists s', (m ;;; incWaitingACKs cfg addr) s = Ok (tt, s')
    /\ issuingAt addr s0 (set_waitingACKs (waitingACKs inv + 1) inv) (out ++ [a]) s'.
Proof.
  intros Hm (Hinv & Hsent & Hdb & Hnow & Hbq). unfold bind. rewrite Hm.
  destruct (issuingAt_modify cfg addr s0 inv (out ++ [a]) (set_sent (sent s ++ [a]) s)
              (fun i => set_waitingACKs (waitingACKs i + 1) i)) as (s' & Hrun & HR).
  { refine (conj Hinv (conj _ (conj Hdb (conj Hnow Hbq)))).
    cbn [sent set_sent]. rewrite Hsent, app_assoc. reflexivity. }
  exists s'. split; [exact Hrun | exact HR].
Qed.

Lemma upstream_invalidates_run (cfg : Config) addr ev invEv s0 :
  forall (ils : list (nat * Z)) inv out s,
    Forall (fun il => (fst il < n_upstream cfg)%nat) ils ->
    issuingAt addr s0 inv out s ->
    exists s',
      forM_ ils (fun il =>
        if negb (snd il =? getLinkId ev) || negb (addrToBlockAddr cfg (getAddr ev) =? addr)
        then sendUpstream cfg (fst il) invEv ;;; incWaitingACKs cfg addr
        else ret tt) s = Ok (tt, s')
      /\ issuingAt addr s0
           (set_waitingACKs
              (waitingACKs inv
               + Z.of_nat (length (List.filter (reachesUpstream cfg ev addr) ils))) inv)
           (out ++ List.map (fun il => SendUpstream (fst il) invEv)
                     (List.filter (reachesUpstream cfg ev addr) ils)) s'.
Proof.
  induction ils as [|il r IH]; intros inv out s Hall HR.
  - exists s. split; [reflexivity|]. cbn [List.filter length List.map].
    rewrite app_nil_r, Z.add_0_r. destruct inv; exact HR.
  - apply Forall_cons in Hall as [Hil Hr].
    cbn [forM_ List.filter]. fold (reachesUpstream cfg ev addr il).
    destruct (reachesUpstream cfg ev addr il) eqn:Hc.
    + destruct (issuingAt_send_count cfg addr s0 inv out s
                  (sendUpstream cfg (fst il) invEv) (SendUpstream (fst il) invEv))
        as (s1 & Hrun1 & HR1); [|exact HR|].
      { intros st. unfold sendUpstream. apply Nat.ltb_lt in Hil. rewrite Hil. reflexivity. }
      destruct (IH _ _ s1 Hr HR1) as (s' & Hrun & HR').
      exists s'. split.
      * unfold bind at 1. rewrite Hrun1. exact Hrun.
      * cbn [length List.map waitingACKs set_waitingACKs] in *.
        rewrite <- app_assoc in HR'. cbn [app] in HR'.
        replace (waitingACKs inv + Z.of_nat (S (length (List.filter (reachesUpstream cfg ev addr) r))))
          with (waitingACKs inv + 1
                + Z.of_nat (length (List.filter (reachesUpstream cfg ev addr) r))) by lia.
        exact HR'.
    + destruct (IH inv out s Hr HR) as (s' & Hrun & HR').
      exists s'. split; [|exact HR']. unfold bind at 1, ret at 1. exact Hrun.
Qed.

Lemma imap_pair_indices {A} (l : list A) :
  Forall (fun il : nat * A => (fst il < length l)%nat) (imap pair l).
Proof.
  apply Forall_forall. intros x Hx.
  apply elem_of_lookup_imap in Hx as (i & y & -> & Hy).
  cbn [fst]. eapply lookup_lt_Some. exact Hy.
Qed.

Lemma issueInvalidate_addr_run (cfg : Config)
    (d : MemEvent -> SourceType_t -> bool -> bool -> M unit)
    (ev : MemEvent) (src : SourceType_t) (addr : Z) (direction : ForwardDir_t)
    (cancelable : bool) (s : Cache) :
  let old := default (defaultInvalidation cfg) (invalidations s !! addr) in
  let invEv := mkEvent (nextEventId s, 0) NO_ID Invalidate (getName cfg) BROADCAST_TARGET
                 addr 0 false false false [] (-1) in
  let copies := invalidateCopies cfg ev addr direction invEv in
  let n := Z.of_nat (length copies) + (if snoop_link cfg then 1 else 0) in
  0 < n ->
  exists s' inv,
    issueInvalidate_addr cfg d ev src addr direction cancelable s = Ok (tt, s')
    /\ sent s' = sent s ++ copies
    /\ invalidations s' !! addr = Some inv
    /\ waitingACKs inv = n
    /\ issuingEvent inv = (nextEventId s, 0)
    /\ canCancel inv = cancelable
    /\ inv_waitingEvents inv = inv_waitingEvents old ++ [(ev, src)]
    /\ inv_block inv = inv_block old
    /\ snoopBusQueue s' = snoopBusQueue s ++ invalidateOnBus cfg invEv
    /\ inv_busEvent inv = (if snoop_link cfg then Some invEv else inv_busEvent old)
    /\ newStatus inv = newStatus old
    /\ database s' = database s /\ currentSimTime s' = currentSimTime s.
Proof.
  intros old invEv copies n Hn.
  unfold issueInvalidate_addr.
  (* the record is opened *)
  unfold bind at 1. rewrite modifyInvAt_run. fold old.
  set (inv1 := set_canCancel cancelable
                 (set_waitingACKs 0
                    (set_inv_waitingEvents (inv_waitingEvents old ++ [(ev, src)]) old))).
  unfold bind at 1. rewrite newMemEvent_ok.
  cbn [nextEventId set_invalidations]. fold invEv.
  match goal with |- context [set_nextEventId ?a ?b] => set (s2 := set_nextEventId a b) end.
  assert (HR2 : issuingAt addr s inv1 [] s2).
  { refine (conj _ (conj _ (conj eq_refl (conj eq_refl eq_refl))));
      [apply lookup_insert_eq|].
    cbn. rewrite app_nil_r. reflexivity. }
  destruct (issuingAt_modify cfg addr s inv1 [] s2 (set_issuingEvent (getID invEv)) HR2)
    as (s3 & Hrun3 & HR3).
  unfold bind at 1. rewrite Hrun3.
  set (inv3 := set_issuingEvent (getID invEv) inv1) in *.
  (* the snoop bus: from here on the bus queue stays as [sB] has it *)
  set (sB := set_snoopBusQueue (snoopBusQueue s ++ invalidateOnBus cfg invEv) s).
  assert (Hbus : exists s4,
            when (snoop_link cfg)
              (busRequest invEv noHandlers ;;;
               incWaitingACKs cfg addr ;;;
               modifyInvAt cfg addr (set_inv_busEvent (Some invEv))) s3 = Ok (tt, s4)
            /\ issuingAt addr sB
                 (if snoop_link cfg
                  then set_inv_busEvent (Some invEv)
                         (set_waitingACKs (waitingACKs inv3 + 1) inv3)
                  else inv3) [] s4).
  { destruct HR3 as (Hi3 & Hs3 & Hd3 & Hn3 & Hq3).
    unfold sB, invalidateOnBus. destruct (snoop_link cfg).
    2:{ exists s3. split; [reflexivity|].
        refine (conj Hi3 (conj Hs3 (conj Hd3 (conj Hn3 _)))).
        cbn [snoopBusQueue set_snoopBusQueue]. rewrite app_nil_r. exact Hq3. }
    cbn [when]. unfold bind at 1. unfold busRequest at 1, modify at 1.
    match goal with |- context [set_snoopBusQueue ?a s3] => set (sb := set_snoopBusQueue a s3) end.
    assert (HRb : issuingAt addr
                    (set_snoopBusQueue (snoopBusQueue s ++ [(invEv, noHandlers)]) s)
                    inv3 [] sb).
    { refine (conj Hi3 (conj Hs3 (conj Hd3 (conj Hn3 _)))).
      unfold sb. cbn [snoopBusQueue set_snoopBusQueue]. rewrite Hq3. reflexivity. }
    destruct (issuingAt_modify cfg addr _ inv3 [] sb
                (fun i => set_waitingACKs (waitingACKs i + 1) i) HRb) as (sc & Hc & HRc).
    destruct (issuingAt_modify cfg addr _ (set_waitingACKs (waitingACKs inv3 + 1) inv3) [] sc
                (set_inv_busEvent (Some invEv)) HRc)
      as (s4 & H4 & HR4).
    exists s4. split; [|exact HR4].
    unfold bind at 1. unfold incWaitingACKs. rewrite Hc. exact H4. }
  destruct Hbus as (s4 & Hrun4 & HR4).
  unfold bind at 1. rewrite Hrun4.
  set (inv4 := if snoop_link cfg then _ else inv3) in *.
  (* downstream and directory *)
  set (downOK := downstream_link cfg && negb (String.eqb (next_level_name cfg) NO_NEXT_LEVEL)).
  set (outD := (if sendsDown direction then
                  (if downOK then [SendDownstream invEv] else [])
                  ++ (if directory_link cfg then [SendDirectory invEv] else [])
                else [])).
  assert (Hdown : exists s5 inv5,
            when (sendsDown direction)
              (when downOK (sendDownstream cfg invEv ;;; incWaitingACKs cfg addr) ;;;
               when (directory_link cfg)
                 (sendDirectory cfg invEv ;;; incWaitingACKs cfg addr)) s4 = Ok (tt, s5)
            /\ issuingAt addr sB inv5 outD s5
            /\ inv5 = set_waitingACKs (waitingACKs inv4 + Z.of_nat (length outD)) inv4).
  { assert (Hdk' : downOK = true -> downstream_link cfg = true).
    { unfold downOK. intros H. apply andb_true_iff in H as [H _]. exact H. }
    unfold outD. clearbody downOK inv4. clear outD.
    destruct (sendsDown direction).
    2:{ exists s4, inv4. split; [reflexivity|]. split; [exact HR4|].
        cbn [length]. rewrite Z.add_0_r. destruct inv4; reflexivity. }
    cbn [when].
    assert (Hd1 : exists sa inva,
              when downOK (sendDownstream cfg invEv ;;; incWaitingACKs cfg addr) s4
                = Ok (tt, sa)
              /\ issuingAt addr sB inva (if downOK then [SendDownstream invEv] else []) sa
              /\ inva = set_waitingACKs
                          (waitingACKs inv4 + (if downOK then 1 else 0)) inv4).
    { destruct downOK.
      - cbn [when].
        destruct (issuingAt_send_count cfg addr sB inv4 [] s4 (sendDownstream cfg invEv)
                    (SendDownstream invEv)) as (sa & Ha & HRa); [|exact HR4|].
        { intros st. unfold sendDownstream. rewrite (Hdk' eq_refl). reflexivity. }
        exists sa. eexists. split; [exact Ha|]. split; [exact HRa | reflexivity].
      - exists s4, inv4. split; [reflexivity|]. split; [exact HR4|].
        rewrite Z.add_0_r. destruct inv4; reflexivity. }
    destruct Hd1 as (sa & inva & Ha & HRa & Einva).
    unfold bind at 1. rewrite Ha.
    destruct (directory_link cfg) eqn:Hdl.
    - cbn [when].
      destruct (issuingAt_send_count cfg addr sB inva
                  (if downOK then [SendDownstream invEv] else []) sa (sendDirectory cfg invEv)
                  (SendDirectory invEv)) as (sb & Hb & HRb); [|exact HRa|].
      { intros st. unfold sendDirectory. rewrite Hdl. reflexivity. }
      exists sb. eexists. split; [exact Hb|]. split; [exact HRb|].
      subst inva. rewrite length_app.
      destruct downOK; destruct inv4 as [w0 q0 ie0 be0 ib0 ns0 cc0]; unfold set_waitingACKs;
        cbn [waitingACKs inv_waitingEvents issuingEvent inv_busEvent inv_block newStatus
             canCancel length app]; f_equal; lia.
    - exists sa, inva. split; [reflexivity|]. split.
      + rewrite app_nil_r. exact HRa.
      + subst inva. rewrite app_nil_r. destruct downOK; reflexivity. }
  destruct Hdown as (s5 & inv5 & Hrun5 & HR5 & Einv5).
  unfold bind at 1. fold downOK. rewrite Hrun5.
  (* upstream *)
  set (outU := if sendsUp direction
               then List.map (fun i => SendUpstream i invEv) (invalidatedUpstream cfg ev addr)
               else []).
  assert (Hup : exists s6 inv6,
            when (sendsUp direction)
              (forM_ (imap pair (upstream_links cfg)) (fun il =>
                 if negb (snd il =? getLinkId ev)
                    || negb (addrToBlockAddr cfg (getAddr ev) =? addr)
                 then sendUpstream cfg (fst il) invEv ;;; incWaitingACKs cfg addr
                 else ret tt)) s5 = Ok (tt, s6)
            /\ issuingAt addr sB inv6 (outD ++ outU) s6
            /\ inv6 = set_waitingACKs (waitingACKs inv5 + Z.of_nat (length outU)) inv5).
  { unfold outU. clearbody inv4. clear outU.
    destruct (sendsUp direction).
    - cbn [when].
      destruct (upstream_invalidates_run cfg addr ev invEv sB (imap pair (upstream_links cfg))
                  inv5 outD s5 (imap_pair_indices _) HR5) as (s6 & H6 & HR6).
      exists s6. eexists. split; [exact H6|]. split.
      + unfold invalidatedUpstream. rewrite List.map_map. exact HR6.
      + unfold invalidatedUpstream. rewrite !length_map. reflexivity.
    - exists s5, inv5. split; [reflexivity|]. split.
      + rewrite app_nil_r. exact HR5.
      + cbn [length]. rewrite Z.add_0_r. destruct inv5; reflexivity. }
  destruct Hup as (s6 & inv6 & Hrun6 & HR6 & Einv6).
  unfold bind at 1. rewrite Hrun6.
  (* somebody is waited for *)
  assert (Hcount : waitingACKs inv6 = n).
  { subst inv6 inv5. cbn [waitingACKs set_waitingACKs].
    unfold n, copies, invalidateCopies. fold downOK outD outU.
    rewrite length_app. unfold inv4, inv3, inv1.
    destruct (snoop_link cfg); cbn [waitingACKs set_waitingACKs set_inv_busEvent
      set_issuingEvent set_canCancel set_inv_waitingEvents]; lia. }
  destruct HR6 as (Hinv6 & Hsent6 & Hdb6 & Hnow6 & Hbq6).
  unfold bind at 1, invAt, invalidationAt. rewrite Hinv6.
  assert (Hnz : (waitingACKs inv6 =? 0) = false) by (apply Z.eqb_neq; lia).
  rewrite Hnz. cbn [when]. unfold ret.
  exists s6, inv6.
  refine (conj eq_refl (conj Hsent6 (conj Hinv6 (conj Hcount _)))).
  subst inv6 inv5. unfold inv4, inv3, inv1.
  destruct (snoop_link cfg); cbn;
    refine (conj eq_refl (conj eq_refl (conj eq_refl (conj eq_refl
              (conj Hbq6 (conj eq_refl (conj eq_refl (conj Hdb6 Hnow6)))))))).
Qed.


(** X25.  Issuing an invalidation of [addr] on behalf of [ev]: one copy of
    a fresh Invalidate event goes out on each channel the direction
    selects (the downstream link when a next level is named, the directory
    link, and every upstream link but the requester's own), one more is
    queued for the snoop bus when there is one, and the record for [addr]
    then waits for exactly as many acknowledgements as copies were issued.
    The record carries the id of the Invalidate event, the given
    cancelable mark, and [ev] at the end of its queue.  (At least one copy
    is issued.) *)
Theorem issueInvalidate_counts_copies (cfg : Config)
    (d : MemEvent -> SourceType_t -> bool -> bool -> M unit)
    (ev : MemEvent) (src : SourceType_t) (addr : Z) (direction : ForwardDir_t)
    (cancelable : bool) (s : Cache) :
  let old := default (defaultInvalidation cfg) (invalidations s !! addr) in
  let invEv := mkEvent (nextEventId s, 0) NO_ID Invalidate (getName cfg) BROADCAST_TARGET
                 addr 0 false false false [] (-1) in
  let copies := invalidateCopies cfg ev addr direction invEv in
  let n := Z.of_nat (length copies) + (if snoop_link cfg then 1 else 0) in
  0 < n ->
  exists s' inv,
    issueInvalidate_addr cfg d ev src addr direction cancelable s = Ok (tt, s')
    /\ sent s' = sent s ++ copies
    /\ invalidations s' !! addr = Some inv
    /\ waitingACKs inv = n
    /\ issuingEvent inv = (nextEventId s, 0)
    /\ canCancel inv = cancelable
    /\ inv_waitingEvents inv = inv_waitingEvents old ++ [(ev, src)]
    /\ inv_block inv = inv_block old
    /\ snoopBusQueue s' = snoopBusQueue s ++ invalidateOnBus cfg invEv
    /\ inv_busEvent inv = (if snoop_link cfg then Some invEv else inv_busEvent old).
Proof.
  intros old invEv copies n Hn.
  destruct (issueInvalidate_addr_run cfg d ev src addr direction cancelable s Hn)
    as (s' & inv & Hrun & Hsent & Hinv & Hcount & Hid & Hc & Hq & Hblk & Hbus & Hbe & _).
  exists s', inv.
  exact (conj Hrun (conj Hsent (conj Hinv (conj Hcount (conj Hid (conj Hc (conj Hq
           (conj Hblk (conj Hbus Hbe))))))))).
Qed.

Lemma issueInvalidate_counts_copies_witness :
  exists s' inv e,
    issueInvalidate_addr cfg_three_up_bus (handleIncomingEvent cfg_three_up_bus 2)
      invalidateFromAbove UPSTREAM 256 SEND_BOTH true st_dir_shared = Ok (tt, s')
    /\ sent s' = [SendDownstream e; SendUpstream 1 e; SendUpstream 2 e]
    /\ snoopBusQueue s' = [(e, noHandlers)]
    /\ getCmd e = Invalidate
    /\ invalidations s' !! 256 = Some inv
    /\ waitingACKs inv = 4
    /\ inv_busEvent inv = Some e.
Proof.
  destruct (issueInvalidate_counts_copies cfg_three_up_bus
              (handleIncomingEvent cfg_three_up_bus 2)
              invalidateFromAbove UPSTREAM 256 SEND_BOTH true st_dir_shared
              ltac:(vm_compute; reflexivity))
    as (s' & inv & Hrun & Hsent & Hinv & Hn & _ & _ & _ & _ & Hbus & Hbe).
  exists s', inv,
    (mkEvent (100, 0) NO_ID Invalidate "l2cache" BROADCAST_TARGET 256 0
       false false false [] (-1)).
  refine (conj Hrun (conj _ (conj _ (conj eq_refl (conj Hinv (conj _ _)))))).
  - rewrite Hsent. vm_compute. reflexivity.
  - rewrite Hbus. reflexivity.
  - rewrite Hn. vm_compute. reflexivity.
  - rewrite Hbe. reflexivity.
Defined.

(** ** A delayed fill *)

(** X26.  A SupplyData event flagged Delayed for a block that is being
    loaded (target block chosen, no request left on the bus) fills
    nothing.  When it was snooped, the waiters that came over the bus are
    struck from the load's list.  If that leaves no waiter at all, the load
    is given up: its record is erased and freed, and the block is detached
    from it, made Invalid if it was Assigned, and unlocked.  Otherwise the
    load stays as it is and the block stays reserved for it.  Nothing is
    sent.  (No event waiting on the block's row.) *)
Theorem handleCacheSupplyEvent_delayed (cfg : Config)
    (d : MemEvent -> SourceType_t -> bool -> bool -> M unit) (fuel : nat)
    (ev : MemEvent) (src : SourceType_t) (s s0 : Cache) (li : LoadInfoPtr)
    (l : LoadInfo_t) (tb : BlockRef) (blk : CacheBlock) (r : nat) :
  ~ (src = SNOOP /\ getSrc ev = getName cfg) ->
  when (bool_decide (src = SNOOP) && (blocksize cfg <=? getSize ev))
    (cancelCoveredSupplies cfg (coveredBlocks cfg ev) (addrToBlockAddr cfg (getAddr ev)) ev) s
    = Ok (tt, s0) ->
  waitingLoads s0 !! getAddr ev = Some li ->
  loadInfos s0 !! li = Some l ->
  li_busEvent l = None ->
  targetBlock l = Some tb ->
  lookupBlock tb s0 = Some blk ->
  queryFlag ev F_DELAYED = true ->
  findRow cfg (baseAddr blk) s0 = Ok (r, s0) ->
  rowIdle r s0 ->
  exists s',
    handleCacheSupplyEvent cfg d fuel ev src s = Ok (tt, s')
    /\ sent s' = sent s0
    /\ if (countSnoop src (li_list l) =? length (li_list l))%nat
       then waitingLoads s' = delete (getAddr ev) (waitingLoads s0)
            /\ loadInfos s' !! li = None
            /\ lookupBlock tb s'
                 = Some (unlock ((if isAssigned blk then set_status INVALID else fun x => x)
                                   (set_loadInfo None blk)))
       else waitingLoads s' = waitingLoads s0
            /\ loadInfos s' !! li
                 = Some (set_li_list (List.map (purgeSnoop src) (li_list l)) l)
            /\ lookupBlock tb s' = Some blk.
Proof.
  intros Hown Hpre Hwl Hl Hbe Htb Hb Hdel Hrow Hidle.
  unfold handleCacheSupplyEvent. rewrite (own_snoop_guard cfg ev src Hown).
  unfold bind at 1. rewrite Hpre.
  unfold bind at 1, get at 1. rewrite Hwl.
  unfold bind at 1. rewrite (getLoadInfo_ok _ _ _ Hl).
  rewrite Hbe, Htb, Hdel. unfold bind at 1, ret at 1.
  unfold bind at 1. unfold bind at 1.
  rewrite (modifyLoadInfo_ok _ _ _ _ Hl).
  match goal with |- context [set_loadInfos ?m s0] => set (s1 := set_loadInfos m s0) end.
  assert (Hb1 : lookupBlock tb s1 = Some blk) by exact Hb.
  assert (Hidle1 : rowIdle r s1) by exact Hidle.
  destruct (countSnoop src (li_list l) =? length (li_list l))%nat eqn:Hall; cbn [when].
  - unfold bind at 1. unfold bind at 1, modify at 1.
    unfold bind at 1. rewrite (modifyBlock_frame tb _ s1 _ blk Hb1) by reflexivity.
    unfold bind at 1, deleteLoadInfo at 1, modify at 1.
    match goal with |- context [set_loadInfos ?m (storeBlock tb ?x ?y)] =>
      set (s2 := set_loadInfos m (storeBlock tb x y)) end.
    assert (Hb2 : lookupBlock tb s2 = Some (set_loadInfo None blk))
      by (unfold s2; lookup_stored Hb1).
    unfold bind at 1. rewrite (getBlock_ok _ _ _ Hb2).
    set (blk3 := (if isAssigned blk then set_status INVALID else fun x => x)
                   (set_loadInfo None blk)).
    assert (Hstep3 : exists s3,
              when (isAssigned (set_loadInfo None blk)) (modifyBlock tb (set_status INVALID)) s2
                = Ok (tt, s3)
              /\ lookupBlock tb s3 = Some blk3 /\ sent s3 = sent s2
              /\ waitingLoads s3 = waitingLoads s2 /\ loadInfos s3 = loadInfos s2
              /\ rowIdle r s3).
    { unfold blk3. change (isAssigned (set_loadInfo None blk)) with (isAssigned blk).
      destruct (isAssigned blk); cbn [when].
      - rewrite (modifyBlock_ok _ _ _ _ Hb2). eexists. split; [reflexivity|].
        frame_simpl.
        refine (conj _ (conj eq_refl (conj eq_refl (conj eq_refl _)))).
        + apply (lookupBlock_storeBlock tb _ _ _ Hb2).
        + apply rowIdle_storeBlock. unfold s2.
          apply (rowIdle_frame r (storeBlock tb (set_loadInfo None blk)
                   (set_waitingLoads (delete (getAddr ev) (waitingLoads s1)) s1)));
            [reflexivity|].
          apply rowIdle_storeBlock. exact Hidle1.
      - exists s2. refine (conj eq_refl (conj Hb2 (conj eq_refl (conj eq_refl (conj eq_refl _))))).
        unfold s2.
        apply (rowIdle_frame r (storeBlock tb (set_loadInfo None blk)
                 (set_waitingLoads (delete (getAddr ev) (waitingLoads s1)) s1)));
          [reflexivity|].
        apply rowIdle_storeBlock. exact Hidle1. }
    destruct Hstep3 as (s3 & Hrun3 & Hb3 & Hsent3 & Hwl3 & Hli3 & Hidle3).
    unfold bind at 1. rewrite Hrun3. rewrite (modifyBlock_ok _ _ _ _ Hb3).
    set (s4 := storeBlock tb (unlock blk3) s3).
    assert (Hb4 : lookupBlock tb s4 = Some (unlock blk3))
      by (apply (lookupBlock_storeBlock tb _ _ _ Hb3)).
    unfold bind at 1. rewrite (getBlock_ok _ _ _ Hb4).
    assert (Hbase : baseAddr (unlock blk3) = baseAddr blk)
      by (unfold blk3; destruct (isAssigned blk); reflexivity).
    rewrite Hbase.
    assert (Hidle4 : rowIdle r s4) by (apply rowIdle_storeBlock, Hidle3).
    rewrite (findRow_stable cfg _ r s0 s4 Hrow (rowIdle_is_Some _ _ Hidle4)).
    rewrite (handlePendingEvents_idle r _ s4 Hidle4).
    exists s4. split; [reflexivity|]. unfold s4. frame_simpl.
    rewrite Hsent3, Hwl3, Hli3. unfold s2. frame_simpl.
    refine (conj eq_refl (conj eq_refl (conj _ Hb4))).
    apply lookup_delete_eq.
  - unfold ret at 1. unfold bind at 1. rewrite (getBlock_ok _ _ _ Hb1).
    unfold bind at 1.
    rewrite (findRow_stable cfg _ r s0 s1 Hrow (rowIdle_is_Some _ _ Hidle1)).
    rewrite (handlePendingEvents_idle r _ s1 Hidle1).
    exists s1. split; [reflexivity|].
    refine (conj eq_refl (conj eq_refl (conj _ Hb1))).
    apply lookup_insert_eq.
Qed.

Lemma handleCacheSupplyEvent_delayed_witness :
  exists s',
    handleCacheSupplyEvent cfg_bus (handleIncomingEvent cfg_bus 2) 3 delayedFill SNOOP
      st_snoop_loading = Ok (tt, s')
    /\ sent s' = []
    /\ waitingLoads s' = ∅
    /\ loadInfos s' !! 1%positive = None
    /\ option_map (fun x => (status x, locked x, loadInfo x)) (lookupBlock (O, O) s')
         = Some (INVALID, 0, None).
Proof.
  destruct (handleCacheSupplyEvent_delayed cfg_bus (handleIncomingEvent cfg_bus 2) 3
              delayedFill SNOOP st_snoop_loading st_snoop_loading 1%positive loadForSnooper
              (O, O) assignedBlock O
              ltac:(intros [_ H]; discriminate H) ltac:(vm_compute; reflexivity)
              eq_refl eq_refl eq_refl eq_refl eq_refl eq_refl eq_refl
              (ex_intro _ (mkRow [assignedBlock; emptyBlock] ∅) (conj eq_refl eq_refl)))
    as (s' & Hrun & Hsent & Hwl & Hli & Hblk).
  exists s'. refine (conj Hrun (conj Hsent (conj _ (conj Hli _)))).
  - rewrite Hwl. vm_compute. reflexivity.
  - rewrite Hblk. reflexivity.
Defined.


(** ** A supply overtaken by an invalidation *)

Lemma cancelSupply_scheduled key s si :
  supplyInProgress s !! key = Some si -> si_busEvent si = None ->
  cancelSupply key s
    = Ok (tt, set_supplyInProgress (<[key := mkSupplyInfo None true]> (supplyInProgress s)) s).
Proof.
  intros H Hbe. unfold cancelSupply, bind, get. rewrite H, Hbe. reflexivity.
Qed.

Lemma supplyData_canceled_run (cfg : Config) ev b src s blk si :
  lookupBlock b s = Some blk ->
  supplyInProgress s !! (baseAddr blk, src) = Some si ->
  canceled si = true ->
  supplyData cfg ev b src s
    = Ok (tt, set_supplyInProgress (delete (baseAddr blk, src) (supplyInProgress s))
                (storeBlock b (unlock blk) s)).
Proof.
  intros Hb Hsi Hc. unfold supplyData. mrun. rewrite (getBlock_ok _ _ _ Hb). cbv beta iota.
  rewrite Hsi. rewrite (modifyBlock_ok _ _ _ _ Hb), Hc. unfold eraseSupply. mrun.
  rewrite storeBlock_supplyInProgress. reflexivity.
Qed.

(** X27.  A block that is invalidated is not supplied afterwards.  A Shared
    block has a supply over the bus scheduled (not yet fired) when another
    cache's Invalidate for it is snooped, in its final phase, with no
    invalidation of the cache's own in progress: the block loses its data
    and nothing is sent; and when the scheduled [supplyData] then fires,
    whatever the request, it sends nothing and queues nothing for the bus,
    only gives back the lock taken for the supply and erases the supply
    record.  (No event waiting on the block's row.) *)
Theorem invalidated_block_is_not_supplied (cfg : Config)
    (d : MemEvent -> SourceType_t -> bool -> bool -> M unit)
    (ev : MemEvent) (fu : bool) (s : Cache) (b : BlockRef) (blk : CacheBlock)
    (r : nat) (si : SupplyInfo) :
  getSrc ev <> getName cfg ->
  findBlock cfg (getAddr ev) (findBlock_emptyOK cfg) s = Ok (Some b, s) ->
  lookupBlock b s = Some blk ->
  status blk = SHARED ->
  invalidations s !! baseAddr blk = None ->
  supplyInProgress s !! (baseAddr blk, SNOOP) = Some si ->
  si_busEvent si = None ->
  findRow cfg (baseAddr blk) s = Ok (r, s) ->
  rowIdle r s ->
  exists s1 s2,
    handleInvalidate cfg d ev SNOOP fu s = Ok (tt, s1)
    /\ sent s1 = sent s
    /\ option_map status (lookupBlock b s1) = Some (invalidatedStatus cfg SNOOP)
    /\ (forall rq, supplyData cfg rq b SNOOP s1 = Ok (tt, s2))
    /\ sent s2 = sent s
    /\ snoopBusQueue s2 = snoopBusQueue s
    /\ supplyInProgress s2 = delete (baseAddr blk, SNOOP) (supplyInProgress s)
    /\ option_map locked (lookupBlock b s2) = Some (locked blk - 1).
Proof.
  intros Hsrc Hfind Hb Hst Hinv Hsi Hbe Hrow Hidle.
  set (key := (baseAddr blk, SNOOP)) in *.
  set (sC := set_supplyInProgress (<[key := mkSupplyInfo None true]> (supplyInProgress s)) s).
  set (blk1 := set_status (invalidatedStatus cfg SNOOP) blk).
  pose proof (handleInvalidate_shared_run cfg d ev SNOOP fu s sC b blk r
                ltac:(intros [_ H]; exact (Hsrc H)) Hfind Hb Hst Hinv
                ltac:(right; left; reflexivity) Hrow Hidle
                (cancelSupply_scheduled key s si Hsi Hbe) eq_refl) as Hrun.
  cbv zeta in Hrun. rewrite (bool_decide_eq_true_2 (SNOOP = SNOOP) eq_refl) in Hrun.
  fold blk1 in Hrun.
  set (s1 := storeBlock b blk1 sC) in *.
  assert (Hb1 : lookupBlock b s1 = Some blk1)
    by (apply (lookupBlock_storeBlock_frame b s sC blk _ Hb); reflexivity).
  assert (Hsi1 : supplyInProgress s1 !! (baseAddr blk1, SNOOP) = Some (mkSupplyInfo None true)).
  { unfold s1. rewrite storeBlock_supplyInProgress. apply lookup_insert_eq. }
  exists s1. eexists.
  refine (conj Hrun (conj _ (conj _ (conj _ _)))).
  - unfold s1. rewrite storeBlock_sent. reflexivity.
  - rewrite Hb1. reflexivity.
  - intros rq. exact (supplyData_canceled_run cfg rq b SNOOP s1 blk1 _ Hb1 Hsi1 eq_refl).
  - cbn [sent snoopBusQueue supplyInProgress set_supplyInProgress]. unfold s1.
    rewrite !storeBlock_sent, !storeBlock_snoopBusQueue, !storeBlock_supplyInProgress.
    refine (conj eq_refl (conj eq_refl (conj _ _))).
    + cbn [supplyInProgress sC set_supplyInProgress]. apply delete_insert_eq.
    + rewrite (lookupBlock_frame b (storeBlock b (unlock blk1) (storeBlock b blk1 sC)))
        by reflexivity.
      rewrite (lookupBlock_storeBlock b _ blk1 (unlock blk1))
        by (apply (lookupBlock_storeBlock_frame b s sC blk _ Hb); reflexivity).
      reflexivity.
Qed.

Lemma invalidated_block_is_not_supplied_witness :
  exists s1 s2,
    handleInvalidate cfg_bus (handleIncomingEvent cfg_bus 2) snoopedInvalidate SNOOP true
      st_supply_snoop = Ok (tt, s1)
    /\ option_map status (lookupBlock (O, O) s1) = Some INVALID
    /\ supplyData cfg_bus snoopRequest (O, O) SNOOP s1 = Ok (tt, s2)
    /\ sent s2 = [] /\ snoopBusQueue s2 = []
    /\ supplyInProgress s2 = ∅.
Proof.
  destruct (invalidated_block_is_not_supplied cfg_bus (handleIncomingEvent cfg_bus 2)
              snoopedInvalidate true st_supply_snoop (O, O) lockedShared O
              (mkSupplyInfo None false)
              ltac:(discriminate) eq_refl eq_refl eq_refl eq_refl eq_refl eq_refl eq_refl
              (ex_intro _ (mkRow [lockedShared; emptyBlock] ∅) (conj eq_refl eq_refl)))
    as (s1 & s2 & Hrun & _ & Hst & Hfire & Hsent & Hbus & Hsip & _).
  exists s1, s2.
  refine (conj Hrun (conj Hst (conj (Hfire snoopRequest) (conj Hsent (conj Hbus _))))).
  rewrite Hsip. vm_compute. reflexivity.
Defined.

(** ** A refused invalidation *)

Lemma storeBlock_isL1 b x s : isL1 (storeBlock b x s) = isL1 s.
Proof. unfold storeBlock. destruct (database s !! b.1); reflexivity. Qed.

Lemma nackWaiting_L1_run (cfg : Config) (ev : MemEvent) (b : BlockRef) :
  forall (q : eventQueue_t) (s : Cache) (blk : CacheBlock),
    isL1 s = true ->
    findBlock cfg (getAddr ev) false s = Ok (Some b, s) ->
    lookupBlock b s = Some blk ->
    0 <= locked blk ->
    exists s' blk',
      forM_ q (nackWaiting cfg ev) s = Ok (tt, s')
      /\ sent s' = sent s ++ List.map retryLater q
      /\ invalidations s' = invalidations s
      /\ lookupBlock b s' = Some blk'
      /\ locked blk' = Z.max 0 (locked blk - Z.of_nat (length q))
      /\ status blk' = status blk /\ data blk' = data blk.
Proof.
  induction q as [|e q IH]; intros s blk HL1 Hfind Hb Hlk.
  - exists s, blk. cbn [forM_ List.map length]. rewrite app_nil_r.
    refine (conj eq_refl (conj eq_refl (conj eq_refl (conj Hb (conj _ (conj eq_refl eq_refl)))))).
    lia.
  - cbn [forM_]. unfold bind at 1. unfold nackWaiting at 1.
    unfold bind at 1, get at 1. rewrite HL1.
    unfold bind at 1. unfold bind at 1. rewrite Hfind.
    unfold bind at 1. rewrite (getBlock_ok _ _ _ Hb).
    set (blk1 := if isLocked blk then unlock blk else blk).
    set (s1 := if isLocked blk then storeBlock b (unlock blk) s else s).
    assert (Hstep : when (isLocked blk) (modifyBlock b unlock) s = Ok (tt, s1)).
    { unfold s1. destruct (isLocked blk); [apply (modifyBlock_ok _ _ _ _ Hb) | reflexivity]. }
    rewrite Hstep. unfold sendSelf, send, modify.
    set (s2 := set_sent (sent s1 ++ [SendSelf 1 (RetryEvent e.1 None e.2)]) s1).
    assert (Hb1 : lookupBlock b s1 = Some blk1).
    { unfold s1, blk1. destruct (isLocked blk); [|exact Hb].
      apply (lookupBlock_storeBlock b s blk _ Hb). }
    assert (Hfind1 : findBlock cfg (getAddr ev) false s1 = Ok (Some b, s1)).
    { unfold s1. destruct (isLocked blk); [|exact Hfind].
      apply (findBlock_storeBlock_same_key cfg _ _ s (Some b) b blk); auto. }
    assert (HL11 : isL1 s1 = true).
    { unfold s1. destruct (isLocked blk); [rewrite storeBlock_isL1|]; exact HL1. }
    assert (Hsent1 : sent s1 = sent s).
    { unfold s1. destruct (isLocked blk); [apply storeBlock_sent | reflexivity]. }
    assert (Hinv1 : invalidations s1 = invalidations s).
    { unfold s1. destruct (isLocked blk); [apply storeBlock_invalidations | reflexivity]. }
    assert (Hlk1 : locked blk1 = Z.max 0 (locked blk - 1) /\ status blk1 = status blk
                   /\ data blk1 = data blk).
    { unfold blk1, isLocked. destruct (0 <? locked blk) eqn:E.
      - apply Z.ltb_lt in E. cbn. repeat split. lia.
      - apply Z.ltb_ge in E. repeat split. lia. }
    destruct Hlk1 as (Hlk1 & Hst1 & Hd1).
    destruct (IH s2 blk1 HL11
                (findBlock_frame cfg _ _ s1 s2 _ Hfind1 eq_refl)
                ltac:(rewrite (lookupBlock_frame b s1 s2 eq_refl); exact Hb1)
                ltac:(lia))
      as (s' & blk' & Hrun & Hsent & Hinv & Hb' & Hlk' & Hst' & Hd').
    exists s', blk'.
    refine (conj Hrun (conj _ (conj _ (conj Hb' (conj _ (conj _ _)))))).
    + rewrite Hsent. cbn [sent s2 set_sent List.map]. rewrite Hsent1, <- app_assoc.
      reflexivity.
    + rewrite Hinv. exact Hinv1.
    + rewrite Hlk', Hlk1. cbn [length]. lia.
    + rewrite Hst'. exact Hst1.
    + rewrite Hd'. exact Hd1.
Qed.

(** X28.  A NACK that answers the Invalidate an L1 issued for a block it
    holds: the invalidation must be one that may be canceled (the assertion
    fails otherwise); its record is erased and every event that waited on
    it is rescheduled, in order, on the self link with delay 1.  The
    block's protocol lock is given back once per waiting event, as long as
    it is held; the block's status and data stay as they are. *)
Theorem handleNACK_retries_in_L1 (cfg : Config) (ev : MemEvent) (src : SourceType_t)
    (s : Cache) (i : Invalidation) (b : BlockRef) (blk : CacheBlock) :
  invalidations s !! getAddr ev = Some i ->
  getResponseToID ev = issuingEvent i ->
  isL1 s = true ->
  findBlock cfg (getAddr ev) false s = Ok (Some b, s) ->
  lookupBlock b s = Some blk ->
  0 <= locked blk ->
  (canCancel i = false -> handleNACK cfg ev src s = Err AssertFailed)
  /\ (canCancel i = true ->
      exists s' blk',
        handleNACK cfg ev src s = Ok (tt, s')
        /\ invalidations s' = delete (getAddr ev) (invalidations s)
        /\ sent s' = sent s ++ List.map retryLater (inv_waitingEvents i)
        /\ lookupBlock b s' = Some blk'
        /\ locked blk'
             = Z.max 0 (locked blk - Z.of_nat (length (inv_waitingEvents i)))
        /\ status blk' = status blk /\ data blk' = data blk).
Proof.
  intros Hi Hid HL1 Hfind Hb Hlk.
  assert (E : handleNACK cfg ev src s =
              (ASSERT (canCancel i) ;;;
               eraseInvalidation (getAddr ev) ;;;
               forM_ (inv_waitingEvents i) (nackWaiting cfg ev)) s).
  { unfold handleNACK. unfold bind at 1, get at 1. rewrite Hi.
    rewrite (proj2 (id_eqb_eq _ _) Hid). reflexivity. }
  rewrite E. split.
  - intros Hc. unfold bind, ASSERT. rewrite Hc. reflexivity.
  - intros Hc. unfold bind at 1, ASSERT. rewrite Hc. unfold ret at 1.
    unfold bind at 1, eraseInvalidation, modify.
    set (s1 := set_invalidations (delete (getAddr ev) (invalidations s)) s).
    destruct (nackWaiting_L1_run cfg ev b (inv_waitingEvents i) s1 blk HL1
                (findBlock_frame cfg _ _ s s1 _ Hfind eq_refl) Hb Hlk)
      as (s' & blk' & Hrun & Hsent & Hinv & Hb' & Hlk' & Hst' & Hd').
    exists s', blk'.
    exact (conj Hrun (conj Hinv (conj Hsent (conj Hb' (conj Hlk' (conj Hst' Hd')))))).
Qed.

Lemma handleNACK_retries_in_L1_witness :
  exists s' blk',
    handleNACK cfg_l1 nackUpgrade DOWNSTREAM (st_upgrading 1) = Ok (tt, s')
    /\ invalidations s' = ∅
    /\ sent s' = [SendSelf 1 (RetryEvent upgradeWrite None UPSTREAM);
                  SendSelf 1 (RetryEvent readHit None UPSTREAM)]
    /\ lookupBlock (O, O) s' = Some blk'
    /\ locked blk' = 0 /\ status blk' = SHARED.
Proof.
  destruct (proj2 (handleNACK_retries_in_L1 cfg_l1 nackUpgrade DOWNSTREAM (st_upgrading 1)
                     (upgradeRecord 1) (O, O) lockedShared eq_refl eq_refl eq_refl eq_refl
                     eq_refl ltac:(simpl; lia)) eq_refl)
    as (s' & blk' & Hrun & Hinv & Hsent & Hb & Hlk & Hst & _).
  exists s', blk'.
  refine (conj Hrun (conj _ (conj _ (conj Hb (conj _ Hst))))).
  - rewrite Hinv. vm_compute. reflexivity.
  - rewrite Hsent. reflexivity.
  - rewrite Hlk. reflexivity.
Defined.


(** ** A write that needs exclusivity *)

(** X29.  A CPU write without the lock flag that hits a block the cache
    does not hold Exclusive, with no invalidation of the block in progress:
    nothing is written.  The block is locked and touched, its data and
    status stay as they are, and an invalidation towards Exclusive is
    issued in both directions, with the write first in its queue: the
    copies of one fresh Invalidate event go out on the links, one more is
    queued for the snoop bus when there is one (and noted in the record),
    and the record waits for as many acknowledgements as copies were
    issued, the queued one included.  (At least one copy is issued.) *)
Theorem handleCPURequest_write_begins_upgrade (cfg : Config)
    (d : MemEvent -> SourceType_t -> bool -> bool -> M unit)
    (ev : MemEvent) (fp : bool) (s : Cache) (b : BlockRef) (blk : CacheBlock) :
  getCmd ev = WriteReq ->
  queryFlag ev F_LOCKED = false ->
  findBlock cfg (getAddr ev) false s = Ok (Some b, s) ->
  lookupBlock b s = Some blk ->
  status blk <> EXCLUSIVE ->
  invalidations s !! baseAddr blk = None ->
  let invEv := mkEvent (nextEventId s, 0) NO_ID Invalidate (getName cfg) BROADCAST_TARGET
                 (baseAddr blk) 0 false false false [] (-1) in
  let copies := invalidateCopies cfg ev (baseAddr blk) SEND_BOTH invEv in
  let n := Z.of_nat (length copies) + (if snoop_link cfg then 1 else 0) in
  0 < n ->
  exists s1 inv,
    handleCPURequest cfg d ev fp s = Ok (tt, s1)
    /\ lookupBlock b s1 = Some (set_last_touched (currentSimTime s) (lock blk))
    /\ sent s1 = sent s ++ (if fp then [NotifyAccess false true (getAddr ev)] else [])
                   ++ copies
    /\ invalidations s1 !! baseAddr blk = Some inv
    /\ waitingACKs inv = n
    /\ inv_block inv = Some b
    /\ newStatus inv = EXCLUSIVE
    /\ canCancel inv = issueInvalidate_cancelable cfg
    /\ inv_waitingEvents inv
         = inv_waitingEvents (defaultInvalidation cfg) ++ [(ev, UPSTREAM)]
    /\ snoopBusQueue s1 = snoopBusQueue s ++ invalidateOnBus cfg invEv
    /\ inv_busEvent inv = (if snoop_link cfg then Some invEv
                           else inv_busEvent (defaultInvalidation cfg)).
Proof.
  intros Hcmd Hlk Hfind Hb Hst Hinv invEv copies n Hn.
  unfold handleCPURequest, checkLockedWrite. rewrite Hcmd, Hlk.
  decide_consts. cbn [orb negb andb].
  unfold bind at 1, modify at 1. unfold bind at 1, ASSERT at 1, ret at 1.
  unfold bind at 1.
  rewrite (findBlock_frame cfg _ _ s (set_isL1 true s) _ Hfind eq_refl).
  unfold bind at 1.
  assert (Hnote : when fp (send (NotifyAccess false true (getAddr ev))) (set_isL1 true s)
                  = Ok (tt, if fp
                            then set_sent (sent s ++ [NotifyAccess false true (getAddr ev)])
                                   (set_isL1 true s)
                            else set_isL1 true s)) by (destruct fp; reflexivity).
  rewrite Hnote. unfold bind at 1, ret at 1.
  set (sA := if fp then _ else set_isL1 true s).
  assert (HdbA : database sA = database s) by (unfold sA; destruct fp; reflexivity).
  assert (HinvA : invalidations sA = invalidations s) by (unfold sA; destruct fp; reflexivity).
  assert (HnowA : currentSimTime sA = currentSimTime s)
    by (unfold sA; destruct fp; reflexivity).
  assert (HnextA : nextEventId sA = nextEventId s) by (unfold sA; destruct fp; reflexivity).
  assert (HsentA : sent sA = sent s ++ (if fp then [NotifyAccess false true (getAddr ev)]
                                        else [])).
  { unfold sA. destruct fp; [reflexivity|]. rewrite app_nil_r. reflexivity. }
  unfold bind at 1. rewrite (getBlock_frame b s sA blk Hb HdbA).
  rewrite (bool_decide_eq_false_2 (status blk = EXCLUSIVE)) by exact Hst.
  unfold bind at 1. unfold bind at 1.
  assert (Hbump : when fp (bump inc_upgrade_miss) sA
                  = Ok (tt, if fp then set_stats (inc_upgrade_miss (stats sA)) sA else sA))
    by (destruct fp; reflexivity).
  rewrite Hbump.
  set (sB := if fp then set_stats _ sA else sA).
  assert (HdbB : database sB = database s) by (unfold sB; destruct fp; exact HdbA).
  assert (HinvB : invalidations sB = invalidations s) by (unfold sB; destruct fp; exact HinvA).
  assert (HnowB : currentSimTime sB = currentSimTime s)
    by (unfold sB; destruct fp; exact HnowA).
  assert (HnextB : nextEventId sB = nextEventId s) by (unfold sB; destruct fp; exact HnextA).
  assert (HsentB : sent sB = sent sA) by (unfold sB; destruct fp; reflexivity).
  unfold bind at 1, waitingForInvalidate at 1. unfold bind at 1, get at 1, ret at 1.
  rewrite HinvB, Hinv.
  (* the invalidation is issued for the block *)
  unfold issueInvalidate_block.
  assert (HbB : lookupBlock b sB = Some blk)
    by (rewrite (lookupBlock_frame b s sB HdbB); exact Hb).
  unfold bind at 1. rewrite (modifyBlock_ok _ _ _ _ HbB).
  set (sC := storeBlock b (lock blk) sB).
  assert (HbC : lookupBlock b sC = Some (lock blk))
    by (apply (lookupBlock_storeBlock b sB blk _ HbB)).
  unfold bind at 1. rewrite (getBlock_ok _ _ _ HbC).
  change (baseAddr (lock blk)) with (baseAddr blk).
  unfold bind at 1. rewrite modifyInvAt_run.
  unfold bind at 1. rewrite modifyInvAt_run.
  cbn [invalidations set_invalidations]. rewrite lookup_insert_eq, insert_insert_eq.
  cbn [default].
  unfold sC at 1. rewrite storeBlock_invalidations, HinvB, Hinv. cbn [default].
  match goal with |- context [set_invalidations ?m (set_invalidations ?m' sC)] =>
    set (sD := set_invalidations m (set_invalidations m' sC)) end.
  assert (HinvD : invalidations sD !! baseAddr blk
                  = Some (set_newStatus EXCLUSIVE
                            (set_inv_block (Some b) (defaultInvalidation cfg))))
    by apply lookup_insert_eq.
  assert (HnextD : nextEventId sD = nextEventId s).
  { unfold sD. cbn [nextEventId set_invalidations]. unfold sC.
    rewrite storeBlock_nextEventId. exact HnextB. }
  assert (HsentD : sent sD = sent sA).
  { unfold sD. cbn [sent set_invalidations]. unfold sC. rewrite storeBlock_sent.
    exact HsentB. }
  assert (HnowD : currentSimTime sD = currentSimTime s).
  { unfold sD. cbn [currentSimTime set_invalidations]. unfold sC.
    rewrite storeBlock_currentSimTime. exact HnowB. }
  assert (HbD : lookupBlock b sD = Some (lock blk)) by exact HbC.
  assert (HbusD : snoopBusQueue sD = snoopBusQueue s).
  { unfold sD. cbn [snoopBusQueue set_invalidations]. unfold sC.
    rewrite storeBlock_snoopBusQueue. unfold sB, sA. destruct fp; reflexivity. }
  destruct (issueInvalidate_addr_run cfg d ev UPSTREAM (baseAddr blk) SEND_BOTH
              (issueInvalidate_cancelable cfg) sD
              ltac:(rewrite HnextD; exact Hn))
    as (sE & inv & HrunE & HsentE & HinvE & Hcount & _ & Hc & Hq & Hblk & Hbus & Hbe & Hns
        & HdbE & HnowE).
  rewrite HinvD in Hq, Hblk, Hns, Hbe. cbn [default] in Hq, Hblk, Hns, Hbe.
  rewrite HnextD in HsentE, Hcount, Hbus, Hbe. rewrite HbusD in Hbus.
  rewrite HrunE.
  unfold touch, bind, getCurrentSimTime.
  assert (HbE : lookupBlock b sE = Some (lock blk))
    by (rewrite (lookupBlock_frame b sD sE HdbE); exact HbD).
  rewrite (modifyBlock_ok _ _ _ _ HbE). rewrite HnowE, HnowD.
  exists (storeBlock b (set_last_touched (currentSimTime s) (lock blk)) sE), inv.
  refine (conj eq_refl (conj _ (conj _ (conj _ (conj Hcount (conj Hblk (conj Hns
            (conj Hc (conj Hq (conj _ Hbe)))))))))).
  - apply (lookupBlock_storeBlock b sE _ _ HbE).
  - rewrite storeBlock_sent, HsentE, HsentD, HsentA, <- app_assoc. reflexivity.
  - rewrite storeBlock_invalidations. exact HinvE.
  - rewrite storeBlock_snoopBusQueue. exact Hbus.
Qed.

Lemma handleCPURequest_write_begins_upgrade_witness :
  exists s1 inv e,
    handleCPURequest cfg_l1_bus (handleIncomingEvent cfg_l1_bus 2) upgradeWrite true st_shared
      = Ok (tt, s1)
    /\ option_map (fun x => (status x, locked x, data x)) (lookupBlock (O, O) s1)
         = Some (SHARED, 1, data sharedBlock)
    /\ e = mkEvent (100, 0) NO_ID Invalidate "l1cache" BROADCAST_TARGET 256 0
             false false false [] (-1)
    /\ sent s1 = [NotifyAccess false true 260]
    /\ snoopBusQueue s1 = [(e, noHandlers)]
    /\ invalidations s1 !! 256 = Some inv
    /\ waitingACKs inv = 1
    /\ inv_busEvent inv = Some e
    /\ inv_waitingEvents inv = [(upgradeWrite, UPSTREAM)].
Proof.
  destruct (handleCPURequest_write_begins_upgrade cfg_l1_bus
              (handleIncomingEvent cfg_l1_bus 2)
              upgradeWrite true st_shared (O, O) sharedBlock eq_refl eq_refl eq_refl eq_refl
              ltac:(discriminate) eq_refl ltac:(vm_compute; reflexivity))
    as (s1 & inv & Hrun & Hb & Hsent & Hinv & Hn & _ & _ & _ & Hq & Hbus & Hbe).
  exists s1, inv, (mkEvent (100, 0) NO_ID Invalidate "l1cache" BROADCAST_TARGET 256 0
                     false false false [] (-1)).
  refine (conj Hrun (conj _ (conj eq_refl (conj _ (conj _ (conj Hinv (conj _
            (conj _ Hq)))))))).
  - rewrite Hb. reflexivity.
  - rewrite Hsent. vm_compute. reflexivity.
  - rewrite Hbus. reflexivity.
  - rewrite Hn. vm_compute. reflexivity.
  - rewrite Hbe. reflexivity.
Defined.

(** ** Requests from peers *)












(** With no load outstanding for the block and a free way, the miss of a
    peer begins a fresh load, and the fill request scheduled by it goes to
    the next level when it fires. *)
Example peer_miss_begins_fresh_load :
  exists s s2 req,
    handleCacheRequestEvent cfg_l1 (handleIncomingEvent cfg_l1 3)
      reqUp UPSTREAM true st_init = Ok (tt, s)
    /\ waitingLoads s !! 256 = Some 1%positive
    /\ option_map (fun blk => (status blk, locked blk, loadInfo blk)) (lookupBlock (O, O) s)
         = Some (ASSIGNED, 1, Some 1%positive)
    /\ sent s = [NotifyAccess true false 256;
                 SendSelf 1 (FinishLoadBlock 1%positive 256 (O, O))]
    /\ finishLoadBlock cfg_l1 1%positive 256 (O, O) s = Ok (tt, s2)
    /\ sent s2 = sent s ++ [SendDownstream req]
    /\ getCmd req = RequestData /\ getAddr req = 256 /\ getSize req = 64.
Proof. eexists _, _, _. vm_compute. repeat split. Qed.
